(** * Unified SOC Platform: hunt query construction and indicator classification

    A shallow embedding of [threat-hunting/app.py] (class [ThreatHunter]) and
    of [ai-chat/app.py] (class [SOCAnalyzer]), with the properties of the
    query builders, of the indicator classifier and of the report assembly
    that the specification states.

    Layout:
    - [Py]  : the fragment of Python values the two services manipulate
              (str, dict, list, slicing, [dict.get], exceptions, datetime);
    - [Re]  : regular expressions as [re.match] reads them;
    - [ThreatHunting] : [ThreatHunter];
    - [AiChat]        : [SOCAnalyzer];
    - [Spec] : the vocabulary in which the properties are stated (time
               bounds of a search body, recorded requests, octets, UTC
               days, excerpts) and a small concrete world.

    The definitions come first; the lemmas and the properties follow. *)

From Stdlib Require Import List ZArith NArith Bool String Ascii DecimalString Lia.
Import ListNotations.

Set Implicit Arguments.
Set Warnings "-register-all".

(* ===================================================================== *)
(** * Python values *)
(* ===================================================================== *)

Module Py.

(** A Python [str] is a sequence of Unicode code points. *)
Definition pystr := list N.

(** The literals of the source, written as Rocq strings. *)
Definition lit (s : string) : pystr :=
  map N_of_ascii (list_ascii_of_string s).

Definition chr (a : ascii) : N := N_of_ascii a.

(** The literals of the source that contain double quotes: written here
    with an apostrophe wherever the source has a double quote (no such
    literal of the source contains an apostrophe). *)
Definition litq (s : string) : pystr :=
  map (fun c => if N.eqb c 39 then 34%N else c) (lit s).

(** The double-quote character and the line feed. *)
Definition dq : pystr := [34%N].
Definition nl : pystr := [10%N].

Fixpoint pystr_eqb (a b : pystr) : bool :=
  match a, b with
  | [], [] => true
  | x :: a', y :: b' => N.eqb x y && pystr_eqb a' b'
  | _, _ => false
  end.

(** [a in b] on two strings: [a] occurs in [b] as a substring. *)
Fixpoint is_prefix (a b : pystr) : bool :=
  match a, b with
  | [], _ => true
  | x :: a', y :: b' => N.eqb x y && is_prefix a' b'
  | _ :: _, [] => false
  end.

Fixpoint is_infix (a b : pystr) : bool :=
  is_prefix a b ||
  match b with
  | [] => false
  | _ :: b' => is_infix a b'
  end.

(** ** Values

    What [json] decoding and the Elasticsearch client hand to the program,
    and what the program builds from literals. Dictionaries keep their
    insertion order; their keys are strings. A float is kept as its
    IEEE-754 bit pattern: the program never computes with one. *)
Inductive pyval : Set :=
| PNone
| PBool (b : bool)
| PInt (z : Z)
| PFloat (bits : Z)
| PStr (s : pystr)
| PList (l : list pyval)
| PDict (d : list (pystr * pyval)).

Definition dict := list (pystr * pyval).

(** The exceptions that can reach an [except Exception] clause of the
    program: those the interpreter raises on a missing key or on an
    operation a value does not support, and those a collaborator raises
    (the search backend, the model endpoint), told apart by their detail. *)
Inductive exn : Set :=
| KeyError (k : pystr)
| TypeError
| AttributeError
| Fault (detail : pystr).

Inductive outcome (A : Type) : Type :=
| Ok (a : A)
| Raise (e : exn).

Arguments Ok {A} a.
Arguments Raise {A} e.

Definition obind {A B} (o : outcome A) (f : A -> outcome B) : outcome B :=
  match o with
  | Ok a => f a
  | Raise e => Raise e
  end.

(** ** dict *)

Fixpoint dict_get (d : dict) (k : pystr) : option pyval :=
  match d with
  | [] => None
  | (k', v) :: d' => if pystr_eqb k' k then Some v else dict_get d' k
  end.

(** [d[k] = v]: the value of an existing key is replaced where it stands, a
    new key goes to the end. *)
Fixpoint dict_set (d : dict) (k : pystr) (v : pyval) : dict :=
  match d with
  | [] => [(k, v)]
  | (k', v') :: d' =>
      if pystr_eqb k' k then (k', v) :: d' else (k', v') :: dict_set d' k v
  end.

Definition dict_has (d : dict) (k : pystr) : bool :=
  match dict_get d k with Some _ => true | None => false end.

Definition keys (d : dict) : list pystr := map fst d.

(** ** Operations on values *)

(** [v[k]] with a string [k]. *)
Definition subscript (v : pyval) (k : pystr) : outcome pyval :=
  match v with
  | PDict d => match dict_get d k with Some x => Ok x | None => Raise (KeyError k) end
  | _ => Raise TypeError
  end.

(** [v.get(k, default)]: only a dict has the method. *)
Definition py_get (v : pyval) (k : pystr) (default : pyval) : outcome pyval :=
  match v with
  | PDict d => Ok (match dict_get d k with Some x => x | None => default end)
  | _ => Raise AttributeError
  end.

(** [k in v] with a string [k]: a key of a dict, a substring of a str, an
    element of a list. *)
Definition py_in (k : pystr) (v : pyval) : outcome bool :=
  match v with
  | PDict d => Ok (dict_has d k)
  | PStr s => Ok (is_infix k s)
  | PList l =>
      Ok (existsb (fun x => match x with PStr s => pystr_eqb s k | _ => false end) l)
  | _ => Raise TypeError
  end.

(** [v[:n]]. *)
Definition slice_to (n : nat) (v : pyval) : outcome pyval :=
  match v with
  | PStr s => Ok (PStr (firstn n s))
  | PList l => Ok (PList (firstn n l))
  | _ => Raise TypeError
  end.

(** [for x in v]: the elements of a list, the characters of a str, the keys
    of a dict. *)
Definition py_iter (v : pyval) : outcome (list pyval) :=
  match v with
  | PList l => Ok l
  | PStr s => Ok (map (fun c => PStr [c]) s)
  | PDict d => Ok (map (fun kv => PStr (fst kv)) d)
  | _ => Raise TypeError
  end.

(** [v + n] for an int [n]. *)
Definition py_add (v : pyval) (n : Z) : outcome pyval :=
  match v with
  | PInt a => Ok (PInt (a + n))
  | PBool b => Ok (PInt ((if b then 1 else 0) + n))
  | _ => Raise TypeError
  end.

(** [v == s] for a string [s]. *)
Definition eq_str (v : pyval) (s : pystr) : bool :=
  match v with
  | PStr t => pystr_eqb t s
  | _ => false
  end.

(** The truth value of a str: non-empty. *)
Definition truthy_str (s : pystr) : bool :=
  match s with [] => false | _ :: _ => true end.

(** [v != s] for a string [s]. *)
Definition differs_from_str (v : pyval) (s : pystr) : bool :=
  match v with
  | PStr t => negb (pystr_eqb t s)
  | _ => true
  end.

(** ** datetime

    A naive [datetime], as [datetime.utcnow()] returns it, is kept as its
    number of microseconds since 1970-01-01T00:00:00; a [timedelta] as a
    number of microseconds. The clock reads far from [datetime.min], so that
    subtracting a few days is plain subtraction. *)
Definition datetime := Z.
Definition timedelta := Z.

Definition hours (n : Z) : timedelta := (n * 3600 * 1000000)%Z.
Definition days (n : Z) : timedelta := (n * 86400 * 1000000)%Z.

Definition digit (n : Z) : N := (48 + Z.to_N (n mod 10))%N.
Definition pad2 (n : Z) : pystr := [digit (n / 10); digit n].
Definition pad4 (n : Z) : pystr := [digit (n / 1000); digit (n / 100); digit (n / 10); digit n].
Definition pad6 (n : Z) : pystr := pad2 (n / 10000) ++ pad4 n.

(** Year, month and day of a day number counted from 1970-01-01 in the
    proleptic Gregorian calendar. *)
Definition civil_of_days (z : Z) : Z * Z * Z :=
  let z := (z + 719468)%Z in
  let era := (z / 146097)%Z in
  let doe := (z - era * 146097)%Z in
  let yoe := ((doe - doe / 1460 + doe / 36524 - doe / 146096) / 365)%Z in
  let doy := (doe - (365 * yoe + yoe / 4 - yoe / 100))%Z in
  let mp := ((5 * doy + 2) / 153)%Z in
  let d := (doy - (153 * mp + 2) / 5 + 1)%Z in
  let m := if (mp <? 10)%Z then (mp + 3)%Z else (mp - 9)%Z in
  let y := (yoe + era * 400 + (if (m <=? 2)%Z then 1 else 0))%Z in
  (y, m, d).

(** [t.isoformat()]: [YYYY-MM-DDTHH:MM:SS], then [.ffffff] unless the
    microseconds are zero. *)
Definition isoformat (t : datetime) : pystr :=
  let day := (t / 86400000000)%Z in
  let us_of_day := (t mod 86400000000)%Z in
  let '(y, m, d) := civil_of_days day in
  let secs := (us_of_day / 1000000)%Z in
  let us := (us_of_day mod 1000000)%Z in
  pad4 y ++ lit "-" ++ pad2 m ++ lit "-" ++ pad2 d ++ lit "T" ++
  pad2 (secs / 3600) ++ lit ":" ++ pad2 (secs / 60 mod 60) ++ lit ":" ++ pad2 (secs mod 60) ++
  (if (us =? 0)%Z then [] else lit "." ++ pad6 us).

(** ** The world outside the program

    The clock, the search backend, the model endpoint, and the
    interpreter's own renderings: [str(e)] of an exception and [str(v)] of
    a value that is not a string. *)
Record World := {
  state : Type;
  utcnow : state -> datetime * state;
  es_search : pystr -> pyval -> state -> outcome pyval * state;
  http_post : pystr -> pyval -> state -> outcome (Z * outcome pyval) * state;
  ollama_url : pystr;
  str_exn : exn -> pystr;
  str_value : pyval -> pystr
}.

(** [str(n)] of an int. *)
Definition str_int (n : Z) : pystr :=
  lit (DecimalString.NilZero.string_of_int (Z.to_int n)).

(** [f"{v}"]: a str as it is, [None], a bool and an int by their names and
    digits, anything else as the interpreter prints it. *)
Definition format_value (E : World) (v : pyval) : pystr :=
  match v with
  | PStr s => s
  | PNone => lit "None"
  | PBool true => lit "True"
  | PBool false => lit "False"
  | PInt n => str_int n
  | _ => str_value E v
  end.

(** Computations that read the clock and call the collaborators, and that
    may raise. *)
Definition M (E : World) (A : Type) : Type := state E -> outcome A * state E.

Definition ret {E A} (a : A) : M E A := fun w => (Ok a, w).

Definition raise {E A} (e : exn) : M E A := fun w => (Raise e, w).

Definition bind {E A B} (m : M E A) (f : A -> M E B) : M E B :=
  fun w =>
    match m w with
    | (Ok a, w') => f a w'
    | (Raise e, w') => (Raise e, w')
    end.

(** [try: m  except Exception as e: h e]. *)
Definition try_except {E A} (m : M E A) (h : exn -> M E A) : M E A :=
  fun w =>
    match m w with
    | (Ok a, w') => (Ok a, w')
    | (Raise e, w') => h e w'
    end.

Definition lift {E A} (o : outcome A) : M E A := fun w => (o, w).

Definition now_ (E : World) : M E datetime :=
  fun w => let '(t, w') := utcnow E w in (Ok t, w').

(** The module-level [es]: the client, or [None] when its construction
    failed. *)
Inductive es_client : Set := Elasticsearch.

(** [es.search(index=index, body=body)]; on [None] the attribute lookup
    fails. *)
Definition search (E : World) (es : option es_client) (index : pystr) (body : pyval)
  : M E pyval :=
  match es with
  | Some _ => es_search E index body
  | None => raise AttributeError
  end.

Declare Scope py_scope.
Delimit Scope py_scope with py.

Notation "x <- m ;; k" := (bind m (fun x => k))
  (at level 61, m at next level, right associativity) : py_scope.

(** ** Literals *)

Definition item (k : pystr) (v : pyval) : pystr * pyval := (k, v).

Notation "k --> v" := (item k v) (at level 70, no associativity) : py_scope.

Notation "x <~ o ;; k" := (obind o (fun x => k))
  (at level 61, o at next level, right associativity) : py_scope.

Coercion lit : string >-> pystr.
Coercion PStr : pystr >-> pyval.
Coercion PInt : Z >-> pyval.

(** [{"error": msg}] *)
Definition error_dict (msg : pystr) : pyval := PDict [item (lit "error") (PStr msg)].

End Py.

Import Py.

(* ===================================================================== *)
(** * Regular expressions, as [re.match] reads them *)
(* ===================================================================== *)

Module Re.

(** A character class [[...]] or [[^...]]: a list of code-point ranges,
    possibly complemented. *)
Record cset : Set := { negated : bool; members : list (N * N) }.

Definition in_ranges (c : N) (l : list (N * N)) : bool :=
  existsb (fun r => N.leb (fst r) c && N.leb c (snd r)) l.

Definition cset_mem (cs : cset) (c : N) : bool :=
  xorb (negated cs) (in_ranges c (members cs)).

Inductive regex : Set :=
| Void
| Eps
| Cls (cs : cset)
| Cat (r1 r2 : regex)
| Alt (r1 r2 : regex)
| Star (r : regex).

(** The words of a pattern. [re] explores every alternative and every
    repetition count by backtracking before it gives up, so a search
    anchored at both ends succeeds exactly on the words of the pattern. *)
Inductive lang : regex -> pystr -> Prop :=
| L_eps : lang Eps []
| L_cls cs c : cset_mem cs c = true -> lang (Cls cs) [c]
| L_cat r1 r2 s1 s2 : lang r1 s1 -> lang r2 s2 -> lang (Cat r1 r2) (s1 ++ s2)
| L_alt_l r1 r2 s : lang r1 s -> lang (Alt r1 r2) s
| L_alt_r r1 r2 s : lang r2 s -> lang (Alt r1 r2) s
| L_star_nil r : lang (Star r) []
| L_star_more r s1 s2 : lang r s1 -> lang (Star r) s2 -> lang (Star r) (s1 ++ s2).

(** ** The matcher: derivatives, with dead branches pruned *)

Fixpoint nullable (r : regex) : bool :=
  match r with
  | Void => false
  | Eps => true
  | Cls _ => false
  | Cat r1 r2 => nullable r1 && nullable r2
  | Alt r1 r2 => nullable r1 || nullable r2
  | Star _ => true
  end.

Definition mk_cat (r1 r2 : regex) : regex :=
  match r1 with
  | Void => Void
  | Eps => r2
  | _ => Cat r1 r2
  end.

Definition mk_alt (r1 r2 : regex) : regex :=
  match r1 with
  | Void => r2
  | _ => match r2 with Void => r1 | _ => Alt r1 r2 end
  end.

Fixpoint deriv (c : N) (r : regex) : regex :=
  match r with
  | Void => Void
  | Eps => Void
  | Cls cs => if cset_mem cs c then Eps else Void
  | Cat r1 r2 =>
      mk_alt (mk_cat (deriv c r1) r2) (if nullable r1 then deriv c r2 else Void)
  | Alt r1 r2 => mk_alt (deriv c r1) (deriv c r2)
  | Star r0 => mk_cat (deriv c r0) (Star r0)
  end.

Fixpoint matchb (r : regex) (s : pystr) : bool :=
  match s with
  | [] => nullable r
  | c :: s' => matchb (deriv c r) s'
  end.

(** ** Pattern syntax *)

Definition Chr (c : N) : regex := Cls {| negated := false; members := [(c, c)] |}.
Definition Opt (r : regex) : regex := Alt r Eps.           (* r?     *)
Definition Plus (r : regex) : regex := Cat r (Star r).     (* r+     *)

Fixpoint Rep (n : nat) (r : regex) : regex :=               (* r{n}   *)
  match n with
  | O => Eps
  | S k => Cat r (Rep k r)
  end.

Fixpoint UpTo (n : nat) (r : regex) : regex :=              (* r{0,n} *)
  match n with
  | O => Eps
  | S k => Opt (Cat r (UpTo k r))
  end.

Definition AtLeast (n : nat) (r : regex) : regex :=         (* r{n,}  *)
  Cat (Rep n r) (Star r).

Fixpoint Lit (s : pystr) : regex :=
  match s with
  | [] => Eps
  | c :: s' => Cat (Chr c) (Lit s')
  end.

Fixpoint Seq (rs : list regex) : regex :=
  match rs with
  | [] => Eps
  | [r] => r
  | r :: rs' => Cat r (Seq rs')
  end.

Definition one (a : ascii) : N * N := (chr a, chr a).
Definition range (a b : ascii) : N * N := (chr a, chr b).
Definition Class (l : list (N * N)) : regex := Cls {| negated := false; members := l |}.
Definition NotClass (l : list (N * N)) : regex := Cls {| negated := true; members := l |}.

(** [\s] on a [str] pattern: the code points for which [str.isspace] holds. *)
Definition whitespace : list (N * N) :=
  [ (9, 13); (28, 32); (133, 133); (160, 160); (5760, 5760); (8192, 8202);
    (8232, 8233); (8239, 8239); (8287, 8287); (12288, 12288) ]%N.

Definition is_space (c : N) : bool := in_ranges c whitespace.

(** [.] without [re.DOTALL]: any character but the line feed. *)
Definition Dot : regex := NotClass [(10, 10)%N].

(** [re.match(p, s)] for a pattern [p] of the form [^r$]. [^] holds at the
    start, where [re.match] begins anyway; [$] (no [re.MULTILINE]) holds at
    the end of [s] and also just before a line feed that ends [s]. *)
Definition re_match_anchored (r : regex) (s : pystr) : bool :=
  matchb r s ||
  match rev s with
  | c :: p => N.eqb c 10 && matchb r (rev p)
  | [] => false
  end.

End Re.

Import Re.

(* ===================================================================== *)
(** * threat-hunting/app.py: [ThreatHunter] *)
(* ===================================================================== *)

Module ThreatHunting.

Local Open Scope string_scope.
Local Open Scope list_scope.
Local Open Scope py_scope.

(** ** [self.attack_patterns] *)

Definition technique (name query description : pystr) : pyval :=
  PDict [ "name" --> name; "query" --> query; "description" --> description ].

Definition attack_patterns : dict :=
  [ "T1078" --> technique "Valid Accounts"
      (litq "event.category:authentication AND event.outcome:success AND user.name:('admin' OR 'administrator' OR 'root')")
      "Detect use of valid accounts for unauthorized access";
    "T1110" --> technique "Brute Force"
      "event.category:authentication AND event.outcome:failure"
      "Multiple failed authentication attempts";
    "T1059" --> technique "Command and Scripting Interpreter"
      (litq "process.name:('cmd.exe' OR 'powershell.exe' OR 'bash' OR 'sh') AND process.args:*")
      "Suspicious command line activity";
    "T1055" --> technique "Process Injection"
      (litq "event.category:process AND process.name:('svchost.exe' OR 'winlogon.exe' OR 'lsass.exe')")
      "Potential process injection activity";
    "T1071" --> technique "Application Layer Protocol"
      (litq "network.protocol:('http' OR 'https' OR 'dns') AND destination.port:(80 OR 443 OR 53)")
      "Suspicious network protocol usage";
    "T1105" --> technique "Ingress Tool Transfer"
      (litq "file.extension:('exe' OR 'dll' OR 'bat' OR 'ps1' OR 'sh') AND file.path:*")
      "File transfers and tool deployment" ].

(** ** [self.ioc_patterns] *)

Inductive ioc_kind : Set := ip | domain | md5 | sha1 | sha256 | email | url | unknown.

Definition kind_name (k : ioc_kind) : pystr :=
  match k with
  | ip => "ip"
  | domain => "domain"
  | md5 => "md5"
  | sha1 => "sha1"
  | sha256 => "sha256"
  | email => "email"
  | url => "url"
  | unknown => "unknown"
  end.

Definition Char (a : ascii) : regex := Chr (chr a).

Definition digit09 : regex := Class [range "0" "9"].
Definition alnum : regex := Class [range "a" "z"; range "A" "Z"; range "0" "9"].
Definition alnum_hyphen : regex :=
  Class [range "a" "z"; range "A" "Z"; range "0" "9"; one "-"].
Definition alpha : regex := Class [range "a" "z"; range "A" "Z"].
Definition hex : regex := Class [range "a" "f"; range "A" "F"; range "0" "9"].

(** [(?:25[0-5]|2[0-4][0-9]|[01]?[0-9][0-9]?)] *)
Definition octet : regex :=
  Alt (Seq [Lit "25"; Class [range "0" "5"]])
 (Alt (Seq [Char "2"; Class [range "0" "4"]; digit09])
      (Seq [Opt (Class [one "0"; one "1"]); digit09; Opt digit09])).

(** [^(?:(?:25[0-5]|2[0-4][0-9]|[01]?[0-9][0-9]?)\.){3}(?:25[0-5]|2[0-4][0-9]|[01]?[0-9][0-9]?)$] *)
Definition ip_pattern : regex :=
  Cat (Rep 3 (Cat octet (Char "."))) octet.

(** [^(?:[a-zA-Z0-9](?:[a-zA-Z0-9-]{0,61}[a-zA-Z0-9])?\.)+[a-zA-Z]{2,}$] *)
Definition domain_pattern : regex :=
  Cat (Plus (Seq [alnum; Opt (Cat (UpTo 61 alnum_hyphen) alnum); Char "."]))
      (AtLeast 2 alpha).

(** [^[a-fA-F0-9]{32}$], [^[a-fA-F0-9]{40}$], [^[a-fA-F0-9]{64}$] *)
Definition md5_pattern : regex := Rep 32 hex.
Definition sha1_pattern : regex := Rep 40 hex.
Definition sha256_pattern : regex := Rep 64 hex.

(** [^[a-zA-Z0-9._%+-]+@[a-zA-Z0-9.-]+\.[a-zA-Z]{2,}$] *)
Definition email_pattern : regex :=
  Seq [ Plus (Class [range "a" "z"; range "A" "Z"; range "0" "9";
                     one "."; one "_"; one "%"; one "+"; one "-"]);
        Char "@";
        Plus (Class [range "a" "z"; range "A" "Z"; range "0" "9"; one "."; one "-"]);
        Char ".";
        AtLeast 2 alpha ].

(** [^https?://[^\s/$.?#].[^\s]*$] *)
Definition url_pattern : regex :=
  Seq [ Lit "http"; Opt (Char "s"); Lit "://";
        NotClass (whitespace ++ [one "/"; one "$"; one "."; one "?"; one "#"]);
        Dot;
        Star (NotClass whitespace) ].

(** The dict keeps the order in which the source lists its keys. *)
Definition ioc_patterns : list (ioc_kind * regex) :=
  [ (ip, ip_pattern); (domain, domain_pattern); (md5, md5_pattern);
    (sha1, sha1_pattern); (sha256, sha256_pattern); (email, email_pattern);
    (url, url_pattern) ].

(** ** [_detect_ioc_type] *)

Fixpoint first_match (patterns : list (ioc_kind * regex)) (ioc : pystr) : ioc_kind :=
  match patterns with
  | [] => unknown
  | (ioc_type, pattern) :: rest =>
      if re_match_anchored pattern ioc then ioc_type else first_match rest ioc
  end.

Definition _detect_ioc_type (ioc : pystr) : ioc_kind :=
  first_match ioc_patterns ioc.

(** ** [_build_ioc_query] *)

Definition _build_ioc_query (ioc : pystr) (ioc_type : ioc_kind) : pystr :=
  match ioc_type with
  | ip =>
      litq "(source.ip:'" ++ ioc ++ litq "' OR destination.ip:'" ++ ioc ++
      litq "' OR client.ip:'" ++ ioc ++ litq "' OR server.ip:'" ++ ioc ++ litq "')"
  | domain =>
      litq "(domain:'" ++ ioc ++ litq "' OR url.domain:'" ++ ioc ++
      litq "' OR dns.question.name:'" ++ ioc ++ litq "')"
  | md5 | sha1 | sha256 =>
      litq "(file.hash.md5:'" ++ ioc ++ litq "' OR file.hash.sha1:'" ++ ioc ++
      litq "' OR file.hash.sha256:'" ++ ioc ++ litq "')"
  | email =>
      litq "(email.from.address:'" ++ ioc ++ litq "' OR email.to.address:'" ++ ioc ++
      litq "' OR user.email:'" ++ ioc ++ litq "')"
  | url =>
      litq "(url.original:'" ++ ioc ++ litq "' OR url.full:'" ++ ioc ++ litq "')"
  | unknown =>
      dq ++ ioc ++ dq
  end.

(** ** The time window of [hunt_mitre_attack] and [hunt_iocs]

    Both methods carry the same chain:
    [if time_range == '1h': ... elif '24h': ... elif '7d': ... else: now - timedelta(hours=24)]. *)
Definition hunt_start_time (now : datetime) (time_range : pystr) : datetime :=
  if pystr_eqb time_range "1h" then (now - hours 1)%Z
  else if pystr_eqb time_range "24h" then (now - hours 24)%Z
  else if pystr_eqb time_range "7d" then (now - days 7)%Z
  else (now - hours 24)%Z.

(** ** [_create_timeline] *)

(** One turn of the loop over [hits]. *)
Definition timeline_step (timeline : dict) (hit : pyval) : outcome dict :=
  source <~ subscript hit "_source" ;;
  timestamp <~ py_get source "@timestamp" "Unknown" ;;
  if differs_from_str timestamp "Unknown" then
    date_key <~ slice_to 10 timestamp ;;
    match date_key with
    | PStr k =>
        let timeline := if dict_has timeline k then timeline else dict_set timeline k 0%Z in
        count <~ subscript (PDict timeline) k ;;
        count' <~ py_add count 1 ;;
        Ok (dict_set timeline k count')
    | _ => Raise TypeError   (* a list is not hashable *)
    end
  else Ok timeline.

Fixpoint timeline_loop (timeline : dict) (hits : list pyval) : outcome dict :=
  match hits with
  | [] => Ok timeline
  | hit :: rest =>
      timeline' <~ timeline_step timeline hit ;;
      timeline_loop timeline' rest
  end.

Definition _create_timeline (hits : pyval) : outcome pyval :=
  hits <~ py_iter hits ;;
  timeline <~ timeline_loop [] hits ;;
  Ok (PDict timeline).

(** ** [hunt_mitre_attack] *)

Definition mitre_search_body (query : pyval) (start_time : datetime) : pyval :=
  PDict [
    "query" --> PDict [
      "bool" --> PDict [
        "must" --> PList [
          PDict [ "query_string" --> PDict [ "query" --> query ] ];
          PDict [ "range" --> PDict [ "@timestamp" --> PDict [ "gte" --> isoformat start_time ] ] ]
        ]
      ]
    ];
    "size" --> 100%Z;
    "sort" --> PList [ PDict [ "@timestamp" --> PDict [ "order" --> "desc" ] ] ];
    "aggs" --> PDict [
      "hosts" --> PDict [ "terms" --> PDict [ "field" --> "host.name.keyword"; "size" --> 10%Z ] ];
      "users" --> PDict [ "terms" --> PDict [ "field" --> "user.name.keyword"; "size" --> 10%Z ] ]
    ]
  ].

Definition hunt_mitre_attack (E : World) (es : option es_client)
    (technique_id time_range : pystr) : M E pyval :=
  match es with
  | None => ret (error_dict "Elasticsearch not connected")
  | Some _ =>
      match dict_get attack_patterns technique_id with
      | None => ret (error_dict (lit "Unknown MITRE ATT&CK technique: " ++ technique_id))
      | Some technique =>
          try_except
            (now <- now_ E ;;
             let start_time := hunt_start_time now time_range in
             query <- lift (subscript technique "query") ;;
             let search_body := mitre_search_body query start_time in
             result <- search E es "*" search_body ;;
             hits <- lift (h <~ subscript result "hits" ;; subscript h "hits") ;;
             timeline <- lift (_create_timeline hits) ;;
             ret (PDict [ "technique" --> technique;
                          "results" --> result;
                          "timeline" --> timeline ]))
            (fun e => ret (error_dict (str_exn E e)))
      end
  end.

(** ** [hunt_iocs] *)

Definition ioc_search_body (query : pystr) (start_time : datetime) : pyval :=
  PDict [
    "query" --> PDict [
      "bool" --> PDict [
        "must" --> PList [
          PDict [ "query_string" --> PDict [ "query" --> query ] ];
          PDict [ "range" --> PDict [ "@timestamp" --> PDict [ "gte" --> isoformat start_time ] ] ]
        ]
      ]
    ];
    "size" --> 50%Z;
    "sort" --> PList [ PDict [ "@timestamp" --> PDict [ "order" --> "desc" ] ] ]
  ].

(** The body of the [try] of one turn, up to the value stored under
    [results[ioc]]. *)
Definition ioc_attempt (E : World) (es : option es_client)
    (query : pystr) (ioc_type : ioc_kind) (time_range : pystr) : M E pyval :=
  now <- now_ E ;;
  let start_time := hunt_start_time now time_range in
  let search_body := ioc_search_body query start_time in
  result <- search E es "*" search_body ;;
  matches <- lift (h <~ subscript result "hits" ;;
                   t <~ subscript h "total" ;;
                   subscript t "value") ;;
  hits <- lift (h <~ subscript result "hits" ;; subscript h "hits") ;;
  ret (PDict [ "type" --> kind_name ioc_type;
               "matches" --> matches;
               "hits" --> hits ]).

Fixpoint hunt_iocs_loop (E : World) (es : option es_client) (time_range : pystr)
    (iocs : list pystr) (results : dict) : M E dict :=
  match iocs with
  | [] => ret results
  | ioc :: rest =>
      let ioc_type := _detect_ioc_type ioc in
      let query := _build_ioc_query ioc ioc_type in
      if truthy_str query then
        results' <-
          try_except
            (entry <- ioc_attempt E es query ioc_type time_range ;;
             ret (dict_set results ioc entry))
            (fun e => ret (dict_set results ioc (error_dict (str_exn E e)))) ;;
        hunt_iocs_loop E es time_range rest results'
      else hunt_iocs_loop E es time_range rest results
  end.

Definition hunt_iocs (E : World) (es : option es_client)
    (iocs : list pystr) (time_range : pystr) : M E pyval :=
  match es with
  | None => ret (error_dict "Elasticsearch not connected")
  | Some _ =>
      results <- hunt_iocs_loop E es time_range iocs [] ;;
      ret (PDict results)
  end.

(** ** The four anomaly sub-hunts *)

Definition unusual_login_body (time_range : pystr) : pyval :=
  PDict [
    "query" --> PDict [
      "bool" --> PDict [
        "must" --> PList [
          PDict [ "term" --> PDict [ "event.category" --> "authentication" ] ];
          PDict [ "term" --> PDict [ "event.outcome" --> "success" ] ];
          PDict [ "range" --> PDict [ "@timestamp" --> PDict [ "gte" --> PStr (lit "now-" ++ time_range) ] ] ]
        ];
        "should" --> PList [
          PDict [ "range" --> PDict [ "@timestamp" -->
                    PDict [ "time_zone" --> "UTC"; "format" --> "hour"; "gte" --> "22" ] ] ];
          PDict [ "range" --> PDict [ "@timestamp" -->
                    PDict [ "time_zone" --> "UTC"; "format" --> "hour"; "lt" --> "06" ] ] ]
        ]
      ]
    ];
    "size" --> 20%Z;
    "sort" --> PList [ PDict [ "@timestamp" --> PDict [ "order" --> "desc" ] ] ]
  ].

Definition privilege_escalation_body (time_range : pystr) : pyval :=
  PDict [
    "query" --> PDict [
      "bool" --> PDict [
        "must" --> PList [
          PDict [ "query_string" --> PDict [ "query" -->
                    litq "process.args:('runas' OR 'sudo' OR 'su' OR 'net user' OR 'net group')" ] ];
          PDict [ "range" --> PDict [ "@timestamp" --> PDict [ "gte" --> PStr (lit "now-" ++ time_range) ] ] ]
        ]
      ]
    ];
    "size" --> 20%Z;
    "sort" --> PList [ PDict [ "@timestamp" --> PDict [ "order" --> "desc" ] ] ]
  ].

Definition data_exfiltration_body (time_range : pystr) : pyval :=
  PDict [
    "query" --> PDict [
      "bool" --> PDict [
        "must" --> PList [
          PDict [ "range" --> PDict [ "network.bytes" --> PDict [ "gte" --> 10485760%Z ] ] ];
          PDict [ "term" --> PDict [ "network.direction" --> "outbound" ] ];
          PDict [ "range" --> PDict [ "@timestamp" --> PDict [ "gte" --> PStr (lit "now-" ++ time_range) ] ] ]
        ]
      ]
    ];
    "size" --> 20%Z;
    "sort" --> PList [ PDict [ "network.bytes" --> PDict [ "order" --> "desc" ] ] ]
  ].

Definition lateral_movement_body (time_range : pystr) : pyval :=
  PDict [
    "query" --> PDict [
      "bool" --> PDict [
        "must" --> PList [
          PDict [ "query_string" --> PDict [ "query" -->
                    litq "process.name:('net.exe' OR 'psexec.exe' OR 'wmic.exe' OR 'ssh.exe')" ] ];
          PDict [ "range" --> PDict [ "@timestamp" --> PDict [ "gte" --> PStr (lit "now-" ++ time_range) ] ] ]
        ]
      ]
    ];
    "size" --> 20%Z;
    "sort" --> PList [ PDict [ "@timestamp" --> PDict [ "order" --> "desc" ] ] ]
  ].

(** Each sub-hunt is [try: result = self.es.search(index="*", body=search_body);
    return result  except Exception as e: return {"error": str(e)}]. *)
Definition sub_hunt (E : World) (es : option es_client) (search_body : pyval) : M E pyval :=
  try_except
    (result <- search E es "*" search_body ;; ret result)
    (fun e => ret (error_dict (str_exn E e))).

Definition _hunt_unusual_login_times (E : World) (es : option es_client)
    (time_range : pystr) : M E pyval :=
  sub_hunt E es (unusual_login_body time_range).

Definition _hunt_privilege_escalation (E : World) (es : option es_client)
    (time_range : pystr) : M E pyval :=
  sub_hunt E es (privilege_escalation_body time_range).

Definition _hunt_data_exfiltration (E : World) (es : option es_client)
    (time_range : pystr) : M E pyval :=
  sub_hunt E es (data_exfiltration_body time_range).

Definition _hunt_lateral_movement (E : World) (es : option es_client)
    (time_range : pystr) : M E pyval :=
  sub_hunt E es (lateral_movement_body time_range).

(** ** [hunt_anomalies] *)

Definition hunt_anomalies (E : World) (es : option es_client)
    (time_range : pystr) : M E pyval :=
  match es with
  | None => ret (error_dict "Elasticsearch not connected")
  | Some _ =>
      let anomalies : dict := [] in
      r <- _hunt_unusual_login_times E es time_range ;;
      let anomalies := dict_set anomalies "unusual_logins" r in
      r <- _hunt_privilege_escalation E es time_range ;;
      let anomalies := dict_set anomalies "privilege_escalation" r in
      r <- _hunt_data_exfiltration E es time_range ;;
      let anomalies := dict_set anomalies "data_exfiltration" r in
      r <- _hunt_lateral_movement E es time_range ;;
      let anomalies := dict_set anomalies "lateral_movement" r in
      ret (PDict anomalies)
  end.

(** ** [hunt_iocs] on what the route hands it

    The route gives the method whatever the JSON body holds under [iocs]
    and [time_range]. [re.match] raises [TypeError] on an indicator that is
    not a string, in [_detect_ioc_type], before the [try]. The token is
    only compared with ['1h'], ['24h'] and ['7d']: one that is not a string
    equals none of them, as the empty text does. *)
Definition token_text (time_range : pyval) : pystr :=
  match time_range with
  | PStr s => s
  | _ => []
  end.

Fixpoint hunt_iocs_loop_any (E : World) (es : option es_client) (time_range : pyval)
    (iocs : list pyval) (results : dict) : M E dict :=
  match iocs with
  | [] => ret results
  | PStr ioc :: rest =>
      let ioc_type := _detect_ioc_type ioc in
      let query := _build_ioc_query ioc ioc_type in
      if truthy_str query then
        results' <-
          try_except
            (entry <- ioc_attempt E es query ioc_type (token_text time_range) ;;
             ret (dict_set results ioc entry))
            (fun e => ret (dict_set results ioc (error_dict (str_exn E e)))) ;;
        hunt_iocs_loop_any E es time_range rest results'
      else hunt_iocs_loop_any E es time_range rest results
  | _ :: _ => raise TypeError
  end.

Definition hunt_iocs_any (E : World) (es : option es_client)
    (iocs time_range : pyval) : M E pyval :=
  match es with
  | None => ret (error_dict "Elasticsearch not connected")
  | Some _ =>
      iocs <- lift (py_iter iocs) ;;
      results <- hunt_iocs_loop_any E es time_range iocs [] ;;
      ret (PDict results)
  end.

(** The route [/api/hunt/iocs]: [data] is the decoded JSON body. *)
Definition hunt_iocs_route (E : World) (es : option es_client) (data : pyval) : M E pyval :=
  iocs <- lift (py_get data "iocs" (PList [])) ;;
  time_range <- lift (py_get data "time_range" "24h") ;;
  hunt_iocs_any E es iocs time_range.

End ThreatHunting.

(* ===================================================================== *)
(** * ai-chat/app.py: [SOCAnalyzer] *)
(* ===================================================================== *)

Module AiChat.

Local Open Scope string_scope.
Local Open Scope list_scope.
Local Open Scope py_scope.

(** ** [search_logs] *)

(** [if time_range == '1h': ... elif '24h': ... elif '7d': ...
    else: now - timedelta(hours=1)]. *)
Definition search_start_time (now : datetime) (time_range : pystr) : datetime :=
  if pystr_eqb time_range "1h" then (now - hours 1)%Z
  else if pystr_eqb time_range "24h" then (now - hours 24)%Z
  else if pystr_eqb time_range "7d" then (now - days 7)%Z
  else (now - hours 1)%Z.

Definition search_logs_body (query : pyval) (start_time : datetime) : pyval :=
  PDict [
    "query" --> PDict [
      "bool" --> PDict [
        "must" --> PList [
          PDict [ "query_string" --> PDict [ "query" --> query ] ];
          PDict [ "range" --> PDict [ "@timestamp" --> PDict [ "gte" --> isoformat start_time ] ] ]
        ]
      ]
    ];
    "size" --> 50%Z;
    "sort" --> PList [ PDict [ "@timestamp" --> PDict [ "order" --> "desc" ] ] ]
  ].

Definition search_logs (E : World) (es : option es_client)
    (query : pyval) (time_range : pystr) (index_pattern : pystr) : M E pyval :=
  match es with
  | None => ret (error_dict "Elasticsearch not connected")
  | Some _ =>
      try_except
        (now <- now_ E ;;
         let start_time := search_start_time now time_range in
         let search_body := search_logs_body query start_time in
         result <- search E es index_pattern search_body ;;
         ret result)
        (fun e => ret (error_dict (str_exn E e)))
  end.

(** ** [get_security_alerts] *)

Definition security_alerts_body (severity limit : pyval) : pyval :=
  PDict [
    "query" --> PDict [
      "bool" --> PDict [
        "must" --> PList [
          PDict [ "term" --> PDict [ "event.category" --> "security" ] ];
          PDict [ "range" --> PDict [ "@timestamp" --> PDict [ "gte" --> "now-24h" ] ] ]
        ];
        "should" --> PList [
          PDict [ "term" --> PDict [ "event.severity" --> severity ] ]
        ]
      ]
    ];
    "size" --> limit;
    "sort" --> PList [ PDict [ "@timestamp" --> PDict [ "order" --> "desc" ] ] ]
  ].

Definition get_security_alerts (E : World) (es : option es_client)
    (severity limit : pyval) : M E pyval :=
  match es with
  | None => ret (error_dict "Elasticsearch not connected")
  | Some _ =>
      try_except
        (result <- search E es "wazuh-alerts-*" (security_alerts_body severity limit) ;;
         ret result)
        (fun e => ret (error_dict (str_exn E e)))
  end.

(** ** [analyze_with_ai] *)

(** One turn of the loop over the first hits: the text added to
    [log_context]. The default of the outer [get] is evaluated before the
    call, whether or not [message] is present. *)
Definition log_line (E : World) (hit : pyval) : outcome pystr :=
  source <~ subscript hit "_source" ;;
  timestamp <~ py_get source "@timestamp" "Unknown" ;;
  event <~ py_get source "event" (PDict []) ;;
  original <~ py_get event "original" "No message" ;;
  message <~ py_get source "message" original ;;
  Ok (lit "Time: " ++ format_value E timestamp ++ nl ++
      lit "Log: " ++ format_value E message ++ nl ++ nl).

Fixpoint log_lines (E : World) (log_context : pystr) (hits : list pyval) : outcome pystr :=
  match hits with
  | [] => Ok log_context
  | hit :: rest =>
      line <~ log_line E hit ;;
      log_lines E (log_context ++ line) rest
  end.

(** The value of [log_context] after the loop. *)
Definition log_context (E : World) (logs_data : pyval) : outcome pystr :=
  has_hits <~ py_in "hits" logs_data ;;
  if has_hits then
    inner <~ subscript logs_data "hits" ;;
    has_inner <~ py_in "hits" inner ;;
    if has_inner then
      inner <~ subscript logs_data "hits" ;;
      hits <~ subscript inner "hits" ;;
      first10 <~ slice_to 10 hits ;;
      hits <~ py_iter first10 ;;
      log_lines E [] hits
    else Ok []
  else Ok [].

Definition prompt_head : pystr :=
  nl ++ lit "You are a cybersecurity expert analyzing SOC logs. Based on the following log data, answer the user's question." ++ nl ++
  nl ++ lit "LOG DATA:" ++ nl.

Definition prompt_middle : pystr :=
  lit "  # Limit context length" ++ nl ++
  nl ++ lit "USER QUESTION: ".

Definition prompt_tail : pystr :=
  nl ++
  nl ++ lit "Please provide:" ++ nl ++
  lit "1. A clear analysis of the logs" ++ nl ++
  lit "2. Any security concerns or patterns identified" ++ nl ++
  lit "3. Recommended actions if applicable" ++ nl ++
  lit "4. Risk assessment (Low/Medium/High)" ++ nl ++
  nl ++ lit "Keep your response focused and actionable for SOC analysts." ++ nl.

(** The f-string assigned to [prompt]. *)
Definition prompt (E : World) (logs_data question : pyval) : outcome pystr :=
  log_context <~ log_context E logs_data ;;
  Ok (prompt_head ++ firstn 2000 log_context ++ prompt_middle ++
      format_value E question ++ prompt_tail).

Definition analyze_with_ai (E : World) (logs_data question : pyval) : M E pyval :=
  try_except
    (prompt <- lift (prompt E logs_data question) ;;
     response <- http_post E (ollama_url E ++ lit "/api/generate")
                   (PDict [ "model" --> "llama3"; "prompt" --> prompt; "stream" --> PBool false ]) ;;
     let '(status_code, json) := response in
     if (status_code =? 200)%Z then
       result <- lift json ;;
       answer <- lift (py_get result "response" "No response from AI model") ;;
       ret answer
     else ret (PStr (lit "AI model error: " ++ str_int status_code)))
    (fun e => ret (PStr (lit "AI analysis error: " ++ str_exn E e))).

(** ** The socket handlers

    A handler emits events to the client while it runs. It is modelled as
    a computation that also yields the events emitted, in order; the events
    emitted before an exception are kept. [emit] itself is taken not to
    raise. *)
Definition event : Type := (pystr * pyval)%type.

Definition Handler (E : World) (A : Type) : Type :=
  state E -> (list event * outcome A) * state E.

Definition hret {E A} (a : A) : Handler E A := fun w => (([], Ok a), w).

Definition hbind {E A B} (m : Handler E A) (f : A -> Handler E B) : Handler E B :=
  fun w =>
    match m w with
    | ((events, Ok a), w') =>
        match f a w' with
        | ((events', o), w'') => ((events ++ events', o), w'')
        end
    | ((events, Raise e), w') => ((events, Raise e), w')
    end.

(** [emit(name, payload)] *)
Definition emit {E} (name : pystr) (payload : pyval) : Handler E unit :=
  fun w => (([(name, payload)], Ok tt), w).

(** A computation that emits nothing. *)
Definition run {E A} (m : M E A) : Handler E A :=
  fun w => match m w with (o, w') => (([], o), w') end.

Notation "x <-- m ;; k" := (hbind m (fun x => k))
  (at level 61, m at next level, right associativity) : py_scope.

Definition status (msg : pystr) : pyval := PDict [ "msg" --> msg ].

(** [logs.get('hits', {}).get('total', {}).get('value', 0)] *)
Definition total_or_zero (logs : pyval) : outcome pyval :=
  hits <~ py_get logs "hits" (PDict []) ;;
  total <~ py_get hits "total" (PDict []) ;;
  py_get total "value" 0%Z.

(** [search_logs] with the token as the handler has it: any value of the
    JSON payload. The method only compares it with ['1h'], ['24h'] and
    ['7d']; a token that is not a string equals none of them, as the empty
    text does. *)
Definition search_logs_any (E : World) (es : option es_client)
    (query time_range : pyval) (index_pattern : pystr) : M E pyval :=
  search_logs E es query (match time_range with PStr s => s | _ => [] end) index_pattern.

(** [handle_log_analysis] *)
Definition handle_log_analysis (E : World) (es : option es_client) (data : pyval) : Handler E unit :=
  question <-- run (lift (py_get data "question" "")) ;;
  query <-- run (lift (py_get data "query" "*")) ;;
  time_range <-- run (lift (py_get data "time_range" "1h")) ;;
  _ <-- emit "status" (status "Searching logs...") ;;
  logs <-- run (search_logs_any E es query time_range "*") ;;
  has_error <-- run (lift (py_in "error" logs)) ;;
  if has_error then
    error <-- run (lift (subscript logs "error")) ;;
    emit "response" (PDict [ "error" --> error ])
  else
    _ <-- emit "status" (status "Analyzing with AI...") ;;
    analysis <-- run (analyze_with_ai E logs question) ;;
    logs_found <-- run (lift (total_or_zero logs)) ;;
    emit "response" (PDict [ "analysis" --> analysis;
                             "logs_found" --> logs_found;
                             "query" --> query;
                             "time_range" --> time_range ]).

(** [handle_get_alerts]: one formatted alert. *)
Definition format_alert (hit : pyval) : outcome pyval :=
  source <~ subscript hit "_source" ;;
  timestamp <~ py_get source "@timestamp" PNone ;;
  rule <~ py_get source "rule" (PDict []) ;;
  description <~ py_get rule "description" "Unknown rule" ;;
  rule <~ py_get source "rule" (PDict []) ;;
  level <~ py_get rule "level" 0%Z ;;
  agent <~ py_get source "agent" (PDict []) ;;
  name <~ py_get agent "name" "Unknown" ;;
  location <~ py_get source "location" "Unknown" ;;
  full_log <~ py_get source "full_log" "No description" ;;
  Ok (PDict [ "timestamp" --> timestamp;
              "rule" --> description;
              "level" --> level;
              "agent" --> name;
              "location" --> location;
              "description" --> full_log ]).

Fixpoint format_alerts (formatted_alerts : list pyval) (hits : list pyval)
  : outcome (list pyval) :=
  match hits with
  | [] => Ok formatted_alerts
  | hit :: rest =>
      alert <~ format_alert hit ;;
      format_alerts (formatted_alerts ++ [alert]) rest
  end.

(** The value of [formatted_alerts] after the loop. *)
Definition formatted_alerts (alerts : pyval) : outcome (list pyval) :=
  has_hits <~ py_in "hits" alerts ;;
  if has_hits then
    inner <~ subscript alerts "hits" ;;
    has_inner <~ py_in "hits" inner ;;
    if has_inner then
      inner <~ subscript alerts "hits" ;;
      hits <~ subscript inner "hits" ;;
      hits <~ py_iter hits ;;
      format_alerts [] hits
    else Ok []
  else Ok [].

Definition handle_get_alerts (E : World) (es : option es_client) (data : pyval) : Handler E unit :=
  severity <-- run (lift (py_get data "severity" "medium")) ;;
  limit <-- run (lift (py_get data "limit" 20%Z)) ;;
  _ <-- emit "status" (status "Retrieving security alerts...") ;;
  alerts <-- run (get_security_alerts E es severity limit) ;;
  has_error <-- run (lift (py_in "error" alerts)) ;;
  if has_error then
    error <-- run (lift (subscript alerts "error")) ;;
    emit "response" (PDict [ "error" --> error ])
  else
    formatted <-- run (lift (formatted_alerts alerts)) ;;
    total <-- run (lift (total_or_zero alerts)) ;;
    emit "alerts" (PDict [ "alerts" --> PList formatted; "total" --> total ]).

(** [handle_threat_hunt]: the query of one indicator. *)
Definition indicator_query (E : World) (indicator : pyval) : outcome pyval :=
  kind <~ py_get indicator "type" PNone ;;
  if eq_str kind "ip" then
    value <~ subscript indicator "value" ;;
    Ok (PStr (lit "source.ip:" ++ format_value E value ++
              lit " OR destination.ip:" ++ format_value E value))
  else if eq_str kind "domain" then
    value <~ subscript indicator "value" ;;
    Ok (PStr (lit "domain:" ++ format_value E value ++
              lit " OR url.domain:" ++ format_value E value))
  else if eq_str kind "hash" then
    value <~ subscript indicator "value" ;;
    Ok (PStr (lit "file.hash.md5:" ++ format_value E value ++
              lit " OR file.hash.sha1:" ++ format_value E value ++
              lit " OR file.hash.sha256:" ++ format_value E value))
  else py_get indicator "value" "".

(** [logs.get('hits', {}).get('hits', [])[:5]] *)
Definition first_matches (logs : pyval) : outcome pyval :=
  hits <~ py_get logs "hits" (PDict []) ;;
  hits <~ py_get hits "hits" (PList []) ;;
  slice_to 5 hits.

Fixpoint threat_hunt_loop (E : World) (es : option es_client)
    (indicators : list pyval) (hunt_results : list pyval) : M E (list pyval) :=
  match indicators with
  | [] => ret hunt_results
  | indicator :: rest =>
      query <- lift (indicator_query E indicator) ;;
      logs <- search_logs E es query "24h" "*" ;;
      matches <- lift (total_or_zero logs) ;;
      sample <- lift (first_matches logs) ;;
      threat_hunt_loop E es rest
        (hunt_results ++ [ PDict [ "indicator" --> indicator;
                                   "matches" --> matches;
                                   "logs" --> sample ] ])
  end.

Definition handle_threat_hunt (E : World) (es : option es_client) (data : pyval) : Handler E unit :=
  indicators <-- run (lift (py_get data "indicators" (PList []))) ;;
  _ <-- emit "status" (status "Starting threat hunt...") ;;
  indicators <-- run (lift (py_iter indicators)) ;;
  hunt_results <-- run (threat_hunt_loop E es indicators []) ;;
  emit "hunt_results" (PDict [ "results" --> PList hunt_results ]).

End AiChat.

Import ThreatHunting AiChat.

(* ===================================================================== *)
(** * Vocabulary of the specification *)
(* ===================================================================== *)

Module Spec.

Local Open Scope string_scope.
Local Open Scope list_scope.
Local Open Scope py_scope.

(** ** Structured queries *)

(** The mandatory clauses of a search body: [body["query"]["bool"]["must"]]. *)
Definition must_clauses (body : pyval) : list pyval :=
  match (q <~ subscript body "query" ;; b <~ subscript q "bool" ;; subscript b "must") with
  | Ok (PList clauses) => clauses
  | _ => []
  end.

(** The lower bound a clause puts on the timestamp field:
    [clause["range"]["@timestamp"]["gte"]]. *)
Definition lower_bound_of (clause : pyval) : option pyval :=
  match (r <~ subscript clause "range" ;; t <~ subscript r "@timestamp" ;; subscript t "gte") with
  | Ok bound => Some bound
  | Raise _ => None
  end.

Fixpoint first_bound (clauses : list pyval) : option pyval :=
  match clauses with
  | [] => None
  | clause :: rest =>
      match lower_bound_of clause with
      | Some bound => Some bound
      | None => first_bound rest
      end
  end.

(** The time-window lower bound among the mandatory clauses of a body. *)
Definition time_lower_bound (body : pyval) : option pyval :=
  first_bound (must_clauses body).

(** A body whose time-window lower bound is the text of the instant
    [start now], as [isoformat] writes it, for some reading [now] of the
    clock. *)
Definition bounded_from (start : datetime -> datetime) (body : pyval) : Prop :=
  exists now, time_lower_bound body = Some (PStr (isoformat (start now))).

(** A body whose time-window lower bound is the date-math text [text]. *)
Definition bounded_at (text : pystr) (body : pyval) : Prop :=
  time_lower_bound body = Some (PStr text).

(** ** Observing the requests sent to the search backend

    The same world, whose state also keeps the list of the requests
    ([index], [body]) the backend has received so far. *)
Definition recording (E : World) : World :=
  {| state := state E * list (pystr * pyval);
     utcnow := fun s => (fst (utcnow E (fst s)), (snd (utcnow E (fst s)), snd s));
     es_search := fun index body s =>
       (fst (es_search E index body (fst s)),
        (snd (es_search E index body (fst s)), snd s ++ [(index, body)]));
     http_post := fun url payload s =>
       (fst (http_post E url payload (fst s)),
        (snd (http_post E url payload (fst s)), snd s));
     ollama_url := ollama_url E;
     str_exn := str_exn E;
     str_value := str_value E |}.

(** The bodies sent by a computation started in state [w] with no request
    recorded yet. *)
Definition bodies_sent {E : World} {A : Type} (m : M (recording E) A) (w : state E)
  : list pyval :=
  map snd (snd (snd (m (w, [])))).

(** A log of requests whose bodies all have the property [P], and a
    computation that keeps the log so. *)
Definition bounded_log (P : pyval -> Prop) (log : list (pystr * pyval)) : Prop :=
  Forall (fun request => P (snd request)) log.

Definition keeps_bounded {E : World} {A : Type} (P : pyval -> Prop)
    (m : M (recording E) A) : Prop :=
  forall s, bounded_log P (snd s) -> bounded_log P (snd (snd (m s))).

(** ** Indicators *)

Definition is_digit (c : N) : bool := N.leb 48 c && N.leb c 57.

Definition is_hex_digit (c : N) : bool :=
  is_digit c || (N.leb 97 c && N.leb c 102) || (N.leb 65 c && N.leb c 70).

Fixpoint decimal_value (acc : N) (s : pystr) : N :=
  match s with
  | [] => acc
  | c :: s' => decimal_value (10 * acc + (c - 48)) s'
  end.

(** An octet of a dotted quad: one to three decimal digits, of value at
    most 255. *)
Definition is_octet (s : pystr) : bool :=
  Nat.leb 1 (List.length s) && Nat.leb (List.length s) 3 &&
  forallb is_digit s && N.leb (decimal_value 0 s) 255.

Definition dotted_quad (a b c d : pystr) : pystr :=
  a ++ lit "." ++ b ++ lit "." ++ c ++ lit "." ++ d.

Definition all_hex (s : pystr) : Prop := Forall (fun c => is_hex_digit c = true) s.

(** A pattern all of whose words contain a full stop. *)
Definition needs_dot (r : regex) : Prop := forall p, lang r p -> In 46%N p.

(** The patterns tried before the URL pattern. *)
Definition before_url : list (ioc_kind * regex) :=
  [ (ip, ip_pattern); (domain, domain_pattern); (md5, md5_pattern);
    (sha1, sha1_pattern); (sha256, sha256_pattern); (email, email_pattern) ].

Definition matches_before_url (s : pystr) : bool :=
  existsb (fun p => re_match_anchored (snd p) s) before_url.

Definition no_whitespace (s : pystr) : bool := forallb (fun c => negb (is_space c)) s.

(** The URL shape in the words of the specification: [http://] or
    [https://], then one or more characters, no whitespace anywhere. *)
Definition url_shape (s : pystr) : Prop :=
  exists scheme rest,
    (scheme = lit "http://" \/ scheme = lit "https://") /\
    rest <> [] /\ s = scheme ++ rest /\ no_whitespace s = true.

(** The characters the URL pattern refuses right after the scheme, besides
    whitespace: [/ $ . ? #]. *)
Definition url_head_excluded (c : N) : bool :=
  N.eqb c 47 || N.eqb c 36 || N.eqb c 46 || N.eqb c 63 || N.eqb c 35.

(** ** Clauses *)

Fixpoint join (sep : pystr) (parts : list pystr) : pystr :=
  match parts with
  | [] => []
  | [p] => p
  | p :: rest => p ++ sep ++ join sep rest
  end.

(** One parenthesized clause that OR-joins [field:"value"] over the
    fields. *)
Definition or_clause (fields : list pystr) (value : pystr) : pystr :=
  lit "(" ++ join (lit " OR ") (map (fun f => f ++ lit ":" ++ dq ++ value ++ dq) fields) ++ lit ")".

(** A free-text term: the value between double quotes. *)
Definition quoted_term (value : pystr) : pystr := dq ++ value ++ dq.

(** ** One indicator of an IOC hunt *)

(** What one turn of the loop of [hunt_iocs] stores under [results[ioc]],
    and the state it leaves: the entry built by the [try] body, or the
    error entry of its [except] clause. *)
Definition ioc_entry (E : World) (es : option es_client) (time_range ioc : pystr)
    (w : state E) : pyval * state E :=
  let ioc_type := _detect_ioc_type ioc in
  let query := _build_ioc_query ioc ioc_type in
  match ioc_attempt E es query ioc_type time_range w with
  | (Ok entry, w') => (entry, w')
  | (Raise e, w') => (error_dict (str_exn E e), w')
  end.

(** The request [hunt_iocs] sends for an indicator when the clock reads
    [now]. *)
Definition ioc_request (ioc time_range : pystr) (now : datetime) : pyval :=
  ioc_search_body (_build_ioc_query ioc (_detect_ioc_type ioc))
    (hunt_start_time now time_range).


Definition hits_of (result : pyval) : outcome pyval :=
  h <~ subscript result "hits" ;; subscript h "hits".


(** ** Timelines *)

(** *** Timestamps

    A timestamp in the extended format of ISO 8601: the date [YYYY-MM-DD],
    [T], the time of day [HH:MM:SS], an optional fraction of a second, and
    the zone: [Z] for UTC, or the offset [+HH:MM] or [-HH:MM] of the local
    time from UTC. *)

(** The number written by a string of digits. *)
Definition digit_value (c : N) : Z := (Z.of_N c - 48)%Z.

Fixpoint number_from (acc : Z) (s : pystr) : Z :=
  match s with
  | [] => acc
  | c :: rest => number_from (10 * acc + digit_value c)%Z rest
  end.

Definition number (s : pystr) : Z := number_from 0%Z s.

Definition is_leap_year (y : Z) : bool :=
  ((y mod 4 =? 0)%Z && negb (y mod 100 =? 0)%Z) || (y mod 400 =? 0)%Z.

Definition days_in_month (y m : Z) : Z :=
  if (m =? 2)%Z then (if is_leap_year y then 29%Z else 28%Z)
  else if (m =? 4)%Z || (m =? 6)%Z || (m =? 9)%Z || (m =? 11)%Z then 30%Z
  else 31%Z.

(** A calendar date: year, month, day. *)
Definition date : Type := (Z * Z * Z)%type.

(** [YYYY-MM-DD], a date of the calendar. *)
Definition parse_date (s : pystr) : option date :=
  match s with
  | [y1; y2; y3; y4; h1; m1; m2; h2; d1; d2] =>
      let y := number [y1; y2; y3; y4] in
      let m := number [m1; m2] in
      let d := number [d1; d2] in
      if forallb is_digit [y1; y2; y3; y4; m1; m2; d1; d2] &&
         N.eqb h1 45 && N.eqb h2 45 &&
         (1 <=? m)%Z && (m <=? 12)%Z && (1 <=? d)%Z && (d <=? days_in_month y m)%Z
      then Some (y, m, d)
      else None
  | _ => None
  end.

(** [HH:MM:SS]: the second of the day. *)
Definition parse_time (s : pystr) : option Z :=
  match s with
  | [h1; h2; c1; m1; m2; c2; s1; s2] =>
      let h := number [h1; h2] in
      let m := number [m1; m2] in
      let sec := number [s1; s2] in
      if forallb is_digit [h1; h2; m1; m2; s1; s2] &&
         N.eqb c1 58 && N.eqb c2 58 &&
         (h <=? 23)%Z && (m <=? 59)%Z && (sec <=? 59)%Z
      then Some (h * 3600 + m * 60 + sec)%Z
      else None
  | _ => None
  end.

(** What follows an optional fraction of a second: a dot and one digit or
    more. *)
Fixpoint drop_digits (s : pystr) : pystr :=
  match s with
  | c :: rest => if is_digit c then drop_digits rest else s
  | [] => []
  end.

Definition drop_fraction (s : pystr) : option pystr :=
  match s with
  | c :: d :: rest =>
      if N.eqb c 46 then (if is_digit d then Some (drop_digits rest) else None)
      else Some s
  | _ => Some s
  end.

(** The zone: the number of seconds by which the local time is ahead of
    UTC. *)
Definition parse_zone (s : pystr) : option Z :=
  match s with
  | [z] => if N.eqb z 90 then Some 0%Z else None
  | [sign; h1; h2; c; m1; m2] =>
      let h := number [h1; h2] in
      let m := number [m1; m2] in
      if forallb is_digit [h1; h2; m1; m2] && N.eqb c 58 && (h <=? 23)%Z && (m <=? 59)%Z then
        if N.eqb sign 43 then Some (h * 3600 + m * 60)%Z
        else if N.eqb sign 45 then Some (- (h * 3600 + m * 60))%Z
        else None
      else None
  | _ => None
  end.

(** A timestamp read: the local date, the local second of the day, and
    the offset of the zone. *)
Definition parse_timestamp (ts : pystr) : option (date * Z * Z) :=
  match parse_date (firstn 10 ts), skipn 10 ts with
  | Some d, t :: rest =>
      if N.eqb t 84 then
        match parse_time (firstn 8 rest), drop_fraction (skipn 8 rest) with
        | Some second, Some zone =>
            match parse_zone zone with
            | Some offset => Some (d, second, offset)
            | None => None
            end
        | _, _ => None
        end
      else None
  | _, _ => None
  end.

Definition next_day (d : date) : date :=
  let '(y, m, dd) := d in
  if (dd <? days_in_month y m)%Z then (y, m, dd + 1)%Z
  else if (m <? 12)%Z then (y, m + 1, 1)%Z
  else (y + 1, 1, 1)%Z.

Definition previous_day (d : date) : date :=
  let '(y, m, dd) := d in
  if (1 <? dd)%Z then (y, m, dd - 1)%Z
  else if (1 <? m)%Z then (y, m - 1, days_in_month y (m - 1))%Z
  else (y - 1, 12, 31)%Z.

(** The date in UTC at a local date and second of the day in a zone: the
    clock of UTC reads the local time less the offset, which is on the day
    before, on the same day or on the day after. *)
Definition utc_date (d : date) (second offset : Z) : date :=
  let utc_second := (second - offset)%Z in
  if (utc_second <? 0)%Z then previous_day d
  else if (86400 <=? utc_second)%Z then next_day d
  else d.

(** A date written [YYYY-MM-DD]. *)
Definition date_text (d : date) : pystr :=
  let '(y, m, dd) := d in
  pad4 y ++ lit "-" ++ pad2 m ++ lit "-" ++ pad2 dd.

(** The UTC calendar day of the instant a timestamp denotes. *)
Definition utc_day (ts : pystr) : option pystr :=
  match parse_timestamp ts with
  | Some (d, second, offset) => Some (date_text (utc_date d second offset))
  | None => None
  end.

(** A timestamp written in UTC: its zone is [Z], or an offset of zero. *)
Definition written_in_utc (ts : pystr) : bool :=
  match parse_timestamp ts with
  | Some (_, _, offset) => (offset =? 0)%Z
  | None => false
  end.

(** The UTC calendar day on which a hit falls, when its document has a
    timestamp. *)
Definition hit_day (hit : pyval) : option pystr :=
  match subscript hit "_source" with
  | Ok (PDict source) =>
      match dict_get source "@timestamp" with
      | Some (PStr ts) => utc_day ts
      | _ => None
      end
  | _ => None
  end.

Definition falls_on (day : pystr) (hit : pyval) : bool :=
  match hit_day hit with
  | Some d => pystr_eqb d day
  | None => false
  end.

(** The number of hits that fall on a day. *)
Definition hits_on (day : pystr) (hits : list pyval) : Z :=
  Z.of_nat (List.length (filter (falls_on day) hits)).

(** The text under which a hit is counted whatever its timestamp says: the
    first ten characters of the timestamp, when the document has one and it
    is a string other than the placeholder [Unknown]. *)
Definition date_key_of (hit : pyval) : option pystr :=
  match subscript hit "_source" with
  | Ok (PDict source) =>
      match dict_get source "@timestamp" with
      | Some (PStr ts) => if pystr_eqb ts "Unknown" then None else Some (firstn 10 ts)
      | _ => None
      end
  | _ => None
  end.

Definition keyed_as (key : pystr) (hit : pyval) : bool :=
  match date_key_of hit with
  | Some k => pystr_eqb k key
  | None => false
  end.

Definition hits_keyed (key : pystr) (hits : list pyval) : Z :=
  Z.of_nat (List.length (filter (keyed_as key) hits)).

(** A hit with a document whose timestamp, when there is one, is a string. *)
Definition stamped_hit (hit : pyval) : Prop :=
  exists source,
    subscript hit "_source" = Ok (PDict source) /\
    (dict_get source "@timestamp" = None \/
     exists ts, dict_get source "@timestamp" = Some (PStr ts)).

(** A hit with a document whose timestamp, when there is one, is written
    in UTC. *)
Definition dated_hit (hit : pyval) : Prop :=
  exists source,
    subscript hit "_source" = Ok (PDict source) /\
    (dict_get source "@timestamp" = None \/
     exists ts, dict_get source "@timestamp" = Some (PStr ts) /\ written_in_utc ts = true).

(** A timeline that gives each day its count, and no entry to a day
    without hits. *)
Definition counts (timeline : dict) (count : pystr -> Z) : Prop :=
  forall day,
    dict_get timeline day = if (count day =? 0)%Z then None else Some (PInt (count day)).

Definition hit_at (ts : pystr) : pyval :=
  PDict [ "_source" --> PDict [ "@timestamp" --> ts ] ].

(** ** Log excerpts *)





(** ** A small concrete world

    The clock stands at 2024-01-01T10:00:00. The state counts the requests
    the backend has served; the backend answers every request with one
    matching document, except the second request, on which it faults. *)
Definition sample_result : pyval :=
  PDict [
    "took" --> 3%Z;
    "hits" --> PDict [
      "total" --> PDict [ "value" --> 1%Z; "relation" --> "eq" ];
      "hits" --> PList [
        PDict [ "_index" --> "logs-2024.01.01";
                "_source" --> PDict [ "@timestamp" --> "2024-01-01T09:58:12Z";
                                      "message" --> "Accepted password for root" ] ]
      ]
    ]
  ].

Definition sample_world : World :=
  {| state := nat;
     utcnow := fun w => (1704103200000000%Z, w);
     es_search := fun _ _ w =>
       if Nat.eqb w 1 then (Raise (Fault "ConnectionTimeout"), S w)
       else (Ok sample_result, S w);
     http_post := fun _ _ w => (Ok (200%Z, Ok (PDict [ "response" --> "Low risk." ])), w);
     ollama_url := "http://localhost:11434";
     str_exn := fun e =>
       match e with
       | Fault detail => detail
       | KeyError k => k
       | TypeError => "TypeError"
       | AttributeError => "AttributeError"
       end;
     str_value := fun _ => "<object>" |}.

(** A document with a message of three hundred characters, and a search
    result of fifteen hits that carry it. *)
Definition long_document : dict :=
  [ "@timestamp" --> "2024-01-01T09:58:12Z";
    "message" --> PStr (List.repeat 120%N 300) ].

Definition fifteen_hits : pyval :=
  PDict [
    "hits" --> PDict [
      "total" --> PDict [ "value" --> 15%Z ];
      "hits" --> PList (List.repeat (PDict [ "_source" --> PDict long_document ]) 15)
    ]
  ].

(** ** Shapes of indicators *)

(** Whether some character class of a pattern admits the character: when
    none does, no word of the pattern contains it. *)
Fixpoint accepts_char (c : N) (r : regex) : bool :=
  match r with
  | Void => false
  | Eps => false
  | Cls cs => cset_mem cs c
  | Cat r1 r2 => accepts_char c r1 || accepts_char c r2
  | Alt r1 r2 => accepts_char c r1 || accepts_char c r2
  | Star r0 => accepts_char c r0
  end.

(** A string with at most one line feed, at its very end. *)
Definition with_optional_newline (shape : pystr -> Prop) (s : pystr) : Prop :=
  shape s \/ exists p, shape p /\ s = p ++ nl.

Definition quad_shape (s : pystr) : Prop :=
  exists a b c d,
    is_octet a = true /\ is_octet b = true /\ is_octet c = true /\ is_octet d = true /\
    s = dotted_quad a b c d.

Definition hex_shape (n : nat) (s : pystr) : Prop :=
  all_hex s /\ List.length s = n.

(** What the URL pattern accepts: the scheme, a character that is neither
    whitespace nor one of [/ $ . ? #], any character but the line feed, then
    characters that are not whitespace. *)
Definition url_form (s : pystr) : Prop :=
  exists scheme c d rest,
    (scheme = lit "http://" \/ scheme = lit "https://") /\
    is_space c = false /\ url_head_excluded c = false /\
    N.eqb d 10 = false /\ no_whitespace rest = true /\
    s = scheme ++ c :: d :: rest.

(** ** Reports and requests *)

(** The distinct elements of a list, each at the place of its first
    occurrence; [seen] holds the elements met so far. *)
Fixpoint first_occurrences (seen l : list pystr) : list pystr :=
  match l with
  | [] => []
  | x :: l' =>
      if existsb (pystr_eqb x) seen then first_occurrences seen l'
      else x :: first_occurrences (seen ++ [x]) l'
  end.

(** The requests ([index], [body]) sent by a computation started in state
    [w] with no request recorded yet. *)
Definition requests_sent {E : World} {A : Type} (m : M (recording E) A) (w : state E)
  : list (pystr * pyval) :=
  snd (snd (m (w, []))).

(** What a method reports for an answer of the backend: the result, or
    the error value made from the exception. *)
Definition reported (E : World) (answer : outcome pyval) : pyval :=
  match answer with
  | Ok result => result
  | Raise e => error_dict (str_exn E e)
  end.

(** ** Observing the calls to the model endpoint

    The same world, whose state also keeps the list of the calls ([url],
    [json] payload) the model endpoint has received so far. *)
Definition tracing (E : World) : World :=
  {| state := state E * list (pystr * pyval);
     utcnow := fun s => (fst (utcnow E (fst s)), (snd (utcnow E (fst s)), snd s));
     es_search := fun index body s =>
       (fst (es_search E index body (fst s)),
        (snd (es_search E index body (fst s)), snd s));
     http_post := fun url payload s =>
       (fst (http_post E url payload (fst s)),
        (snd (http_post E url payload (fst s)), snd s ++ [(url, payload)]));
     ollama_url := ollama_url E;
     str_exn := str_exn E;
     str_value := str_value E |}.

Definition posts_sent {E : World} {A : Type} (m : M (tracing E) A) (w : state E)
  : list (pystr * pyval) :=
  snd (snd (m (w, []))).

(** The payload and the address of the call for a prompt. *)
Definition model_payload (prompt : pystr) : pyval :=
  PDict [ "model" --> "llama3"; "prompt" --> prompt; "stream" --> PBool false ].

Definition model_url (E : World) : pystr := ollama_url E ++ lit "/api/generate".

(** The two texts returned in place of an analysis. *)
Definition analysis_error (E : World) (e : exn) : pyval :=
  PStr (lit "AI analysis error: " ++ str_exn E e).

Definition model_error (status : Z) : pyval :=
  PStr (lit "AI model error: " ++ str_int status).

(** What [analyze_with_ai] makes of the answer of the endpoint. *)
Definition analysis_of (E : World) (answer : outcome (Z * outcome pyval)) : pyval :=
  match answer with
  | Raise e => analysis_error E e
  | Ok (status, json) =>
      if (status =? 200)%Z then
        match json with
        | Raise e => analysis_error E e
        | Ok (PDict result) =>
            match dict_get result "response" with
            | Some text => text
            | None => PStr "No response from AI model"
            end
        | Ok _ => analysis_error E AttributeError
        end
      else model_error status
  end.

(** ** More on timelines *)

Definition is_str (v : pyval) : bool :=
  match v with
  | PStr _ => true
  | _ => false
  end.

(** The sum of the counts of a timeline. *)
Fixpoint timeline_total (timeline : dict) : Z :=
  match timeline with
  | [] => 0
  | (_, PInt n) :: rest => n + timeline_total rest
  | _ :: rest => timeline_total rest
  end.

(** The hits that are counted: those with a key. *)
Definition is_counted (hit : pyval) : bool :=
  match date_key_of hit with
  | Some _ => true
  | None => false
  end.

(** A world whose search backend refuses every request. *)
Definition offline_world : World :=
  {| state := nat;
     utcnow := fun w => (1704103200000000%Z, w);
     es_search := fun _ _ w => (Raise (Fault "Connection refused"), S w);
     http_post := fun _ _ w => (Raise (Fault "Connection refused"), w);
     ollama_url := "http://localhost:11434";
     str_exn := fun e =>
       match e with
       | Fault detail => detail
       | KeyError k => k
       | TypeError => "TypeError"
       | AttributeError => "AttributeError"
       end;
     str_value := fun _ => "<object>" |}.

(** ** Handlers *)

(** The calls to the model endpoint made by a handler started in state
    [w]. *)
Definition handler_posts {E : World} {A : Type} (h : Handler (tracing E) A) (w : state E)
  : list (pystr * pyval) :=
  snd (snd (h (w, []))).

(** The entry [handle_threat_hunt] gives an indicator whose search found
    nothing. *)
Definition no_match (indicator : pyval) : pyval :=
  PDict [ "indicator" --> indicator; "matches" --> 0%Z; "logs" --> PList [] ].

(** A backend that is down: every search faults. *)
Definition backend_down (E : World) : Prop :=
  forall index body w, exists e, fst (es_search E index body w) = Raise e.

(** The field of a document, or a default. *)
Definition field (source : dict) (k : pystr) (default : pyval) : pyval :=
  match dict_get source k with
  | Some v => v
  | None => default
  end.

(** The field of an object held by a document. *)
Definition subfield (source : dict) (k k' : pystr) (default : pyval) : pyval :=
  match dict_get source k with
  | Some (PDict inner) => field inner k' default
  | _ => default
  end.

(** The alert shown for a document. *)
Definition alert_of (source : dict) : pyval :=
  PDict [ "timestamp" --> field source "@timestamp" PNone;
          "rule" --> subfield source "rule" "description" "Unknown rule";
          "level" --> subfield source "rule" "level" 0%Z;
          "agent" --> subfield source "agent" "name" "Unknown";
          "location" --> field source "location" "Unknown";
          "description" --> field source "full_log" "No description" ].

(** A hit that carries the document [source], whose [rule] and [agent],
    when present, are objects. *)
Definition is_object_or_absent (source : dict) (k : pystr) : Prop :=
  dict_get source k = None \/ exists inner, dict_get source k = Some (PDict inner).

Definition alert_hit (hit : pyval) (source : dict) : Prop :=
  subscript hit "_source" = Ok (PDict source) /\
  is_object_or_absent source "rule" /\ is_object_or_absent source "agent".

End Spec.

Import Spec.

(* ===================================================================== *)
(** * Facts about strings and dictionaries *)
(* ===================================================================== *)

Lemma pystr_eqb_spec (a b : pystr) : reflect (a = b) (pystr_eqb a b).
Proof.
  revert b; induction a as [|x a IH]; intros [|y b]; simpl;
    try (constructor; congruence).
  destruct (N.eqb_spec x y) as [->|Hxy]; simpl.
  - destruct (IH b) as [->|Hab]; constructor; congruence.
  - constructor; congruence.
Qed.

Lemma pystr_eqb_refl (a : pystr) : pystr_eqb a a = true.
Proof. destruct (pystr_eqb_spec a a); congruence. Qed.

Lemma pystr_eqb_eq_true (a b : pystr) : pystr_eqb a b = true -> a = b.
Proof. destruct (pystr_eqb_spec a b); congruence. Qed.

Lemma pystr_eqb_neq (a b : pystr) : a <> b -> pystr_eqb a b = false.
Proof. destruct (pystr_eqb_spec a b); congruence. Qed.

Lemma dict_get_set_same (d : dict) (k : pystr) (v : pyval) :
  dict_get (dict_set d k v) k = Some v.
Proof.
  induction d as [|[k' v'] d IH]; simpl.
  - now rewrite pystr_eqb_refl.
  - destruct (pystr_eqb k' k) eqn:Hk; simpl; rewrite Hk; auto.
Qed.

Lemma dict_get_set_other (d : dict) (k k' : pystr) (v : pyval) :
  k <> k' -> dict_get (dict_set d k v) k' = dict_get d k'.
Proof.
  intros Hneq. induction d as [|[k0 v0] d IH]; simpl.
  - now rewrite pystr_eqb_neq.
  - destruct (pystr_eqb_spec k0 k) as [->|Hk0]; simpl.
    + now rewrite pystr_eqb_neq.
    + now rewrite IH.
Qed.

Lemma dict_get_In (d : dict) (k : pystr) :
  In k (keys d) <-> dict_get d k <> None.
Proof.
  induction d as [|[k0 v0] d IH]; simpl.
  - tauto.
  - destruct (pystr_eqb_spec k0 k) as [->|Hk0].
    + split; [congruence | auto].
    + rewrite <- IH. split; [intros [?|?]; congruence || auto | auto].
Qed.

(** Assigning to a key that is present keeps the keys; to an absent key,
    appends it. *)
Lemma keys_dict_set (d : dict) (k : pystr) (v : pyval) :
  keys (dict_set d k v) = if dict_has d k then keys d else keys d ++ [k].
Proof.
  unfold dict_has. induction d as [|[k0 v0] d IH]; simpl; auto.
  destruct (pystr_eqb k0 k) eqn:Hk; simpl; auto.
  rewrite IH. now destruct (dict_get d k).
Qed.

Lemma dict_has_In (d : dict) (k : pystr) : dict_has d k = true <-> In k (keys d).
Proof.
  rewrite dict_get_In. unfold dict_has. destruct (dict_get d k); split; congruence.
Qed.

Lemma dict_has_set (d : dict) (k k' : pystr) (v : pyval) :
  dict_has (dict_set d k v) k' = pystr_eqb k k' || dict_has d k'.
Proof.
  unfold dict_has. destruct (pystr_eqb_spec k k') as [->|Hk]; simpl.
  - now rewrite dict_get_set_same.
  - now rewrite dict_get_set_other.
Qed.

(* ===================================================================== *)
(** * The matcher decides the words of a pattern *)
(* ===================================================================== *)

Section Matcher.

Lemma lang_void_inv s : lang Void s -> False.
Proof. inversion 1. Qed.

Lemma lang_eps_inv s : lang Eps s -> s = [].
Proof. now inversion 1. Qed.

Lemma lang_cls_inv cs s : lang (Cls cs) s -> exists c, s = [c] /\ cset_mem cs c = true.
Proof. inversion 1; subst; eauto. Qed.

Lemma lang_cat_inv r1 r2 s :
  lang (Cat r1 r2) s -> exists s1 s2, s = s1 ++ s2 /\ lang r1 s1 /\ lang r2 s2.
Proof. inversion 1; subst; eauto. Qed.

Lemma lang_alt_inv r1 r2 s : lang (Alt r1 r2) s -> lang r1 s \/ lang r2 s.
Proof. inversion 1; subst; auto. Qed.

(** A non-empty word of [r*] starts with a non-empty word of [r]. *)
Lemma lang_star_cons_inv r c s :
  lang (Star r) (c :: s) ->
  exists s1 s2, s = s1 ++ s2 /\ lang r (c :: s1) /\ lang (Star r) s2.
Proof.
  intros H. remember (Star r) as r' eqn:Hr. remember (c :: s) as w eqn:Hw.
  revert c s Hw. induction H; try discriminate; intros c0 s0 Hw.
  injection Hr as ->.
  destruct s1 as [|x s1]; simpl in Hw.
  - now apply IHlang2.
  - injection Hw as -> <-. eauto.
Qed.

Lemma nullable_lang r : nullable r = true <-> lang r [].
Proof.
  induction r; simpl.
  - split; [discriminate | intros H; destruct (lang_void_inv H)].
  - split; [constructor | auto].
  - split; [discriminate |].
    intros H; apply lang_cls_inv in H as (c & Hc & _); discriminate.
  - rewrite andb_true_iff, IHr1, IHr2. split.
    + intros [H1 H2]. change (@nil N) with (@nil N ++ []). now constructor.
    + intros H; apply lang_cat_inv in H as (s1 & s2 & Hs & H1 & H2).
      symmetry in Hs; apply app_eq_nil in Hs as [-> ->]. auto.
  - rewrite orb_true_iff, IHr1, IHr2. split.
    + intros [H|H]; [now apply L_alt_l | now apply L_alt_r].
    + apply lang_alt_inv.
  - split; [constructor | auto].
Qed.

Lemma mk_cat_lang r1 r2 s : lang (mk_cat r1 r2) s <-> lang (Cat r1 r2) s.
Proof.
  destruct r1; simpl; try tauto.
  - split; [intros H; destruct (lang_void_inv H) |].
    intros H; apply lang_cat_inv in H as (s1 & s2 & _ & H1 & _).
    destruct (lang_void_inv H1).
  - split.
    + intros H. change s with ([] ++ s). constructor; [constructor | exact H].
    + intros H; apply lang_cat_inv in H as (s1 & s2 & -> & H1 & H2).
      apply lang_eps_inv in H1 as ->. exact H2.
Qed.

Lemma mk_alt_lang r1 r2 s : lang (mk_alt r1 r2) s <-> lang (Alt r1 r2) s.
Proof.
  assert (Hl : forall r, lang (Alt Void r) s <-> lang r s).
  { intros r; split; [|now apply L_alt_r].
    intros H; apply lang_alt_inv in H as [H|H]; [destruct (lang_void_inv H) | exact H]. }
  assert (Hr : forall r, lang (Alt r Void) s <-> lang r s).
  { intros r; split; [|now apply L_alt_l].
    intros H; apply lang_alt_inv in H as [H|H]; [exact H | destruct (lang_void_inv H)]. }
  destruct r1; simpl; try (now rewrite Hl);
    destruct r2; simpl; try tauto; now rewrite Hr.
Qed.

Lemma deriv_lang c r : forall s, lang (deriv c r) s <-> lang r (c :: s).
Proof.
  induction r; intros s; simpl.
  - split; intros H; destruct (lang_void_inv H).
  - split; intros H; [destruct (lang_void_inv H) | apply lang_eps_inv in H; discriminate].
  - destruct (cset_mem cs c) eqn:Hm; split; intros H.
    + apply lang_eps_inv in H as ->. now constructor.
    + apply lang_cls_inv in H as (c' & Hc & _). injection Hc as _ ->. constructor.
    + destruct (lang_void_inv H).
    + apply lang_cls_inv in H as (c' & Hc & Hm'). injection Hc as <- _. congruence.
  - rewrite mk_alt_lang. split; intros H.
    + apply lang_alt_inv in H as [H|H].
      * apply mk_cat_lang, lang_cat_inv in H as (s1 & s2 & -> & H1 & H2).
        apply IHr1 in H1. change (c :: s1 ++ s2) with ((c :: s1) ++ s2). now constructor.
      * destruct (nullable r1) eqn:Hn; [|destruct (lang_void_inv H)].
        apply nullable_lang in Hn. apply IHr2 in H.
        change (c :: s) with ([] ++ c :: s). now constructor.
    + apply lang_cat_inv in H as (s1 & s2 & Hs & H1 & H2).
      destruct s1 as [|x s1]; simpl in Hs.
      * subst s2. apply L_alt_r. apply nullable_lang in H1 as ->. now apply IHr2.
      * injection Hs as <- ->. apply L_alt_l, mk_cat_lang. constructor; [now apply IHr1 | exact H2].
  - rewrite mk_alt_lang. split; intros H.
    + apply lang_alt_inv in H as [H|H]; [apply L_alt_l, IHr1 | apply L_alt_r, IHr2]; exact H.
    + apply lang_alt_inv in H as [H|H]; [apply L_alt_l, IHr1 | apply L_alt_r, IHr2]; exact H.
  - rewrite mk_cat_lang. split; intros H.
    + apply lang_cat_inv in H as (s1 & s2 & -> & H1 & H2).
      apply IHr in H1. change (c :: s1 ++ s2) with ((c :: s1) ++ s2). now constructor.
    + apply lang_star_cons_inv in H as (s1 & s2 & -> & H1 & H2).
      constructor; [now apply IHr | exact H2].
Qed.

Lemma matchb_lang r s : matchb r s = true <-> lang r s.
Proof.
  revert r; induction s as [|c s IH]; intros r; simpl.
  - apply nullable_lang.
  - rewrite IH. apply deriv_lang.
Qed.

End Matcher.

(* ===================================================================== *)
(** * Character classes and anchored matching *)
(* ===================================================================== *)

Lemma in_ranges_iff c l :
  in_ranges c l = true <-> Exists (fun r => (fst r <= c <= snd r)%N) l.
Proof.
  unfold in_ranges. rewrite existsb_exists, Exists_exists.
  split; intros (r & Hin & H); exists r; split; auto.
  - apply andb_true_iff in H as [H1 H2]. apply N.leb_le in H1, H2. lia.
  - apply andb_true_iff. split; apply N.leb_le; lia.
Qed.

Lemma class_intro l c :
  Exists (fun r => (fst r <= c <= snd r)%N) l -> lang (Class l) [c].
Proof.
  intros H. apply L_cls. unfold cset_mem; simpl. now apply in_ranges_iff.
Qed.

Lemma class_inv l s :
  lang (Class l) s -> exists c, s = [c] /\ Exists (fun r => (fst r <= c <= snd r)%N) l.
Proof.
  intros H. apply lang_cls_inv in H as (c & -> & H). exists c. split; auto.
  unfold cset_mem in H; simpl in H. now apply in_ranges_iff.
Qed.

Lemma notclass_intro l c :
  in_ranges c l = false -> lang (NotClass l) [c].
Proof. intros H. apply L_cls. unfold cset_mem; simpl. now rewrite H. Qed.

Lemma char_inv a s : lang (Char a) s -> s = [chr a].
Proof.
  intros H. apply (@class_inv [(chr a, chr a)]) in H as (c & -> & H).
  inversion H as [? ? Hc|? ? Hc]; subst; [|inversion Hc].
  simpl in Hc. f_equal. lia.
Qed.

Lemma char_intro a : lang (Char a) [chr a].
Proof. apply class_intro. constructor; simpl; lia. Qed.

(** Turns the boolean tests on a code point into inequalities. *)
Ltac bounds :=
  repeat match goal with
  | H : _ && _ = true |- _ => apply andb_true_iff in H as [? ?]
  | H : N.leb _ _ = true |- _ => apply N.leb_le in H
  | H : N.eqb _ _ = true |- _ => apply N.eqb_eq in H
  | H : N.eqb _ _ = false |- _ => apply N.eqb_neq in H
  | H : is_digit _ = true |- _ => unfold is_digit in H
  end.

(** Closes [Exists (fun r => fst r <= c <= snd r) l] for explicit ranges. *)
Ltac in_class :=
  match goal with
  | |- Exists _ ?l => let l' := eval vm_compute in l in change l with l'
  end;
  repeat first [ apply Exists_cons_hd; simpl; lia | apply Exists_cons_tl ].

Lemma re_match_anchored_iff r s :
  re_match_anchored r s = true <->
  lang r s \/ exists p, s = p ++ [10%N] /\ lang r p.
Proof.
  unfold re_match_anchored. rewrite orb_true_iff, matchb_lang.
  split; (intros [H|H]; [now left | right]).
  - destruct (rev s) as [|c p] eqn:Hrev; [discriminate|].
    assert (Hs : s = rev p ++ [c]) by (rewrite <- (rev_involutive s), Hrev; reflexivity).
    apply andb_true_iff in H as [Hc H]. apply N.eqb_eq in Hc as ->.
    exists (rev p). split; [exact Hs | now apply matchb_lang].
  - destruct H as (p & -> & H). rewrite rev_app_distr; simpl.
    rewrite rev_involutive. now apply matchb_lang.
Qed.

Lemma re_match_anchored_lang r s : lang r s -> re_match_anchored r s = true.
Proof. intros H. apply re_match_anchored_iff. now left. Qed.

(** A word of [cs{n}] has [n] characters, all of the class. *)
Lemma rep_class_intro cs n s :
  List.length s = n -> Forall (fun c => cset_mem cs c = true) s -> lang (Rep n (Cls cs)) s.
Proof.
  revert s; induction n as [|n IH]; intros [|c s] Hlen Hall; try discriminate; simpl.
  - constructor.
  - inversion Hall; subst. change (c :: s) with ([c] ++ s).
    constructor; [now constructor | apply IH; auto].
Qed.

Lemma rep_class_inv cs n s :
  lang (Rep n (Cls cs)) s ->
  List.length s = n /\ Forall (fun c => cset_mem cs c = true) s.
Proof.
  revert s; induction n as [|n IH]; intros s H; simpl in H.
  - apply lang_eps_inv in H as ->. auto.
  - apply lang_cat_inv in H as (s1 & s2 & -> & H1 & H2).
    apply lang_cls_inv in H1 as (c & -> & Hc). apply IH in H2 as [<- Hall].
    split; [reflexivity | now constructor].
Qed.

Lemma star_class_intro cs s :
  Forall (fun c => cset_mem cs c = true) s -> lang (Star (Cls cs)) s.
Proof.
  induction 1 as [|c s Hc _ IH]; [constructor|].
  change (c :: s) with ([c] ++ s). constructor; [now constructor | exact IH].
Qed.

Lemma lit_intro s : lang (Lit s) s.
Proof.
  induction s as [|c s IH]; simpl; [constructor|].
  change (c :: s) with ([c] ++ s). constructor; [|exact IH].
  apply class_intro. constructor; simpl; lia.
Qed.

Lemma opt_none r : lang (Opt r) [].
Proof. apply L_alt_r. constructor. Qed.

Lemma opt_some r s : lang r s -> lang (Opt r) s.
Proof. now apply L_alt_l. Qed.

(* ===================================================================== *)
(** * The indicator classifier *)
(* ===================================================================== *)

Section Classifier.

Local Open Scope string_scope.
Local Open Scope list_scope.

Lemma digit09_intro c : is_digit c = true -> lang digit09 [c].
Proof. intros H. bounds. apply class_intro. in_class. Qed.

(** Every octet is a word of the octet alternative of the IP pattern. *)
Lemma octet_intro o : is_octet o = true -> lang octet o.
Proof.
  unfold is_octet. intros H.
  destruct o as [|a [|b [|c [|x o]]]];
    cbn [List.length Nat.leb forallb decimal_value andb] in H; try discriminate; bounds.
  - apply L_alt_r, L_alt_r. change [a] with ([] ++ ([a] ++ [])). unfold Seq.
    constructor; [apply opt_none|].
    constructor; [apply class_intro; in_class | apply opt_none].
  - apply L_alt_r, L_alt_r. change [a; b] with ([] ++ ([a] ++ [b])). unfold Seq.
    constructor; [apply opt_none|].
    constructor; [apply class_intro; in_class | apply opt_some, class_intro; in_class].
  - destruct (N.le_gt_cases a 49) as [Ha|Ha].
    + apply L_alt_r, L_alt_r. change [a; b; c] with ([a] ++ ([b] ++ [c])). unfold Seq.
      constructor;
        [apply opt_some, class_intro;
         assert (Ha' : a = 48%N \/ a = 49%N) by lia; destruct Ha' as [-> | ->]; in_class|].
      constructor; [apply class_intro; in_class | apply opt_some, class_intro; in_class].
    + assert (a = 50%N) by lia; subst a.
      destruct (N.le_gt_cases b 52) as [Hb|Hb].
      * apply L_alt_r, L_alt_l. change [50%N; b; c] with ([chr "2"] ++ ([b] ++ [c])). unfold Seq.
        constructor; [apply char_intro|].
        constructor; [apply class_intro; in_class | apply class_intro; in_class].
      * assert (b = 53%N) by lia; subst b.
        apply L_alt_l. change [50%N; 53%N; c] with (lit "25" ++ [c]). unfold Seq.
        constructor; [apply lit_intro | apply class_intro; in_class].
Qed.

Lemma ip_pattern_intro a b c d :
  lang octet a -> lang octet b -> lang octet c -> lang octet d ->
  lang ip_pattern (dotted_quad a b c d).
Proof.
  intros Ha Hb Hc Hd. unfold dotted_quad, ip_pattern.
  replace (a ++ lit "." ++ b ++ lit "." ++ c ++ lit "." ++ d)
    with (((a ++ lit ".") ++ (b ++ lit ".") ++ (c ++ lit ".") ++ []) ++ d)
    by (rewrite app_nil_r, <- !app_assoc; reflexivity).
  assert (Hstep : forall o, lang octet o -> lang (Cat octet (Char ".")) (o ++ lit "."))
    by (intros o Ho; constructor; [exact Ho | apply char_intro]).
  constructor; [|exact Hd]. simpl Rep.
  repeat (constructor; [now apply Hstep|]). constructor.
Qed.

Lemma ip_needs_dot : needs_dot ip_pattern.
Proof.
  intros p H. unfold ip_pattern in H. simpl Rep in H.
  apply lang_cat_inv in H as (s1 & s2 & -> & H & _).
  apply lang_cat_inv in H as (s3 & s4 & -> & H & _).
  apply lang_cat_inv in H as (s5 & s6 & -> & _ & H).
  apply char_inv in H as ->.
  apply in_or_app; left. apply in_or_app; left. apply in_or_app; right. now left.
Qed.

Lemma domain_needs_dot : needs_dot domain_pattern.
Proof.
  intros p H. unfold domain_pattern, Plus, Seq in H.
  apply lang_cat_inv in H as (s1 & s2 & -> & H & _).
  apply lang_cat_inv in H as (s3 & s4 & -> & H & _).
  apply lang_cat_inv in H as (s5 & s6 & -> & _ & H).
  apply lang_cat_inv in H as (s7 & s8 & -> & _ & H).
  apply char_inv in H as ->.
  apply in_or_app; left. apply in_or_app; left. apply in_or_app; right.
  apply in_or_app; right. now left.
Qed.

Lemma hex_intro c : is_hex_digit c = true -> lang hex [c].
Proof.
  unfold is_hex_digit. intros H. apply class_intro.
  apply orb_true_iff in H as [H|H]; [apply orb_true_iff in H as [H|H]|]; bounds; in_class.
Qed.

Lemma hex_rep_intro n s : all_hex s -> List.length s = n -> lang (Rep n hex) s.
Proof.
  intros Hall Hlen. apply rep_class_intro; [exact Hlen|].
  eapply Forall_impl; [|exact Hall]. intros c Hc.
  apply hex_intro, lang_cls_inv in Hc as (c' & Hc' & Hm). now injection Hc' as <-.
Qed.

(** Hexadecimal strings contain neither a full stop nor a line feed. *)
Lemma hex_not_dot s : all_hex s -> ~ In 46%N s.
Proof.
  intros Hall Hin. unfold all_hex in Hall. rewrite Forall_forall in Hall.
  apply Hall in Hin. discriminate.
Qed.

Lemma hex_not_newline s p : all_hex s -> s <> p ++ [10%N].
Proof.
  intros Hall ->. unfold all_hex in Hall. rewrite Forall_forall in Hall.
  assert (H : is_hex_digit 10 = true) by (apply Hall, in_or_app; right; now left).
  discriminate.
Qed.

Lemma hex_misses_dotted r s : needs_dot r -> all_hex s -> re_match_anchored r s = false.
Proof.
  intros Hr Hall. destruct (re_match_anchored r s) eqn:Hm; [|reflexivity].
  apply re_match_anchored_iff in Hm as [H|(p & Hs & _)].
  - destruct (hex_not_dot Hall (Hr _ H)).
  - destruct (hex_not_newline p Hall Hs).
Qed.

Lemma hex_misses_other_length n s :
  all_hex s -> List.length s <> n -> re_match_anchored (Rep n hex) s = false.
Proof.
  intros Hall Hlen. destruct (re_match_anchored (Rep n hex) s) eqn:Hm; [|reflexivity].
  apply re_match_anchored_iff in Hm as [H|(p & Hs & _)].
  - apply rep_class_inv in H as [H _]. contradiction.
  - destruct (hex_not_newline p Hall Hs).
Qed.

Lemma detect_ip s : lang ip_pattern s -> _detect_ioc_type s = ip.
Proof.
  intros H. unfold _detect_ioc_type, ioc_patterns; cbn [first_match].
  now rewrite (re_match_anchored_lang H).
Qed.

Lemma detect_hex n s :
  all_hex s -> List.length s = n ->
  _detect_ioc_type s =
    if Nat.eqb n 32 then md5 else if Nat.eqb n 40 then sha1
    else if Nat.eqb n 64 then sha256 else _detect_ioc_type s.
Proof.
  intros Hall Hlen.
  destruct (Nat.eqb_spec n 32) as [H32|H32];
    [|destruct (Nat.eqb_spec n 40) as [H40|H40];
      [|destruct (Nat.eqb_spec n 64) as [H64|H64]; [|reflexivity]]];
    unfold _detect_ioc_type, ioc_patterns; cbn [first_match];
    rewrite (hex_misses_dotted ip_needs_dot Hall), (hex_misses_dotted domain_needs_dot Hall).
  - unfold md5_pattern. rewrite re_match_anchored_lang; [reflexivity|].
    apply hex_rep_intro; congruence.
  - unfold md5_pattern, sha1_pattern.
    rewrite (hex_misses_other_length Hall) by congruence.
    rewrite re_match_anchored_lang; [reflexivity|]. apply hex_rep_intro; congruence.
  - unfold md5_pattern, sha1_pattern, sha256_pattern.
    rewrite !(hex_misses_other_length Hall) by congruence.
    rewrite re_match_anchored_lang; [reflexivity|]. apply hex_rep_intro; congruence.
Qed.

Lemma octet_of_number n : (0 <= n <= 255)%Z -> is_octet (str_int n) = true.
Proof.
  intros Hn.
  assert (Hall : forallb (fun k => is_octet (str_int (Z.of_nat k))) (seq 0 256) = true)
    by (vm_compute; reflexivity).
  rewrite forallb_forall in Hall.
  rewrite <- (Z2Nat.id n) by lia. apply Hall, in_seq. lia.
Qed.

Lemma in_ranges_app c l1 l2 : in_ranges c (l1 ++ l2) = in_ranges c l1 || in_ranges c l2.
Proof. unfold in_ranges. apply existsb_app. Qed.

Lemma not_space_class c :
  is_space c = false ->
  cset_mem {| negated := true; members := whitespace |} c = true.
Proof. unfold cset_mem, is_space; simpl. now intros ->. Qed.

Lemma url_pattern_intro scheme c d rest :
  scheme = lit "http://" \/ scheme = lit "https://" ->
  is_space c = false -> url_head_excluded c = false ->
  is_space d = false -> no_whitespace rest = true ->
  lang url_pattern (scheme ++ c :: d :: rest).
Proof.
  intros Hscheme Hc Hex Hd Hrest.
  assert (Htail : lang (Seq [ NotClass (whitespace ++ [one "/"; one "$"; one "."; one "?"; one "#"]);
                              Dot; Star (NotClass whitespace) ]) (c :: d :: rest)).
  { change (c :: d :: rest) with ([c] ++ ([d] ++ rest)). unfold Seq.
    constructor; [|constructor].
    - apply notclass_intro. rewrite in_ranges_app. fold (is_space c).
      rewrite Hc, orb_false_l. apply not_true_is_false. intros Hin.
      unfold url_head_excluded in Hex. repeat (apply orb_false_iff in Hex as [Hex ?]). bounds.
      apply in_ranges_iff in Hin.
      repeat (inversion Hin as [? ? Hin'|? ? Hin']; subst; clear Hin;
              [cbn in Hin'; lia | rename Hin' into Hin]).
      inversion Hin.
    - apply notclass_intro. destruct (in_ranges d [(10, 10)%N]) eqn:Hin; [|reflexivity].
      apply in_ranges_iff in Hin. inversion Hin as [? ? Hin'|? ? Hin']; subst; [|inversion Hin'].
      simpl in Hin'. assert (d = 10%N) by lia; subst d. discriminate.
    - apply star_class_intro. unfold no_whitespace in Hrest. rewrite forallb_forall in Hrest.
      apply Forall_forall. intros x Hx. apply not_space_class.
      apply Hrest in Hx. now destruct (is_space x). }
  unfold url_pattern. destruct Hscheme as [-> | ->].
  - change (lit "http://" ++ c :: d :: rest)
      with (lit "http" ++ ([] ++ (lit "://" ++ c :: d :: rest))).
    cbn [Seq]. constructor; [apply lit_intro|].
    constructor; [apply opt_none|]. constructor; [apply lit_intro | exact Htail].
  - change (lit "https://" ++ c :: d :: rest)
      with (lit "http" ++ ([chr "s"] ++ (lit "://" ++ c :: d :: rest))).
    cbn [Seq]. constructor; [apply lit_intro|].
    constructor; [apply opt_some, char_intro|]. constructor; [apply lit_intro | exact Htail].
Qed.

End Classifier.

(* ===================================================================== *)
(** * Properties of the classifier and of the clause builder *)
(* ===================================================================== *)

Section ClassifierProperties.

Local Open Scope string_scope.
Local Open Scope list_scope.

(** C3. Every dotted quad of four octets classifies as [ip], whether the
    octets are given as digit strings (one to three digits, value at most
    255) or as the decimal writing of four numbers from 0 to 255; every
    string of exactly 32, 40 or 64 hexadecimal digits classifies as [md5],
    [sha1] or [sha256]; and the four indicators the specification lists
    classify as [ip], [domain], [md5] and [unknown]. *)
Theorem detect_ip_and_hashes :
  (forall a b c d : pystr,
      is_octet a = true -> is_octet b = true -> is_octet c = true -> is_octet d = true ->
      _detect_ioc_type (dotted_quad a b c d) = ip) /\
  (forall a b c d : Z,
      (0 <= a <= 255)%Z -> (0 <= b <= 255)%Z -> (0 <= c <= 255)%Z -> (0 <= d <= 255)%Z ->
      _detect_ioc_type (dotted_quad (str_int a) (str_int b) (str_int c) (str_int d)) = ip) /\
  (forall s, all_hex s -> List.length s = 32 -> _detect_ioc_type s = md5) /\
  (forall s, all_hex s -> List.length s = 40 -> _detect_ioc_type s = sha1) /\
  (forall s, all_hex s -> List.length s = 64 -> _detect_ioc_type s = sha256) /\
  _detect_ioc_type (lit "8.8.8.8") = ip /\
  _detect_ioc_type (lit "evil.example.com") = domain /\
  _detect_ioc_type (lit "5d41402abc4b2a76b9719d911017c592") = md5 /\
  _detect_ioc_type (lit "not a valid indicator!!") = unknown.
Proof.
  assert (Hquad : forall a b c d : pystr,
      is_octet a = true -> is_octet b = true -> is_octet c = true -> is_octet d = true ->
      _detect_ioc_type (dotted_quad a b c d) = ip).
  { intros a b c d Ha Hb Hc Hd. apply detect_ip, ip_pattern_intro; now apply octet_intro. }
  split; [exact Hquad|].
  split; [intros a b c d Ha Hb Hc Hd; apply Hquad; now apply octet_of_number|].
  split; [intros s Hall Hlen; now rewrite (detect_hex Hall Hlen)|].
  split; [intros s Hall Hlen; now rewrite (detect_hex Hall Hlen)|].
  split; [intros s Hall Hlen; now rewrite (detect_hex Hall Hlen)|].
  repeat split; vm_compute; reflexivity.
Qed.

Lemma detect_ip_and_hashes_witness :
  _detect_ioc_type (dotted_quad (lit "192") (lit "168") (lit "01") (lit "7")) = ip /\
  _detect_ioc_type (dotted_quad (str_int 10) (str_int 0) (str_int 255) (str_int 1)) = ip /\
  _detect_ioc_type (lit "d41d8cd98f00b204e9800998ecf8427e") = md5 /\
  _detect_ioc_type (lit "da39a3ee5e6b4b0d3255bfef95601890afd80709") = sha1 /\
  _detect_ioc_type (lit "E3B0C44298FC1C149AFBF4C8996FB92427AE41E4649B934CA495991B7852B855") = sha256.
Proof.
  destruct detect_ip_and_hashes as (Hquad & Hnum & Hmd5 & Hsha1 & Hsha256 & _).
  split; [apply Hquad; reflexivity|].
  split; [apply Hnum; lia|].
  split; [apply Hmd5; [unfold all_hex; repeat constructor | reflexivity]|].
  split; [apply Hsha1; [unfold all_hex; repeat constructor | reflexivity]|].
  apply Hsha256; [unfold all_hex; repeat constructor | reflexivity].
Defined.

(** C2, as amended. A string made of [http://] or [https://], then a
    character that is neither whitespace nor one of [/ $ . ? #], then one
    or more further characters, with no whitespace anywhere, and which
    matches none of the patterns tried earlier, classifies as [url]. *)
Theorem detect_url :
  forall (scheme : pystr) (c : N) (rest : pystr),
    scheme = lit "http://" \/ scheme = lit "https://" ->
    url_head_excluded c = false ->
    rest <> [] ->
    no_whitespace (scheme ++ c :: rest) = true ->
    matches_before_url (scheme ++ c :: rest) = false ->
    _detect_ioc_type (scheme ++ c :: rest) = url.
Proof.
  intros scheme c rest Hscheme Hex Hrest Hws Hbefore.
  destruct rest as [|d rest]; [congruence|].
  unfold no_whitespace in Hws. rewrite forallb_app in Hws.
  apply andb_true_iff in Hws as [_ Hws]. cbn [forallb] in Hws.
  apply andb_true_iff in Hws as [Hc Hws]. apply andb_true_iff in Hws as [Hd Hws].
  apply negb_true_iff in Hc, Hd.
  pose proof (@url_pattern_intro scheme c d rest Hscheme Hc Hex Hd Hws) as Hurl.
  apply re_match_anchored_lang in Hurl.
  unfold matches_before_url, before_url in Hbefore. cbn [existsb snd] in Hbefore.
  repeat (apply orb_false_iff in Hbefore as [? Hbefore]).
  unfold _detect_ioc_type, ioc_patterns; cbn [first_match].
  repeat match goal with H : re_match_anchored _ _ = false |- _ => rewrite H; clear H end.
  now rewrite Hurl.
Qed.

Lemma detect_url_witness :
  _detect_ioc_type (lit "https://" ++ chr "e" :: lit "vil.example/a?b#c") = url.
Proof.
  apply detect_url.
  - right; reflexivity.
  - reflexivity.
  - discriminate.
  - vm_compute; reflexivity.
  - vm_compute; reflexivity.
Defined.

(** C2, as the specification words it, fails: [http://a] is [http://]
    followed by one non-whitespace character and matches none of the
    earlier patterns, yet it classifies as [unknown]. *)
Lemma detect_url_single_character :
  url_shape (lit "http://a") /\
  matches_before_url (lit "http://a") = false /\
  _detect_ioc_type (lit "http://a") = unknown.
Proof.
  split; [|split; vm_compute; reflexivity].
  exists (lit "http://"), (lit "a").
  split; [now left|]. split; [discriminate|]. split; reflexivity.
Qed.

(** C4. For every indicator value, the clause built for kind [ip] is one
    parenthesized clause that OR-joins the value bound to [source.ip],
    [destination.ip], [client.ip] and [server.ip]; for each of [md5],
    [sha1] and [sha256] it OR-joins the three fields [file.hash.md5],
    [file.hash.sha1] and [file.hash.sha256]; for [unknown] it is the raw
    indicator between double quotes. *)
Theorem build_ioc_query_clauses :
  forall ioc : pystr,
    _build_ioc_query ioc ip =
      or_clause [lit "source.ip"; lit "destination.ip"; lit "client.ip"; lit "server.ip"] ioc /\
    _build_ioc_query ioc md5 =
      or_clause [lit "file.hash.md5"; lit "file.hash.sha1"; lit "file.hash.sha256"] ioc /\
    _build_ioc_query ioc sha1 =
      or_clause [lit "file.hash.md5"; lit "file.hash.sha1"; lit "file.hash.sha256"] ioc /\
    _build_ioc_query ioc sha256 =
      or_clause [lit "file.hash.md5"; lit "file.hash.sha1"; lit "file.hash.sha256"] ioc /\
    _build_ioc_query ioc unknown = quoted_term ioc.
Proof.
  intros ioc.
  assert (Hhash : _build_ioc_query ioc md5 =
      or_clause [lit "file.hash.md5"; lit "file.hash.sha1"; lit "file.hash.sha256"] ioc).
  { unfold _build_ioc_query, or_clause; cbn [map join].
    repeat rewrite <- app_assoc. reflexivity. }
  split; [|repeat split; exact Hhash || reflexivity].
  unfold _build_ioc_query, or_clause; cbn [map join].
  repeat rewrite <- app_assoc. reflexivity.
Qed.

End ClassifierProperties.

(* ===================================================================== *)
(** * The IOC hunt *)
(* ===================================================================== *)

Section IocHunt.

Variable E : World.
Variable es : option es_client.
Variable time_range : pystr.

Local Open Scope string_scope.
Local Open Scope list_scope.

Lemma build_ioc_query_truthy ioc k : truthy_str (_build_ioc_query ioc k) = true.
Proof. destruct k; reflexivity. Qed.

(** One turn of the loop stores the entry of its indicator and goes on. *)
Lemma hunt_iocs_loop_cons ioc rest results w :
  hunt_iocs_loop E es time_range (ioc :: rest) results w =
  hunt_iocs_loop E es time_range rest
    (dict_set results ioc (fst (ioc_entry E es time_range ioc w)))
    (snd (ioc_entry E es time_range ioc w)).
Proof.
  cbn [hunt_iocs_loop]. rewrite build_ioc_query_truthy.
  unfold bind, try_except, ret, ioc_entry.
  destruct (ioc_attempt E es _ _ time_range w) as [[entry|e] w']; reflexivity.
Qed.

(** The loop never raises. *)
Lemma hunt_iocs_loop_total iocs :
  forall results w, exists report w',
    hunt_iocs_loop E es time_range iocs results w = (Ok report, w').
Proof.
  induction iocs as [|ioc rest IH]; intros results w.
  - exists results, w. reflexivity.
  - rewrite hunt_iocs_loop_cons. apply IH.
Qed.

Lemma hunt_iocs_loop_app pre post :
  forall results w before w1,
    hunt_iocs_loop E es time_range pre results w = (Ok before, w1) ->
    hunt_iocs_loop E es time_range (pre ++ post) results w =
    hunt_iocs_loop E es time_range post before w1.
Proof.
  induction pre as [|ioc pre IH]; intros results w before w1 Hpre.
  - injection Hpre as <- <-. reflexivity.
  - rewrite <- app_comm_cons, hunt_iocs_loop_cons.
    rewrite hunt_iocs_loop_cons in Hpre. now apply IH.
Qed.

(** Indicators that are not processed keep their entry. *)
Lemma hunt_iocs_loop_other iocs s :
  ~ In s iocs ->
  forall results w report w',
    hunt_iocs_loop E es time_range iocs results w = (Ok report, w') ->
    dict_get report s = dict_get results s.
Proof.
  induction iocs as [|ioc rest IH]; intros Hnot results w report w' Hrun.
  - injection Hrun as <- _. reflexivity.
  - rewrite hunt_iocs_loop_cons in Hrun. apply IH in Hrun.
    + rewrite Hrun. apply dict_get_set_other. intros ->. apply Hnot. now left.
    + intros Hin. apply Hnot. now right.
Qed.

Lemma NoDup_keys_dict_set (d : dict) k v : NoDup (keys d) -> NoDup (keys (dict_set d k v)).
Proof.
  intros Hd. rewrite keys_dict_set. destruct (dict_has d k) eqn:Hk; [exact Hd|].
  apply NoDup_app; [exact Hd | repeat constructor; simpl; tauto |].
  intros x Hx [<-|[]]. apply dict_has_In in Hx. congruence.
Qed.

(** The report never holds two entries under one key. *)
Lemma hunt_iocs_loop_NoDup iocs :
  forall results w report w',
    NoDup (keys results) ->
    hunt_iocs_loop E es time_range iocs results w = (Ok report, w') ->
    NoDup (keys report).
Proof.
  induction iocs as [|ioc rest IH]; intros results w report w' Hd Hrun.
  - now injection Hrun as <- _.
  - rewrite hunt_iocs_loop_cons in Hrun. eapply IH; [|exact Hrun].
    now apply NoDup_keys_dict_set.
Qed.



End IocHunt.

Section IocHuntProperties.

Local Open Scope string_scope.
Local Open Scope list_scope.



(** C10, as amended. With the search backend connected, the report holds
    a single entry under every key, and the entry of an indicator is the one
    produced when its last occurrence was processed, whatever came before:
    the report is keyed by the raw indicator string. *)
Theorem hunt_iocs_duplicate_keeps_last :
  forall (E : World) (c : es_client) (time_range : pystr)
         (pre : list pystr) (s : pystr) (post : list pystr) (w : state E),
    ~ In s post ->
    exists before w1 report w',
      hunt_iocs_loop E (Some c) time_range pre [] w = (Ok before, w1) /\
      hunt_iocs E (Some c) (pre ++ s :: post) time_range w = (Ok (PDict report), w') /\
      NoDup (keys report) /\
      dict_get report s = Some (fst (ioc_entry E (Some c) time_range s w1)).
Proof.
  intros E c time_range pre s post w Hlast.
  destruct (hunt_iocs_loop_total E (Some c) time_range pre [] w) as (before & w1 & Hpre).
  destruct (hunt_iocs_loop_total E (Some c) time_range (pre ++ s :: post) [] w)
    as (report & w' & Hrun).
  exists before, w1, report, w'. split; [exact Hpre|]. split; [|split].
  - unfold hunt_iocs, bind, ret. now rewrite Hrun.
  - eapply hunt_iocs_loop_NoDup; [|exact Hrun]. constructor.
  - rewrite (@hunt_iocs_loop_app _ _ _ _ (s :: post) _ _ _ _ Hpre), hunt_iocs_loop_cons in Hrun.
    pose proof (@hunt_iocs_loop_other _ _ _ post s Hlast _ _ _ _ Hrun) as Hget.
    now rewrite dict_get_set_same in Hget.
Qed.

(** An indicator given twice: the first search succeeds, the second faults,
    and the single entry left is the error entry of the second. *)
Lemma hunt_iocs_duplicate_keeps_last_witness :
  exists report w',
    hunt_iocs sample_world (Some Elasticsearch)
      ([lit "1.2.3.4"] ++ lit "1.2.3.4" :: []) (lit "24h") 0 = (Ok (PDict report), w') /\
    NoDup (keys report) /\
    dict_get report (lit "1.2.3.4") = Some (error_dict (lit "ConnectionTimeout")).
Proof.
  destruct (@hunt_iocs_duplicate_keeps_last sample_world Elasticsearch (lit "24h")
              [lit "1.2.3.4"] (lit "1.2.3.4") [] 0%nat (fun H => H))
    as (before & w1 & report & w' & Hpre & Hrun & Hnodup & Hentry).
  exists report, w'. split; [exact Hrun|]. split; [exact Hnodup|].
  vm_compute in Hpre. injection Hpre as <- <-. exact Hentry.
Defined.

(** C10, as the specification words it, fails when the backend is not
    connected: the value returned for an indicator given twice has no entry
    for it. *)
Lemma hunt_iocs_duplicate_disconnected :
  exists report,
    hunt_iocs sample_world None [lit "1.2.3.4"; lit "1.2.3.4"] (lit "24h") 0
      = (Ok (PDict report), 0) /\
    dict_get report (lit "1.2.3.4") = None.
Proof. eexists. split; reflexivity. Qed.

End IocHuntProperties.

(* ===================================================================== *)
(** * The technique hunt *)
(* ===================================================================== *)

Section TechniqueHunt.

Local Open Scope string_scope.
Local Open Scope list_scope.

(** C6, as amended. For a technique id that is not in the catalog and any
    time-range token, [hunt_mitre_attack] raises nothing and leaves the
    world as it was. With the search backend connected it returns the
    error value whose message names the unknown id; with the backend not
    connected it returns the not-connected error value, the check that
    comes first. *)
Theorem hunt_mitre_attack_unknown_technique :
  forall (E : World) (technique_id time_range : pystr) (w : state E),
    dict_get attack_patterns technique_id = None ->
    (forall c : es_client,
        hunt_mitre_attack E (Some c) technique_id time_range w =
        (Ok (error_dict (lit "Unknown MITRE ATT&CK technique: " ++ technique_id)), w)) /\
    hunt_mitre_attack E None technique_id time_range w =
      (Ok (error_dict (lit "Elasticsearch not connected")), w).
Proof.
  intros E technique_id time_range w Hmiss. split.
  - intros c. unfold hunt_mitre_attack. now rewrite Hmiss.
  - reflexivity.
Qed.

Lemma hunt_mitre_attack_unknown_technique_witness :
  hunt_mitre_attack sample_world (Some Elasticsearch) (lit "T9999") (lit "24h") 0 =
    (Ok (error_dict (lit "Unknown MITRE ATT&CK technique: T9999")), 0) /\
  hunt_mitre_attack sample_world None (lit "T9999") (lit "24h") 0 =
    (Ok (error_dict (lit "Elasticsearch not connected")), 0).
Proof.
  destruct (@hunt_mitre_attack_unknown_technique sample_world (lit "T9999") (lit "24h") 0%nat eq_refl)
    as [Hconnected Hnone].
  split; [exact (Hconnected Elasticsearch) | exact Hnone].
Defined.

(** C6, as the specification words it, fails when the backend is not
    connected: for the unknown id [T9999] the value returned is the
    not-connected error, whose message does not name the id. *)
Lemma hunt_mitre_attack_unknown_disconnected :
  dict_get attack_patterns (lit "T9999") = None /\
  hunt_mitre_attack sample_world None (lit "T9999") (lit "24h") 0 =
    (Ok (error_dict (lit "Elasticsearch not connected")), 0) /\
  is_infix (lit "T9999") (lit "Elasticsearch not connected") = false.
Proof. repeat split; reflexivity. Qed.

End TechniqueHunt.

(* ===================================================================== *)
(** * Every request carries a time window *)
(* ===================================================================== *)

Section TimeWindow.

Variable E : World.
Variable P : pyval -> Prop.

Local Open Scope string_scope.
Local Open Scope list_scope.

Lemma keeps_ret A (a : A) : keeps_bounded (E := E) P (ret a).
Proof. intros s Hs. exact Hs. Qed.

Lemma keeps_lift A (o : outcome A) : keeps_bounded (E := E) P (lift o).
Proof. intros s Hs. exact Hs. Qed.

Lemma keeps_now : keeps_bounded P (now_ (recording E)).
Proof. intros s Hs. exact Hs. Qed.

Lemma keeps_bind A B (m : M (recording E) A) (f : A -> M (recording E) B) :
  keeps_bounded P m -> (forall a, keeps_bounded P (f a)) -> keeps_bounded P (bind m f).
Proof.
  intros Hm Hf s Hs. unfold bind. specialize (Hm s Hs).
  destruct (m s) as [[a|e] s']; [now apply Hf | exact Hm].
Qed.

Lemma keeps_try A (m : M (recording E) A) (h : exn -> M (recording E) A) :
  keeps_bounded P m -> (forall e, keeps_bounded P (h e)) -> keeps_bounded P (try_except m h).
Proof.
  intros Hm Hh s Hs. unfold try_except. specialize (Hm s Hs).
  destruct (m s) as [[a|e] s']; [exact Hm | now apply Hh].
Qed.

Lemma keeps_search es index body :
  P body -> keeps_bounded P (search (recording E) es index body).
Proof.
  intros Hbody s Hs. destruct es as [c|]; [|exact Hs].
  cbn. apply Forall_app. split; [exact Hs | now repeat constructor].
Qed.

Lemma keeps_sub_hunt es body :
  P body -> keeps_bounded P (sub_hunt (recording E) es body).
Proof.
  intros Hbody. unfold sub_hunt. apply keeps_try.
  - apply keeps_bind; [now apply keeps_search | intros; apply keeps_ret].
  - intros; apply keeps_ret.
Qed.

(** From an empty log, a computation that keeps the log so sends only
    bodies that have the property. *)
Lemma bodies_sent_bounded A (m : M (recording E) A) (w : state E) :
  keeps_bounded P m -> Forall P (bodies_sent m w).
Proof.
  intros Hm. unfold bodies_sent. apply Forall_map.
  apply (Hm (w, [])). constructor.
Qed.

End TimeWindow.

Section TimeWindowOperations.

Variable E : World.

Local Open Scope string_scope.
Local Open Scope list_scope.

Lemma mitre_body_bound query start_time :
  time_lower_bound (mitre_search_body query start_time) = Some (PStr (isoformat start_time)).
Proof. reflexivity. Qed.

Lemma ioc_body_bound query start_time :
  time_lower_bound (ioc_search_body query start_time) = Some (PStr (isoformat start_time)).
Proof. reflexivity. Qed.

Lemma search_logs_body_bound query start_time :
  time_lower_bound (search_logs_body query start_time) = Some (PStr (isoformat start_time)).
Proof. reflexivity. Qed.

Lemma security_alerts_body_bound severity limit :
  time_lower_bound (security_alerts_body severity limit) = Some (PStr (lit "now-24h")).
Proof. reflexivity. Qed.

(** The four sub-hunts write the token into the bound as it came. *)
Lemma anomaly_body_bounds time_range :
  time_lower_bound (unusual_login_body time_range) = Some (PStr (lit "now-" ++ time_range)) /\
  time_lower_bound (privilege_escalation_body time_range) = Some (PStr (lit "now-" ++ time_range)) /\
  time_lower_bound (data_exfiltration_body time_range) = Some (PStr (lit "now-" ++ time_range)) /\
  time_lower_bound (lateral_movement_body time_range) = Some (PStr (lit "now-" ++ time_range)).
Proof. repeat split; reflexivity. Qed.

(** Every window opens before the reading of the clock. *)
Lemma start_times_before_now now time_range :
  (search_start_time now time_range < now)%Z /\ (hunt_start_time now time_range < now)%Z.
Proof.
  unfold search_start_time, hunt_start_time, hours, days.
  split; repeat (destruct (pystr_eqb _ _)); lia.
Qed.

Lemma keeps_hunt_anomalies es time_range :
  keeps_bounded (bounded_at (lit "now-" ++ time_range))
    (hunt_anomalies (recording E) es time_range).
Proof.
  unfold hunt_anomalies. destruct es as [c|]; [|apply keeps_ret].
  unfold _hunt_unusual_login_times, _hunt_privilege_escalation,
    _hunt_data_exfiltration, _hunt_lateral_movement.
  repeat (apply keeps_bind; [apply keeps_sub_hunt; reflexivity | intros ?]).
  apply keeps_ret.
Qed.

Lemma keeps_hunt_mitre_attack es technique_id time_range :
  keeps_bounded (bounded_from (fun now => hunt_start_time now time_range))
    (hunt_mitre_attack (recording E) es technique_id time_range).
Proof.
  unfold hunt_mitre_attack. destruct es as [c|]; [|apply keeps_ret].
  destruct (dict_get attack_patterns technique_id) as [technique|]; [|apply keeps_ret].
  apply keeps_try; [|intros; apply keeps_ret].
  apply keeps_bind; [apply keeps_now | intros now].
  apply keeps_bind; [apply keeps_lift | intros query].
  apply keeps_bind; [apply keeps_search; exists now; reflexivity | intros result].
  apply keeps_bind; [apply keeps_lift | intros hits].
  apply keeps_bind; [apply keeps_lift | intros timeline].
  apply keeps_ret.
Qed.

Lemma keeps_ioc_attempt es query ioc_type time_range :
  keeps_bounded (bounded_from (fun now => hunt_start_time now time_range))
    (ioc_attempt (recording E) es query ioc_type time_range).
Proof.
  unfold ioc_attempt.
  apply keeps_bind; [apply keeps_now | intros now].
  apply keeps_bind; [apply keeps_search; exists now; reflexivity | intros result].
  apply keeps_bind; [apply keeps_lift | intros total].
  apply keeps_bind; [apply keeps_lift | intros hits].
  apply keeps_ret.
Qed.

Lemma keeps_hunt_iocs_loop es time_range iocs :
  forall results,
    keeps_bounded (bounded_from (fun now => hunt_start_time now time_range))
      (hunt_iocs_loop (recording E) es time_range iocs results).
Proof.
  induction iocs as [|ioc rest IH]; intros results; cbn [hunt_iocs_loop].
  - apply keeps_ret.
  - destruct (truthy_str _); [|apply IH].
    apply keeps_bind; [|intros; apply IH].
    apply keeps_try; [|intros; apply keeps_ret].
    apply keeps_bind; [apply keeps_ioc_attempt | intros; apply keeps_ret].
Qed.

Lemma keeps_hunt_iocs es iocs time_range :
  keeps_bounded (bounded_from (fun now => hunt_start_time now time_range))
    (hunt_iocs (recording E) es iocs time_range).
Proof.
  unfold hunt_iocs. destruct es as [c|]; [|apply keeps_ret].
  apply keeps_bind; [apply keeps_hunt_iocs_loop | intros; apply keeps_ret].
Qed.

Lemma keeps_search_logs es query time_range index_pattern :
  keeps_bounded (bounded_from (fun now => search_start_time now time_range))
    (search_logs (recording E) es query time_range index_pattern).
Proof.
  unfold search_logs. destruct es as [c|]; [|apply keeps_ret].
  apply keeps_try; [|intros; apply keeps_ret].
  apply keeps_bind; [apply keeps_now | intros now].
  apply keeps_bind; [apply keeps_search; exists now; reflexivity | intros; apply keeps_ret].
Qed.

Lemma keeps_get_security_alerts es severity limit :
  keeps_bounded (bounded_at (lit "now-24h"))
    (get_security_alerts (recording E) es severity limit).
Proof.
  unfold get_security_alerts. destruct es as [c|]; [|apply keeps_ret].
  apply keeps_try; [|intros; apply keeps_ret].
  apply keeps_bind; [apply keeps_search; reflexivity | intros; apply keeps_ret].
Qed.

End TimeWindowOperations.

Section AnomalyHunt.

Variable E : World.

Local Open Scope string_scope.
Local Open Scope list_scope.

(** A sub-hunt sends its body once and returns, whatever the backend does. *)
Lemma sub_hunt_run c body s :
  exists v w',
    sub_hunt (recording E) (Some c) body s = (Ok v, (w', snd s ++ [(lit "*", body)])).
Proof.
  unfold sub_hunt, try_except, bind, search, ret. cbn.
  destruct (es_search E _ body (fst s)) as [[result|e] w']; cbn; eauto.
Qed.

(** With the backend connected, [hunt_anomalies] sends the four bodies, in
    the order of the source. *)
Lemma hunt_anomalies_bodies c time_range w :
  bodies_sent (hunt_anomalies (recording E) (Some c) time_range) w =
  [ unusual_login_body time_range; privilege_escalation_body time_range;
    data_exfiltration_body time_range; lateral_movement_body time_range ].
Proof.
  unfold bodies_sent, hunt_anomalies, bind,
    _hunt_unusual_login_times, _hunt_privilege_escalation,
    _hunt_data_exfiltration, _hunt_lateral_movement.
  destruct (sub_hunt_run c (unusual_login_body time_range) (w, [])) as (v1 & w1 & ->).
  destruct (sub_hunt_run c (privilege_escalation_body time_range) (w1, snd (w, []) ++ [(lit "*", unusual_login_body time_range)]))
    as (v2 & w2 & ->).
  match goal with |- context [sub_hunt _ _ ?b ?s] =>
    destruct (sub_hunt_run c b s) as (v3 & w3 & ->) end.
  match goal with |- context [sub_hunt _ _ ?b ?s] =>
    destruct (sub_hunt_run c b s) as (v4 & w4 & ->) end.
  reflexivity.
Qed.

(** The first character of an ISO timestamp is a digit. *)
Lemma isoformat_head t : exists d rest, isoformat t = digit d :: rest.
Proof.
  unfold isoformat. destruct (civil_of_days (t / 86400000000)) as [[y m] d].
  unfold pad4. cbn [app]. eauto.
Qed.

Lemma isoformat_not_date_math t tail : isoformat t <> lit "now-" ++ tail.
Proof.
  destruct (isoformat_head t) as (d & rest & ->). intros H. injection H as H _.
  unfold digit in H. assert (0 <= d mod 10 < 10)%Z by (apply Z.mod_pos_bound; lia).
  change (N_of_ascii "n") with 110%N in H. lia.
Qed.

End AnomalyHunt.

(* ===================================================================== *)
(** * Properties of the time window *)
(* ===================================================================== *)

Section TimeWindowProperties.

Local Open Scope string_scope.
Local Open Scope list_scope.

(** C9. Every search body the program builds carries, among its mandatory
    clauses, a lower bound on [@timestamp], and the bound is a time: in the
    bodies of the log search, of the technique hunt and of the IOC hunt it
    is the text of the start of the window, an instant earlier than the
    reading of the clock; in the body of the alert retrieval it is
    [now-24h]; in the bodies of the four anomaly sub-hunts it is [now-]
    followed by the token. Every request that any of the operations sends
    to the search backend, in any world and from any state, has such a
    body, with the bound of its own operation. *)
Theorem every_query_has_time_lower_bound :
  (forall query start_time,
      time_lower_bound (search_logs_body query start_time) = Some (PStr (isoformat start_time)) /\
      time_lower_bound (mitre_search_body query start_time) = Some (PStr (isoformat start_time))) /\
  (forall query start_time,
      time_lower_bound (ioc_search_body query start_time) = Some (PStr (isoformat start_time))) /\
  (forall severity limit,
      time_lower_bound (security_alerts_body severity limit) = Some (PStr (lit "now-24h"))) /\
  (forall time_range,
      time_lower_bound (unusual_login_body time_range) = Some (PStr (lit "now-" ++ time_range)) /\
      time_lower_bound (privilege_escalation_body time_range) =
        Some (PStr (lit "now-" ++ time_range)) /\
      time_lower_bound (data_exfiltration_body time_range) =
        Some (PStr (lit "now-" ++ time_range)) /\
      time_lower_bound (lateral_movement_body time_range) =
        Some (PStr (lit "now-" ++ time_range))) /\
  (forall now time_range,
      (search_start_time now time_range < now)%Z /\ (hunt_start_time now time_range < now)%Z) /\
  (forall (E : World) (es : option es_client) (w : state E),
      (forall query time_range index_pattern,
          Forall (bounded_from (fun now => search_start_time now time_range))
            (bodies_sent (search_logs (recording E) es query time_range index_pattern) w)) /\
      (forall severity limit,
          Forall (bounded_at (lit "now-24h"))
            (bodies_sent (get_security_alerts (recording E) es severity limit) w)) /\
      (forall technique_id time_range,
          Forall (bounded_from (fun now => hunt_start_time now time_range))
            (bodies_sent (hunt_mitre_attack (recording E) es technique_id time_range) w)) /\
      (forall iocs time_range,
          Forall (bounded_from (fun now => hunt_start_time now time_range))
            (bodies_sent (hunt_iocs (recording E) es iocs time_range) w)) /\
      (forall time_range,
          Forall (bounded_at (lit "now-" ++ time_range))
            (bodies_sent (_hunt_unusual_login_times (recording E) es time_range) w) /\
          Forall (bounded_at (lit "now-" ++ time_range))
            (bodies_sent (_hunt_privilege_escalation (recording E) es time_range) w) /\
          Forall (bounded_at (lit "now-" ++ time_range))
            (bodies_sent (_hunt_data_exfiltration (recording E) es time_range) w) /\
          Forall (bounded_at (lit "now-" ++ time_range))
            (bodies_sent (_hunt_lateral_movement (recording E) es time_range) w) /\
          Forall (bounded_at (lit "now-" ++ time_range))
            (bodies_sent (hunt_anomalies (recording E) es time_range) w))).
Proof.
  split; [intros; split; reflexivity|].
  split; [intros; reflexivity|].
  split; [intros; reflexivity|].
  split; [intros; repeat split; reflexivity|].
  split; [apply start_times_before_now|].
  intros E es w.
  split; [intros; apply bodies_sent_bounded, keeps_search_logs|].
  split; [intros; apply bodies_sent_bounded, keeps_get_security_alerts|].
  split; [intros; apply bodies_sent_bounded, keeps_hunt_mitre_attack|].
  split; [intros; apply bodies_sent_bounded, keeps_hunt_iocs|].
  intros time_range.
  repeat split; apply bodies_sent_bounded;
    try (apply keeps_sub_hunt; reflexivity).
  apply keeps_hunt_anomalies.
Qed.

(** C1: what the code does at the token [banana]. With the backend
    connected, [hunt_anomalies] sends four requests, and the lower bound of
    each is the text [now-banana]: the token is written into the bound as
    it came. That bound is neither [now-24h] nor the timestamp of
    twenty-four hours before the clock reading, which is the bound
    [hunt_mitre_attack] and [hunt_iocs] compute for the same token. *)
Theorem hunt_anomalies_embeds_unknown_token :
  forall (E : World) (c : es_client) (w : state E),
    map time_lower_bound
        (bodies_sent (hunt_anomalies (recording E) (Some c) (lit "banana")) w) =
      [ Some (PStr (lit "now-banana")); Some (PStr (lit "now-banana"));
        Some (PStr (lit "now-banana")); Some (PStr (lit "now-banana")) ] /\
    pystr_eqb (lit "now-banana") (lit "now-24h") = false /\
    (forall (now : datetime) (query : pystr) (technique_query : pyval),
        hunt_start_time now (lit "banana") = (now - hours 24)%Z /\
        time_lower_bound (ioc_search_body query (hunt_start_time now (lit "banana")))
          = Some (PStr (isoformat (now - hours 24)%Z)) /\
        time_lower_bound (mitre_search_body technique_query (hunt_start_time now (lit "banana")))
          = Some (PStr (isoformat (now - hours 24)%Z)) /\
        pystr_eqb (isoformat (now - hours 24)%Z) (lit "now-banana") = false).
Proof.
  intros E c w. split; [|split].
  - rewrite hunt_anomalies_bodies. reflexivity.
  - reflexivity.
  - intros now query technique_query.
    split; [reflexivity|]. split; [reflexivity|]. split; [reflexivity|].
    apply pystr_eqb_neq.
    apply (@isoformat_not_date_math (now - hours 24)%Z (lit "banana")).
Qed.

End TimeWindowProperties.

(* ===================================================================== *)
(** * Timelines *)
(* ===================================================================== *)

Section Timeline.

Local Open Scope string_scope.
Local Open Scope list_scope.

Lemma hits_keyed_app key done hits :
  hits_keyed key (done ++ hits) = (hits_keyed key done + hits_keyed key hits)%Z.
Proof. unfold hits_keyed. rewrite filter_app, length_app. lia. Qed.

Lemma hits_keyed_one key hit :
  hits_keyed key [hit] = if keyed_as key hit then 1%Z else 0%Z.
Proof. unfold hits_keyed; simpl. now destruct (keyed_as key hit). Qed.

Lemma hits_keyed_nonneg key hits : (0 <= hits_keyed key hits)%Z.
Proof. unfold hits_keyed. lia. Qed.

(** One turn of the loop adds one under the key of the hit. *)
Lemma timeline_step_counts timeline hit done :
  stamped_hit hit ->
  counts timeline (fun key => hits_keyed key done) ->
  NoDup (keys timeline) ->
  exists timeline',
    timeline_step timeline hit = Ok timeline' /\
    counts timeline' (fun key => hits_keyed key (done ++ [hit])) /\
    NoDup (keys timeline').
Proof.
  intros (source & Hsrc & Hts) Hcounts Hnodup.
  unfold timeline_step. rewrite Hsrc. cbn [obind py_get].
  assert (Hskip : date_key_of hit = None ->
                  counts timeline (fun key => hits_keyed key (done ++ [hit]))).
  { intros Hnokey key. rewrite hits_keyed_app, hits_keyed_one.
    unfold keyed_as. rewrite Hnokey, Z.add_0_r. apply Hcounts. }
  destruct Hts as [Hnone | (ts & Hsome)].
  - rewrite Hnone. cbn. exists timeline. split; [reflexivity|]. split; [|exact Hnodup].
    apply Hskip. unfold date_key_of. now rewrite Hsrc, Hnone.
  - rewrite Hsome. cbn [differs_from_str].
    destruct (pystr_eqb ts (lit "Unknown")) eqn:Hplaceholder; cbn [negb].
    { exists timeline. split; [reflexivity|]. split; [|exact Hnodup].
      apply Hskip. unfold date_key_of. now rewrite Hsrc, Hsome, Hplaceholder. }
    cbn [slice_to obind].
    set (k := firstn 10 ts).
    assert (Hkeyed : forall key, keyed_as key hit = pystr_eqb k key).
    { intros key. unfold keyed_as, date_key_of. now rewrite Hsrc, Hsome, Hplaceholder. }
    pose proof (Hcounts k) as Hk. cbn beta in Hk.
    pose proof (hits_keyed_nonneg k done) as Hpos.
    assert (Hnew : forall timeline0,
        (forall key, key <> k -> dict_get timeline0 key = dict_get timeline key) ->
        counts (dict_set timeline0 k (PInt (hits_keyed k done + 1)))
               (fun key => hits_keyed key (done ++ [hit]))).
    { intros timeline0 Hsame key. rewrite hits_keyed_app, hits_keyed_one, Hkeyed.
      destruct (pystr_eqb_spec k key) as [<-|Hneq].
      - rewrite dict_get_set_same.
        destruct (Z.eqb_spec (hits_keyed k done + 1) 0); [lia|reflexivity].
      - rewrite dict_get_set_other by exact Hneq. rewrite Hsame by congruence.
        rewrite Z.add_0_r. apply Hcounts. }
    unfold dict_has. rewrite Hk.
    destruct (Z.eqb_spec (hits_keyed k done) 0) as [Hzero|Hnonzero].
    + cbn [subscript]. rewrite dict_get_set_same. cbn [obind py_add].
      exists (dict_set (dict_set timeline k (PInt 0)) k (PInt (0 + 1))). split; [reflexivity|].
      split; [|now repeat apply NoDup_keys_dict_set].
      replace (0 + 1)%Z with (hits_keyed k done + 1)%Z by lia.
      apply Hnew. intros key Hkey. apply dict_get_set_other. congruence.
    + cbn [subscript]. rewrite Hk.
      destruct (Z.eqb_spec (hits_keyed k done) 0) as [|_]; [contradiction|].
      cbn [obind py_add].
      exists (dict_set timeline k (PInt (hits_keyed k done + 1))). split; [reflexivity|].
      split; [|now apply NoDup_keys_dict_set].
      now apply Hnew.
Qed.

Lemma timeline_loop_counts hits :
  forall timeline done,
    Forall stamped_hit hits ->
    counts timeline (fun key => hits_keyed key done) ->
    NoDup (keys timeline) ->
    exists timeline',
      timeline_loop timeline hits = Ok timeline' /\
      counts timeline' (fun key => hits_keyed key (done ++ hits)) /\
      NoDup (keys timeline').
Proof.
  induction hits as [|hit rest IH]; intros timeline done Hstamped Hcounts Hnodup.
  - exists timeline. rewrite app_nil_r. auto.
  - inversion Hstamped as [|? ? Hhit Hrest]; subst.
    destruct (@timeline_step_counts timeline hit done Hhit Hcounts Hnodup)
      as (timeline1 & Hstep & Hcounts1 & Hnodup1).
    destruct (IH timeline1 (done ++ [hit]) Hrest Hcounts1 Hnodup1)
      as (timeline' & Hloop & Hcounts' & Hnodup').
    exists timeline'. cbn [timeline_loop]. rewrite Hstep. cbn [obind].
    rewrite <- app_assoc in Hcounts'. auto.
Qed.

Lemma create_timeline_counts hits :
  Forall stamped_hit hits ->
  exists timeline,
    _create_timeline (PList hits) = Ok (PDict timeline) /\
    NoDup (keys timeline) /\
    counts timeline (fun key => hits_keyed key hits).
Proof.
  intros Hstamped.
  destruct (@timeline_loop_counts hits [] [] Hstamped) as (timeline & Hloop & Hcounts & Hnodup).
  - intros key. reflexivity.
  - constructor.
  - exists timeline. unfold _create_timeline. cbn [py_iter obind]. rewrite Hloop.
    cbn [obind]. auto.
Qed.

(** Digits and the numbers they write. *)
Lemma is_digit_value c :
  is_digit c = true ->
  (0 <= digit_value c <= 9)%Z /\ (48 + Z.to_N (digit_value c))%N = c.
Proof.
  unfold is_digit, digit_value. intros H. apply andb_prop in H as [H1 H2].
  apply N.leb_le in H1, H2. lia.
Qed.

Lemma digit_at n q x :
  (0 <= x <= 9)%Z -> (n = 10 * q + x)%Z -> digit n = (48 + Z.to_N x)%N.
Proof.
  intros Hx Hn. unfold digit.
  now rewrite <- (Z.mod_unique_pos n 10 q x) by lia.
Qed.

Lemma pad2_number a b :
  is_digit a = true -> is_digit b = true -> pad2 (number [a; b]) = [a; b].
Proof.
  intros Ha Hb.
  destruct (is_digit_value a Ha) as [Ra Ea], (is_digit_value b Hb) as [Rb Eb].
  unfold pad2, number. cbn [number_from].
  set (x := digit_value a) in *. set (y := digit_value b) in *.
  rewrite <- (Z.div_unique_pos (10 * (10 * 0 + x) + y) 10 x y) by lia.
  rewrite (@digit_at x 0 x), (@digit_at (10 * (10 * 0 + x) + y) x y) by lia.
  now rewrite Ea, Eb.
Qed.

Lemma pad4_number a b c d :
  is_digit a = true -> is_digit b = true -> is_digit c = true -> is_digit d = true ->
  pad4 (number [a; b; c; d]) = [a; b; c; d].
Proof.
  intros Ha Hb Hc Hd.
  destruct (is_digit_value a Ha) as [Ra Ea], (is_digit_value b Hb) as [Rb Eb],
           (is_digit_value c Hc) as [Rc Ec], (is_digit_value d Hd) as [Rd Ed].
  unfold pad4, number. cbn [number_from].
  set (x := digit_value a) in *. set (y := digit_value b) in *.
  set (z := digit_value c) in *. set (t := digit_value d) in *.
  set (n := (10 * (10 * (10 * (10 * 0 + x) + y) + z) + t)%Z).
  rewrite <- (Z.div_unique_pos n 1000 x (100 * y + 10 * z + t)) by (subst n; lia).
  rewrite <- (Z.div_unique_pos n 100 (10 * x + y) (10 * z + t)) by (subst n; lia).
  rewrite <- (Z.div_unique_pos n 10 (100 * x + 10 * y + z) t) by (subst n; lia).
  rewrite (@digit_at x 0 x), (@digit_at (10 * x + y) x y),
    (@digit_at (100 * x + 10 * y + z) (10 * x + y) z),
    (@digit_at n (100 * x + 10 * y + z) t) by (subst n; lia).
  now rewrite Ea, Eb, Ec, Ed.
Qed.

(** A date that is read is written as it was read. *)
Lemma parse_date_text s d : parse_date s = Some d -> date_text d = s.
Proof.
  intros H.
  do 10 (destruct s as [|? s]; [discriminate H|]).
  destruct s as [|? s]; [|discriminate H].
  cbn [parse_date] in H.
  match type of H with (if ?cond then _ else _) = _ => destruct cond eqn:Hcond end;
    [|discriminate H].
  injection H as <-.
  rewrite !andb_true_iff in Hcond. cbn [forallb] in Hcond.
  rewrite !andb_true_iff in Hcond. decompose [and] Hcond. clear Hcond.
  repeat match goal with Heq : N.eqb _ _ = true |- _ => apply N.eqb_eq in Heq; subst end.
  unfold date_text. rewrite pad4_number, !pad2_number by assumption. reflexivity.
Qed.

(** The second of the day is one of the 86400 seconds of a day. *)
Lemma parse_time_range s second : parse_time s = Some second -> (0 <= second < 86400)%Z.
Proof.
  intros H.
  do 8 (destruct s as [|? s]; [discriminate H|]).
  destruct s as [|? s]; [|discriminate H].
  cbn [parse_time] in H.
  match type of H with (if ?cond then _ else _) = _ => destruct cond eqn:Hcond end;
    [|discriminate H].
  injection H as <-.
  rewrite !andb_true_iff in Hcond. cbn [forallb] in Hcond.
  rewrite !andb_true_iff in Hcond. decompose [and] Hcond. clear Hcond.
  repeat match goal with Hd : is_digit _ = true |- _ => apply is_digit_value in Hd as [Hd _] end.
  repeat match goal with Hle : (_ <=? _)%Z = true |- _ => apply Z.leb_le in Hle end.
  unfold number in *. cbn [number_from] in *. lia.
Qed.

(** The UTC calendar day of a timestamp written in UTC is its date: its
    first ten characters. *)
Lemma utc_day_written_in_utc ts :
  written_in_utc ts = true -> utc_day ts = Some (firstn 10 ts).
Proof.
  unfold written_in_utc, utc_day, parse_timestamp.
  destruct (parse_date (firstn 10 ts)) as [d|] eqn:Hdate; [|discriminate].
  destruct (skipn 10 ts) as [|t rest]; [discriminate|].
  destruct (N.eqb t 84); [|discriminate].
  destruct (parse_time (firstn 8 rest)) as [second|] eqn:Htime; [|discriminate].
  destruct (drop_fraction (skipn 8 rest)) as [zone|]; [|discriminate].
  destruct (parse_zone zone) as [offset|]; [|discriminate].
  intros Hzero. apply Z.eqb_eq in Hzero. subst offset.
  apply parse_time_range in Htime. apply parse_date_text in Hdate.
  unfold utc_date. rewrite Z.sub_0_r.
  destruct (Z.ltb_spec second 0); [lia|]. destruct (Z.leb_spec 86400 second); [lia|].
  now rewrite Hdate.
Qed.

(** For a timestamp written in UTC the key is the UTC calendar day. *)
Lemma dated_hit_stamped hit : dated_hit hit -> stamped_hit hit.
Proof.
  intros (source & Hsrc & [Hnone | (ts & Hsome & _)]); exists source; split; eauto.
Qed.

Lemma dated_hit_key hit : dated_hit hit -> date_key_of hit = hit_day hit.
Proof.
  intros (source & Hsrc & Hts). unfold date_key_of, hit_day. rewrite Hsrc.
  destruct Hts as [-> | (ts & -> & Hutc)]; [reflexivity|].
  rewrite (utc_day_written_in_utc ts Hutc).
  assert (Hneq : pystr_eqb ts (lit "Unknown") = false)
    by (apply pystr_eqb_neq; intros ->; vm_compute in Hutc; discriminate).
  now rewrite Hneq.
Qed.

Lemma hits_keyed_on day hits :
  Forall dated_hit hits -> hits_keyed day hits = hits_on day hits.
Proof.
  intros Hdated. unfold hits_keyed, hits_on. do 2 f_equal.
  induction Hdated as [|hit rest Hhit _ IH]; [reflexivity|].
  assert (Hsame : keyed_as day hit = falls_on day hit)
    by (unfold keyed_as, falls_on; now rewrite (dated_hit_key Hhit)).
  cbn [filter]. now rewrite Hsame, IH.
Qed.

End Timeline.

Section TimelineProperties.

Local Open Scope string_scope.
Local Open Scope list_scope.

Lemma catalog_entry_has_query technique_id technique :
  dict_get attack_patterns technique_id = Some technique ->
  exists query, subscript technique (lit "query") = Ok query.
Proof.
  unfold attack_patterns, item. cbn [dict_get]. intros H.
  repeat (destruct (pystr_eqb _ technique_id) in H;
          [injection H as <-; eexists; reflexivity|]).
  discriminate.
Qed.

(** C8, as amended. The timeline built from hits whose timestamps are
    written in UTC (the zone is [Z] or an offset of zero) gives each UTC
    calendar day the number of hits that fall on it, has one entry per day
    and none for a day without hits; hits without a timestamp are not
    counted. Whatever the timestamps say, as long as they are strings, the
    timeline counts the hits under the first ten characters of their
    timestamp: the date as the timestamp writes it, in its own zone. Two
    hits at [2024-01-01T10:00:00Z] and one at [2024-01-02T09:00:00Z] give
    [{"2024-01-01": 2, "2024-01-02": 1}]. The timeline of the report of a
    technique hunt is the one built from the hits of the search result. *)
Theorem create_timeline_counts_days :
  (forall hits : list pyval,
      Forall dated_hit hits ->
      exists timeline,
        _create_timeline (PList hits) = Ok (PDict timeline) /\
        NoDup (keys timeline) /\
        counts timeline (fun day => hits_on day hits)) /\
  (forall hits : list pyval,
      Forall stamped_hit hits ->
      exists timeline,
        _create_timeline (PList hits) = Ok (PDict timeline) /\
        NoDup (keys timeline) /\
        counts timeline (fun key => hits_keyed key hits)) /\
  _create_timeline
    (PList [ hit_at (lit "2024-01-01T10:00:00Z"); hit_at (lit "2024-01-01T10:00:00Z");
             hit_at (lit "2024-01-02T09:00:00Z") ]) =
    Ok (PDict [ item (lit "2024-01-01") (PInt 2); item (lit "2024-01-02") (PInt 1) ]) /\
  (forall (E : World) (c : es_client) (technique_id time_range : pystr) (w w' : state E)
          (technique query result hits timeline : pyval),
      dict_get attack_patterns technique_id = Some technique ->
      subscript technique (lit "query") = Ok query ->
      es_search E (lit "*")
        (mitre_search_body query (hunt_start_time (fst (utcnow E w)) time_range))
        (snd (utcnow E w)) = (Ok result, w') ->
      hits_of result = Ok hits ->
      _create_timeline hits = Ok timeline ->
      hunt_mitre_attack E (Some c) technique_id time_range w =
        (Ok (PDict [ item (lit "technique") technique;
                     item (lit "results") result;
                     item (lit "timeline") timeline ]), w')).
Proof.
  split; [|split; [|split]].
  - intros hits Hdated.
    assert (Hstamped : Forall stamped_hit hits)
      by (eapply Forall_impl; [apply dated_hit_stamped | exact Hdated]).
    destruct (create_timeline_counts Hstamped) as (timeline & Hrun & Hnodup & Hcounts).
    exists timeline. split; [exact Hrun|]. split; [exact Hnodup|].
    intros day. rewrite <- (hits_keyed_on day Hdated). apply Hcounts.
  - apply create_timeline_counts.
  - vm_compute. reflexivity.
  - intros E c technique_id time_range w w' technique query result hits timeline
           Hentry Hquery Hsearch Hhits Htimeline.
    unfold hunt_mitre_attack. rewrite Hentry.
    unfold try_except, bind, now_, lift, search, ret.
    destruct (utcnow E w) as [now w1]. cbn [fst snd] in Hsearch.
    rewrite Hquery, Hsearch. fold (hits_of result). now rewrite Hhits, Htimeline.
Qed.

Lemma create_timeline_counts_days_witness :
  (exists timeline,
      _create_timeline
        (PList [ hit_at (lit "2024-03-09T23:59:59.120Z"); PDict [ item (lit "_source") (PDict []) ];
                 hit_at (lit "2024-03-10T00:00:00Z"); hit_at (lit "2024-03-09T00:00:01Z") ])
        = Ok (PDict timeline) /\
      dict_get timeline (lit "2024-03-09") = Some (PInt 2) /\
      dict_get timeline (lit "2024-03-10") = Some (PInt 1) /\
      dict_get timeline (lit "2024-03-11") = None) /\
  hunt_mitre_attack sample_world (Some Elasticsearch) (lit "T1110") (lit "7d") 0 =
    (Ok (PDict [ item (lit "technique")
                   (technique (lit "Brute Force")
                      (lit "event.category:authentication AND event.outcome:failure")
                      (lit "Multiple failed authentication attempts"));
                 item (lit "results") sample_result;
                 item (lit "timeline") (PDict [ item (lit "2024-01-01") (PInt 1) ]) ]), 1).
Proof.
  destruct create_timeline_counts_days as (Hcounts & _ & _ & Hreport).
  split.
  - destruct (Hcounts [ hit_at (lit "2024-03-09T23:59:59.120Z");
                        PDict [ item (lit "_source") (PDict []) ];
                        hit_at (lit "2024-03-10T00:00:00Z");
                        hit_at (lit "2024-03-09T00:00:01Z") ])
      as (timeline & Hrun & _ & Hday).
    + repeat constructor.
      * eexists; split; [reflexivity|]. right. eexists; split; reflexivity.
      * eexists; split; [reflexivity|]. left. reflexivity.
      * eexists; split; [reflexivity|]. right. eexists; split; reflexivity.
      * eexists; split; [reflexivity|]. right. eexists; split; reflexivity.
    + exists timeline. split; [exact Hrun|].
      split; [exact (Hday (lit "2024-03-09"))|].
      split; [exact (Hday (lit "2024-03-10")) | exact (Hday (lit "2024-03-11"))].
  - eapply (Hreport sample_world Elasticsearch (lit "T1110") (lit "7d") 0%nat 1%nat
             _ (PStr (lit "event.category:authentication AND event.outcome:failure"))
             sample_result);
      reflexivity.
Defined.

(** C8, as the specification words it, fails for a timestamp that is not
    written in UTC: the instant [2024-01-01T23:30:00-05:00] is 04:30 on
    2 January in UTC, so the hit falls on the UTC day [2024-01-02] and
    none falls on [2024-01-01]; yet the timeline counts the hit under
    [2024-01-01] and has no entry for [2024-01-02]. *)
Lemma create_timeline_local_date :
  stamped_hit (hit_at (lit "2024-01-01T23:30:00-05:00")) /\
  hit_day (hit_at (lit "2024-01-01T23:30:00-05:00")) = Some (lit "2024-01-02") /\
  hits_on (lit "2024-01-02") [ hit_at (lit "2024-01-01T23:30:00-05:00") ] = 1%Z /\
  hits_on (lit "2024-01-01") [ hit_at (lit "2024-01-01T23:30:00-05:00") ] = 0%Z /\
  _create_timeline (PList [ hit_at (lit "2024-01-01T23:30:00-05:00") ]) =
    Ok (PDict [ item (lit "2024-01-01") (PInt 1) ]) /\
  dict_get [ item (lit "2024-01-01") (PInt 1) ] (lit "2024-01-02") = None.
Proof.
  split.
  - eexists. split; [reflexivity|]. right. eexists. reflexivity.
  - repeat split; vm_compute; reflexivity.
Qed.

End TimelineProperties.

(* ===================================================================== *)
(** * The prompt of the log analysis *)
(* ===================================================================== *)

Section Prompt.

Variable E : World.

Local Open Scope string_scope.
Local Open Scope list_scope.




End Prompt.

Section PromptProperties.

Local Open Scope string_scope.
Local Open Scope list_scope.




End PromptProperties.

(* ===================================================================== *)
(** * What each kind of indicator looks like *)
(* ===================================================================== *)

Section Shapes.

Local Open Scope string_scope.
Local Open Scope list_scope.

Lemma accepts_char_lang c r :
  accepts_char c r = false -> forall s, lang r s -> ~ In c s.
Proof.
  intros Hacc s Hlang. induction Hlang; simpl in Hacc.
  - intros [].
  - intros [<-|[]]. congruence.
  - apply orb_false_iff in Hacc as [H1 H2]. intros Hin.
    apply in_app_or in Hin as [Hin|Hin]; [now apply IHHlang1 | now apply IHHlang2].
  - apply orb_false_iff in Hacc as [H1 _]. auto.
  - apply orb_false_iff in Hacc as [_ H2]. auto.
  - intros [].
  - intros Hin. apply in_app_or in Hin as [Hin|Hin]; [now apply IHHlang1 | now apply IHHlang2].
Qed.

Lemma app_nl_inj (p q : pystr) : p ++ nl = q ++ nl -> p = q.
Proof. apply app_inv_tail. Qed.

Lemma not_ends_with_nl (s p : pystr) : ~ In 10%N s -> s <> p ++ nl.
Proof. intros Hs ->. apply Hs, in_or_app. right. now left. Qed.

(** A pattern without the line feed matches [s] followed by a line feed
    exactly when it matches [s]. *)
Lemma re_match_anchored_newline r s :
  accepts_char 10 r = false -> ~ In 10%N s ->
  re_match_anchored r (s ++ nl) = re_match_anchored r s.
Proof.
  intros Hacc Hs. apply eq_true_iff_eq. rewrite !re_match_anchored_iff. split.
  - intros [H | (p & Heq & H)].
    + exfalso. apply (@accepts_char_lang _ _ Hacc _ H), in_or_app. right. now left.
    + apply app_nl_inj in Heq as <-. now left.
  - intros [H | (p & Heq & _)].
    + right. exists s. auto.
    + destruct (not_ends_with_nl p Hs Heq).
Qed.

(** A pattern without the line feed does not match a string that has one
    before its last character. *)
Lemma re_match_anchored_inner_newline r s t c :
  accepts_char 10 r = false -> re_match_anchored r (s ++ nl ++ c :: t) = false.
Proof.
  intros Hacc. apply not_true_is_false. intros H.
  apply re_match_anchored_iff in H as [H | (p & Heq & H)].
  - apply (@accepts_char_lang _ _ Hacc _ H), in_or_app. right. now left.
  - apply (@accepts_char_lang _ _ Hacc _ H).
    assert (Hin : In 10%N (removelast (s ++ nl ++ c :: t))).
    { rewrite removelast_app by discriminate. apply in_or_app. right. now left. }
    rewrite Heq, removelast_last in Hin. exact Hin.
Qed.

Lemma patterns_without_newline :
  forallb (fun p => negb (accepts_char 10 (snd p))) ioc_patterns = true.
Proof. vm_compute. reflexivity. Qed.

Lemma first_match_newline patterns s :
  forallb (fun p => negb (accepts_char 10 (snd p))) patterns = true ->
  ~ In 10%N s ->
  first_match patterns (s ++ nl) = first_match patterns s.
Proof.
  intros Hall Hs. induction patterns as [|[k r] rest IH]; [reflexivity|].
  cbn [forallb snd] in Hall. apply andb_true_iff in Hall as [Hr Hrest].
  apply negb_true_iff in Hr. cbn [first_match].
  rewrite (@re_match_anchored_newline r s Hr Hs), (IH Hrest). reflexivity.
Qed.

Lemma first_match_inner_newline patterns s t c :
  forallb (fun p => negb (accepts_char 10 (snd p))) patterns = true ->
  first_match patterns (s ++ nl ++ c :: t) = unknown.
Proof.
  intros Hall. induction patterns as [|[k r] rest IH]; [reflexivity|].
  cbn [forallb snd] in Hall. apply andb_true_iff in Hall as [Hr Hrest].
  apply negb_true_iff in Hr. cbn [first_match].
  now rewrite (@re_match_anchored_inner_newline r s t c Hr), (IH Hrest).
Qed.

End Shapes.

Section ShapeInversion.

Local Open Scope string_scope.
Local Open Scope list_scope.

Lemma class_inv_bool l s :
  lang (Class l) s -> exists c, s = [c] /\ in_ranges c l = true.
Proof.
  intros H. apply lang_cls_inv in H as (c & -> & H). exists c. split; auto.
Qed.

Lemma lit_inv s w : lang (Lit s) w -> w = s.
Proof.
  revert w; induction s as [|c s IH]; intros w H; simpl in H.
  - now apply lang_eps_inv.
  - apply lang_cat_inv in H as (s1 & s2 & -> & H1 & H2).
    apply class_inv in H1 as (x & -> & Hx). apply IH in H2 as ->.
    inversion Hx as [? ? Hc|? ? Hc]; subst; [|inversion Hc].
    simpl in Hc. simpl. f_equal. lia.
Qed.

Lemma opt_inv r s : lang (Opt r) s -> lang r s \/ s = [].
Proof.
  intros H. apply lang_alt_inv in H as [H|H]; [now left|].
  right. now apply lang_eps_inv.
Qed.

Lemma star_class_inv cs s :
  lang (Star (Cls cs)) s -> Forall (fun c => cset_mem cs c = true) s.
Proof.
  intros H. remember (Star (Cls cs)) as r eqn:Hr.
  induction H; try discriminate.
  - constructor.
  - injection Hr as ->. apply Forall_app. split; [|now apply IHlang2].
    apply lang_cls_inv in H as (c & -> & Hc). now repeat constructor.
Qed.

Lemma N_between_eq k c : N.leb k c && N.leb c k = N.eqb c k.
Proof.
  destruct (N.eqb_spec c k) as [->|Hneq].
  - now rewrite N.leb_refl.
  - destruct (N.leb_spec k c), (N.leb_spec c k); try reflexivity. lia.
Qed.

(** Splits the boolean test of a class into the bounds of its ranges. *)
Ltac class_bounds H :=
  unfold in_ranges in H; cbn in H;
  repeat match type of H with
  | _ || _ = true => apply orb_true_iff in H as [H|H]
  end;
  try discriminate; bounds.

Ltac octet_solve :=
  unfold is_octet, is_digit;
  cbn [List.length Nat.leb forallb decimal_value andb];
  repeat (apply andb_true_iff; split);
  try apply N.leb_le; try reflexivity; lia.

Lemma octet_inv o : lang octet o -> is_octet o = true.
Proof.
  unfold octet. intros H.
  apply lang_alt_inv in H as [H|H]; [|apply lang_alt_inv in H as [H|H]]; unfold Seq in H.
  - apply lang_cat_inv in H as (s1 & s2 & -> & H1 & H2).
    apply lit_inv in H1 as ->. apply class_inv_bool in H2 as (c & -> & Hc).
    class_bounds Hc. cbn [app lit list_ascii_of_string map N_of_ascii]. cbn. octet_solve.
  - apply lang_cat_inv in H as (s1 & s2 & -> & H1 & H).
    apply lang_cat_inv in H as (s3 & s4 & -> & H2 & H3).
    apply char_inv in H1 as ->.
    apply class_inv_bool in H2 as (b & -> & Hb). apply class_inv_bool in H3 as (c & -> & Hc).
    class_bounds Hb. class_bounds Hc. cbn. octet_solve.
  - apply lang_cat_inv in H as (s1 & s2 & -> & H1 & H).
    apply lang_cat_inv in H as (s3 & s4 & -> & H2 & H3).
    apply class_inv_bool in H2 as (b & -> & Hb). class_bounds Hb.
    apply opt_inv in H1 as [H1 | ->]; apply opt_inv in H3 as [H3 | ->].
    + apply class_inv_bool in H1 as (a & -> & Ha). apply class_inv_bool in H3 as (c & -> & Hc).
      class_bounds Ha; class_bounds Hc; cbn; octet_solve.
    + apply class_inv_bool in H1 as (a & -> & Ha).
      class_bounds Ha; cbn; octet_solve.
    + apply class_inv_bool in H3 as (c & -> & Hc). class_bounds Hc. cbn. octet_solve.
    + cbn. octet_solve.
Qed.

Lemma ip_pattern_inv p : lang ip_pattern p -> quad_shape p.
Proof.
  unfold ip_pattern. simpl Rep. intros H.
  apply lang_cat_inv in H as (s & d & -> & H & Hd).
  apply lang_cat_inv in H as (sa & s' & -> & Ha & H).
  apply lang_cat_inv in H as (sb & s'' & -> & Hb & H).
  apply lang_cat_inv in H as (sc & s''' & -> & Hc & H).
  apply lang_eps_inv in H as ->.
  apply lang_cat_inv in Ha as (a & da & -> & Ha & Hda). apply char_inv in Hda as ->.
  apply lang_cat_inv in Hb as (b & db & -> & Hb & Hdb). apply char_inv in Hdb as ->.
  apply lang_cat_inv in Hc as (c & dc & -> & Hc & Hdc). apply char_inv in Hdc as ->.
  exists a, b, c, d. repeat (split; [now apply octet_inv|]).
  unfold dotted_quad. rewrite app_nil_r, <- !app_assoc. reflexivity.
Qed.

Lemma octet_no_newline o : is_octet o = true -> ~ In 10%N o.
Proof.
  unfold is_octet. intros H Hin.
  apply andb_true_iff in H as [H _]. apply andb_true_iff in H as [_ H].
  rewrite forallb_forall in H. apply H in Hin. discriminate.
Qed.

Lemma quad_no_newline s : quad_shape s -> ~ In 10%N s.
Proof.
  intros (a & b & c & d & Ha & Hb & Hc & Hd & ->) Hin. unfold dotted_quad in Hin.
  repeat (apply in_app_or in Hin as [Hin|Hin];
          [first [ now apply (octet_no_newline _ Ha) | now apply (octet_no_newline _ Hb)
                 | now apply (octet_no_newline _ Hc) | destruct Hin as [Hin|[]]; discriminate ]|]).
  now apply (octet_no_newline _ Hd).
Qed.

Lemma hex_class_inv c :
  cset_mem {| negated := false;
              members := [range "a" "f"; range "A" "F"; range "0" "9"] |} c = true ->
  is_hex_digit c = true.
Proof.
  unfold cset_mem; cbn [negated members]. rewrite xorb_false_l. intros H.
  unfold is_hex_digit, is_digit. class_bounds H;
    repeat (apply orb_true_iff; first [ left; apply andb_true_iff; split; apply N.leb_le; lia
                                      | right; apply andb_true_iff; split; apply N.leb_le; lia
                                      | left ]).
Qed.

Lemma hex_rep_inv n p : lang (Rep n hex) p -> hex_shape n p.
Proof.
  intros H. apply rep_class_inv in H as [Hlen Hall]. split; [|exact Hlen].
  eapply Forall_impl; [|exact Hall]. apply hex_class_inv.
Qed.

Lemma hex_no_newline n s : hex_shape n s -> ~ In 10%N s.
Proof.
  intros [Hall _] Hin. unfold all_hex in Hall. rewrite Forall_forall in Hall.
  apply Hall in Hin. discriminate.
Qed.

End ShapeInversion.

Section ShapeProperties.

Local Open Scope string_scope.
Local Open Scope list_scope.

(** X1. [_detect_ioc_type] answers [ip] exactly on the dotted quads of
    four octets (one to three digits, value at most 255), possibly followed
    by one line feed: nothing else is ever classified as an IP address. *)
Theorem detect_ip_exactly :
  forall s : pystr,
    _detect_ioc_type s = ip <-> with_optional_newline quad_shape s.
Proof.
  intros s. split.
  - intros H. unfold _detect_ioc_type, ioc_patterns in H. cbn [first_match] in H.
    destruct (re_match_anchored ip_pattern s) eqn:Hip.
    + apply re_match_anchored_iff in Hip as [Hip | (p & -> & Hip)].
      * left. now apply ip_pattern_inv.
      * right. exists p. split; [now apply ip_pattern_inv | reflexivity].
    + repeat (destruct (re_match_anchored _ s) in H; [discriminate|]). discriminate.
  - assert (Hquad : forall p, quad_shape p -> _detect_ioc_type p = ip).
    { intros p (a & b & c & d & Ha & Hb & Hc & Hd & ->).
      apply detect_ip, ip_pattern_intro; now apply octet_intro. }
    intros [H | (p & H & ->)]; [now apply Hquad|].
    unfold _detect_ioc_type.
    rewrite (@first_match_newline ioc_patterns p patterns_without_newline (quad_no_newline H)).
    now apply Hquad.
Qed.

(** X2. [_detect_ioc_type] answers [md5], [sha1] or [sha256] exactly on
    the strings of 32, 40 or 64 hexadecimal digits, possibly followed by
    one line feed. *)
Theorem detect_hash_exactly :
  forall s : pystr,
    (_detect_ioc_type s = md5 <-> with_optional_newline (hex_shape 32) s) /\
    (_detect_ioc_type s = sha1 <-> with_optional_newline (hex_shape 40) s) /\
    (_detect_ioc_type s = sha256 <-> with_optional_newline (hex_shape 64) s).
Proof.
  intros s.
  assert (Hback : forall n k,
      (forall p, hex_shape n p -> _detect_ioc_type p = k) ->
      with_optional_newline (hex_shape n) s -> _detect_ioc_type s = k).
  { intros n k Hk [H | (p & H & ->)]; [now apply Hk|].
    unfold _detect_ioc_type.
    rewrite (@first_match_newline ioc_patterns p patterns_without_newline (hex_no_newline H)).
    now apply Hk. }
  assert (Hshape : forall n, re_match_anchored (Rep n hex) s = true ->
                             with_optional_newline (hex_shape n) s).
  { intros n H. apply re_match_anchored_iff in H as [H | (p & -> & H)].
    - left. now apply hex_rep_inv.
    - right. exists p. split; [now apply hex_rep_inv | reflexivity]. }
  split; [|split]; (split; [|apply Hback; intros p [Hall Hlen]; now rewrite (detect_hex Hall Hlen)]).
  - intros H. unfold _detect_ioc_type, ioc_patterns in H. cbn [first_match] in H.
    do 2 (destruct (re_match_anchored _ s) in H; [discriminate|]).
    destruct (re_match_anchored md5_pattern s) eqn:Hm; [now apply Hshape|].
    repeat (destruct (re_match_anchored _ s) in H; [discriminate|]). discriminate.
  - intros H. unfold _detect_ioc_type, ioc_patterns in H. cbn [first_match] in H.
    do 3 (destruct (re_match_anchored _ s) in H; [discriminate|]).
    destruct (re_match_anchored sha1_pattern s) eqn:Hm; [now apply Hshape|].
    repeat (destruct (re_match_anchored _ s) in H; [discriminate|]). discriminate.
  - intros H. unfold _detect_ioc_type, ioc_patterns in H. cbn [first_match] in H.
    do 4 (destruct (re_match_anchored _ s) in H; [discriminate|]).
    destruct (re_match_anchored sha256_pattern s) eqn:Hm; [now apply Hshape|].
    repeat (destruct (re_match_anchored _ s) in H; [discriminate|]). discriminate.
Qed.

(** X3. One line feed at the end of an indicator is not seen by the
    classifier: an indicator without line feed and the same indicator
    followed by one are of the same kind. A line feed anywhere before the
    last character makes the indicator [unknown]. *)
Theorem detect_line_feed :
  (forall s : pystr, forallb (fun c => negb (N.eqb c 10)) s = true ->
      _detect_ioc_type (s ++ nl) = _detect_ioc_type s) /\
  (forall (s t : pystr) (c : N), _detect_ioc_type (s ++ nl ++ c :: t) = unknown).
Proof.
  split.
  - intros s Hs. apply first_match_newline; [apply patterns_without_newline|].
    intros Hin. rewrite forallb_forall in Hs. apply Hs in Hin. discriminate.
  - intros s t c. apply first_match_inner_newline, patterns_without_newline.
Qed.

Lemma detect_line_feed_witness :
  _detect_ioc_type (lit "evil.example.com" ++ nl) = _detect_ioc_type (lit "evil.example.com").
Proof.
  destruct detect_line_feed as [Hend _]. apply Hend. reflexivity.
Defined.

End ShapeProperties.

Section UrlShape.

Local Open Scope string_scope.
Local Open Scope list_scope.

Lemma url_head_class c :
  in_ranges c (whitespace ++ [one "/"; one "$"; one "."; one "?"; one "#"]) =
  is_space c || url_head_excluded c.
Proof.
  rewrite in_ranges_app. fold (is_space c). f_equal.
  unfold in_ranges, url_head_excluded. cbn [existsb one fst snd].
  change (chr "/") with 47%N. change (chr "$") with 36%N. change (chr ".") with 46%N.
  change (chr "?") with 63%N. change (chr "#") with 35%N.
  rewrite !N_between_eq, orb_false_r, !orb_assoc. reflexivity.
Qed.

Lemma dot_class d : in_ranges d [(10, 10)%N] = N.eqb d 10.
Proof. unfold in_ranges. cbn [existsb fst snd]. now rewrite N_between_eq, orb_false_r. Qed.

Lemma not_space_inv c :
  cset_mem {| negated := true; members := whitespace |} c = true -> is_space c = false.
Proof.
  unfold cset_mem, is_space; cbn [negated members].
  destruct (in_ranges c whitespace); [discriminate | reflexivity].
Qed.

Lemma url_tail_inv w :
  lang (Seq [ NotClass (whitespace ++ [one "/"; one "$"; one "."; one "?"; one "#"]);
              Dot; Star (NotClass whitespace) ]) w ->
  exists c d rest,
    is_space c = false /\ url_head_excluded c = false /\ N.eqb d 10 = false /\
    no_whitespace rest = true /\ w = c :: d :: rest.
Proof.
  unfold Seq. intros H.
  apply lang_cat_inv in H as (s1 & s2 & -> & Hc & H).
  apply lang_cat_inv in H as (s3 & rest & -> & Hd & Hrest).
  apply lang_cls_inv in Hc as (c & -> & Hc). apply lang_cls_inv in Hd as (d & -> & Hd).
  unfold cset_mem in Hc, Hd. cbn [negated members] in Hc, Hd.
  rewrite url_head_class in Hc. rewrite dot_class in Hd.
  apply negb_true_iff in Hd. change (xorb true ?b) with (negb b) in Hc.
  apply negb_true_iff, orb_false_iff in Hc as [Hc1 Hc2].
  exists c, d, rest. repeat (split; [assumption|]). split; [|reflexivity].
  apply star_class_inv in Hrest. unfold no_whitespace. apply forallb_forall.
  rewrite Forall_forall in Hrest. intros x Hx. apply Hrest, not_space_inv in Hx.
  now rewrite Hx.
Qed.

Lemma url_tail_intro c d rest :
  is_space c = false -> url_head_excluded c = false -> N.eqb d 10 = false ->
  no_whitespace rest = true ->
  lang (Seq [ NotClass (whitespace ++ [one "/"; one "$"; one "."; one "?"; one "#"]);
              Dot; Star (NotClass whitespace) ]) (c :: d :: rest).
Proof.
  intros Hc Hex Hd Hrest.
  change (c :: d :: rest) with ([c] ++ ([d] ++ rest)). unfold Seq.
  constructor; [|constructor].
  - apply notclass_intro. now rewrite url_head_class, Hc, Hex.
  - apply notclass_intro. now rewrite dot_class.
  - apply star_class_intro. unfold no_whitespace in Hrest. rewrite forallb_forall in Hrest.
    apply Forall_forall. intros x Hx. apply not_space_class.
    apply Hrest in Hx. now destruct (is_space x).
Qed.

Lemma url_pattern_iff p : lang url_pattern p <-> url_form p.
Proof.
  unfold url_pattern. cbn [Seq]. split.
  - intros H.
    apply lang_cat_inv in H as (s1 & s2 & -> & H1 & H).
    apply lang_cat_inv in H as (s3 & s4 & -> & H2 & H).
    apply lang_cat_inv in H as (s5 & s6 & -> & H3 & H).
    apply lit_inv in H1 as ->. apply lit_inv in H3 as ->.
    apply url_tail_inv in H as (c & d & rest & Hc & Hex & Hd & Hrest & ->).
    apply opt_inv in H2 as [H2 | ->].
    + apply char_inv in H2 as ->. exists (lit "https://"), c, d, rest.
      split; [now right|]. repeat (split; [assumption|]). reflexivity.
    + exists (lit "http://"), c, d, rest.
      split; [now left|]. repeat (split; [assumption|]). reflexivity.
  - intros (scheme & c & d & rest & Hscheme & Hc & Hex & Hd & Hrest & ->).
    pose proof (@url_tail_intro c d rest Hc Hex Hd Hrest) as Htail.
    destruct Hscheme as [-> | ->].
    + change (lit "http://" ++ c :: d :: rest)
        with (lit "http" ++ ([] ++ (lit "://" ++ c :: d :: rest))).
      constructor; [apply lit_intro|].
      constructor; [apply opt_none|]. constructor; [apply lit_intro | exact Htail].
    + change (lit "https://" ++ c :: d :: rest)
        with (lit "http" ++ ([chr "s"] ++ (lit "://" ++ c :: d :: rest))).
      constructor; [apply lit_intro|].
      constructor; [apply opt_some, char_intro|]. constructor; [apply lit_intro | exact Htail].
Qed.

Lemma url_form_colon p : url_form p -> In 58%N p.
Proof.
  intros (scheme & c & d & rest & Hscheme & _ & _ & _ & _ & ->).
  apply in_or_app. left. destruct Hscheme as [-> | ->]; simpl; tauto.
Qed.

Lemma url_form_no_newline p : url_form p -> ~ In 10%N p.
Proof.
  intros (scheme & c & d & rest & Hscheme & Hc & _ & Hd & Hrest & ->) Hin.
  apply in_app_or in Hin as [Hin|Hin].
  - destruct Hscheme as [-> | ->]; simpl in Hin;
      repeat (destruct Hin as [Hin|Hin]; [discriminate|]); exact Hin.
  - destruct Hin as [Heq|[Heq|Hin]]; [subst c; discriminate | subst d; discriminate |].
    unfold no_whitespace in Hrest. rewrite forallb_forall in Hrest.
    apply Hrest in Hin. discriminate.
Qed.

(** None of the patterns tried before the URL pattern admits a colon. *)
Lemma colon_misses_earlier s :
  In 58%N s -> matches_before_url s = false.
Proof.
  intros Hin. unfold matches_before_url.
  assert (Hall : forallb (fun p => negb (accepts_char 58 (snd p))) before_url = true)
    by (vm_compute; reflexivity).
  induction before_url as [|[k r] rest IH]; [reflexivity|].
  cbn [forallb snd] in Hall. apply andb_true_iff in Hall as [Hr Hrest].
  apply negb_true_iff in Hr. cbn [existsb snd]. rewrite (IH Hrest), orb_false_r.
  apply not_true_is_false. intros H.
  apply re_match_anchored_iff in H as [H | (p & -> & H)].
  - exact (@accepts_char_lang _ _ Hr _ H Hin).
  - apply (@accepts_char_lang _ _ Hr _ H).
    apply in_app_or in Hin as [Hin|[Hin|[]]]; [exact Hin | discriminate].
Qed.

Lemma detect_url_iff_match s :
  _detect_ioc_type s = url <->
  matches_before_url s = false /\ re_match_anchored url_pattern s = true.
Proof.
  unfold _detect_ioc_type, ioc_patterns, matches_before_url, before_url.
  cbn [first_match existsb snd].
  do 6 (destruct (re_match_anchored _ s); cbn [orb];
        [split; [discriminate | intros [? ?]; discriminate]|]).
  destruct (re_match_anchored url_pattern s).
  - split; auto.
  - split; [discriminate | intros [? ?]; discriminate].
Qed.

End UrlShape.

Section UrlProperties.

Local Open Scope string_scope.
Local Open Scope list_scope.

(** X4. [_detect_ioc_type] answers [url] exactly on the strings made of
    [http://] or [https://], a character that is neither whitespace nor
    one of [/ $ . ? #], any one character but the line feed (a space is
    accepted there), then characters that are not whitespace, possibly
    followed by one line feed. No such string is taken by an earlier
    pattern: none of them admits the colon of the scheme. *)
Theorem detect_url_exactly :
  forall s : pystr,
    (_detect_ioc_type s = url <-> with_optional_newline url_form s) /\
    (with_optional_newline url_form s -> matches_before_url s = false).
Proof.
  intros s.
  assert (Hform : forall p, url_form p -> _detect_ioc_type p = url).
  { intros p Hp. apply detect_url_iff_match. split.
    - now apply colon_misses_earlier, url_form_colon.
    - now apply re_match_anchored_lang, url_pattern_iff. }
  split; [split|].
  - intros H. apply detect_url_iff_match in H as [_ H].
    apply re_match_anchored_iff in H as [H | (p & -> & H)].
    + left. now apply url_pattern_iff.
    + right. exists p. split; [now apply url_pattern_iff | reflexivity].
  - intros [H | (p & H & ->)]; [now apply Hform|].
    unfold _detect_ioc_type.
    rewrite (@first_match_newline ioc_patterns p patterns_without_newline
               (url_form_no_newline H)).
    now apply Hform.
  - intros [H | (p & H & ->)]; apply colon_misses_earlier.
    + now apply url_form_colon.
    + apply in_or_app. left. now apply url_form_colon.
Qed.

Lemma detect_url_exactly_witness :
  _detect_ioc_type (lit "http://a b") = url /\
  matches_before_url (lit "http://a b") = false.
Proof.
  assert (Hform : with_optional_newline url_form (lit "http://a b")).
  { left. exists (lit "http://"), (chr "a"), (chr " "), (lit "b").
    repeat split; try reflexivity. now left. }
  destruct (detect_url_exactly (lit "http://a b")) as [[_ Hurl] Hbefore].
  split; [exact (Hurl Hform) | exact (Hbefore Hform)].
Defined.

Lemma detect_ip_exactly_witness :
  with_optional_newline quad_shape (lit "10.0.0.255" ++ nl).
Proof.
  apply (proj1 (detect_ip_exactly (lit "10.0.0.255" ++ nl))). vm_compute. reflexivity.
Defined.

Lemma detect_hash_exactly_witness :
  with_optional_newline (hex_shape 32) (lit "5d41402abc4b2a76b9719d911017c592").
Proof.
  apply (proj1 (proj1 (detect_hash_exactly (lit "5d41402abc4b2a76b9719d911017c592")))).
  vm_compute. reflexivity.
Defined.

End UrlProperties.

(* ===================================================================== *)
(** * More on the IOC hunt *)
(* ===================================================================== *)

Section IocHuntRequests.

Variable E : World.
Variable c : es_client.
Variable time_range : pystr.

Local Open Scope string_scope.
Local Open Scope list_scope.

Lemma existsb_keys (d : dict) (k : pystr) :
  existsb (pystr_eqb k) (keys d) = dict_has d k.
Proof.
  apply eq_true_iff_eq. rewrite dict_has_In, existsb_exists. split.
  - intros (x & Hin & Heq). destruct (pystr_eqb_spec k x); [now subst | discriminate].
  - intros Hin. exists k. split; [exact Hin | apply pystr_eqb_refl].
Qed.

(** The keys of the report: those it had, then the new indicators, each
    at its first occurrence. *)
Lemma hunt_iocs_loop_first_occurrences iocs :
  forall results w report w',
    hunt_iocs_loop E (Some c) time_range iocs results w = (Ok report, w') ->
    keys report = keys results ++ first_occurrences (keys results) iocs.
Proof.
  induction iocs as [|ioc rest IH]; intros results w report w' Hrun.
  - injection Hrun as <- _. now rewrite app_nil_r.
  - rewrite hunt_iocs_loop_cons in Hrun. apply IH in Hrun. rewrite Hrun.
    cbn [first_occurrences]. rewrite existsb_keys, keys_dict_set.
    destruct (dict_has results ioc); [reflexivity|].
    now rewrite <- app_assoc.
Qed.

(** In the recording world one turn of the loop adds one request: the
    body of its indicator, sent to every index. *)
Lemma ioc_entry_records ioc s :
  snd (snd (ioc_entry (recording E) (Some c) time_range ioc s)) =
  snd s ++ [(lit "*", ioc_request ioc time_range (fst (utcnow E (fst s))))].
Proof.
  unfold ioc_entry, ioc_attempt, bind, now_, search, lift, ret, ioc_request.
  cbn [utcnow es_search recording fst snd].
  destruct (es_search E _ _ (snd (utcnow E (fst s)))) as [[result|e] w2];
    cbn [fst snd]; [|reflexivity].
  destruct (obind _ _) as [total|e]; [|reflexivity].
  destruct (obind _ _) as [hits|e]; reflexivity.
Qed.

Lemma hunt_iocs_loop_records iocs :
  forall results s, exists new,
    snd (snd (hunt_iocs_loop (recording E) (Some c) time_range iocs results s)) =
      snd s ++ new /\
    Forall2 (fun ioc request =>
               fst request = lit "*" /\
               exists now, snd request = ioc_request ioc time_range now) iocs new.
Proof.
  induction iocs as [|ioc rest IH]; intros results s.
  - exists []. split; [now rewrite app_nil_r | constructor].
  - rewrite hunt_iocs_loop_cons.
    destruct (IH (dict_set results ioc (fst (ioc_entry (recording E) (Some c) time_range ioc s)))
                 (snd (ioc_entry (recording E) (Some c) time_range ioc s)))
      as (new & Hlog & Hall).
    rewrite Hlog, ioc_entry_records, <- app_assoc.
    eexists. split; [reflexivity|]. constructor; [|exact Hall].
    split; [reflexivity | eexists; reflexivity].
Qed.

End IocHuntRequests.

Section IocHuntMore.

Local Open Scope string_scope.
Local Open Scope list_scope.

(** X5. With the search backend connected, [hunt_iocs] returns a report
    for any list of indicators, repeated or not: its keys are the distinct
    indicators of the list, each at the place of its first occurrence. The
    empty list gives the empty report. *)
Theorem hunt_iocs_keys_first_occurrences :
  forall (E : World) (c : es_client) (time_range : pystr) (iocs : list pystr) (w : state E),
    exists report w',
      hunt_iocs E (Some c) iocs time_range w = (Ok (PDict report), w') /\
      keys report = first_occurrences [] iocs.
Proof.
  intros E c time_range iocs w.
  destruct (hunt_iocs_loop_total E (Some c) time_range iocs [] w) as (report & w' & Hrun).
  exists report, w'. split.
  - unfold hunt_iocs, bind, ret. now rewrite Hrun.
  - now apply hunt_iocs_loop_first_occurrences in Hrun.
Qed.

(** X6. With the search backend connected, [hunt_iocs] sends exactly one
    request per element of the list, repeated indicators included, in the
    order of the list: each goes to the index pattern [*] and is the IOC
    body of its indicator (its clause, the window of the token counted
    from a reading of the clock, size 50). None is skipped: the built
    query is never empty. *)
Theorem hunt_iocs_one_request_each :
  forall (E : World) (c : es_client) (time_range : pystr) (iocs : list pystr) (w : state E),
    Forall2 (fun ioc request =>
               fst request = lit "*" /\
               exists now, snd request = ioc_request ioc time_range now)
            iocs
            (requests_sent (hunt_iocs (recording E) (Some c) iocs time_range) w).
Proof.
  intros E c time_range iocs w. unfold requests_sent, hunt_iocs, bind, ret.
  destruct (@hunt_iocs_loop_records E c time_range iocs [] (w, [])) as (new & Hlog & Hall).
  destruct (hunt_iocs_loop_total (recording E) (Some c) time_range iocs [] (w, []))
    as (report & s' & Hrun).
  rewrite Hrun in Hlog |- *. cbn [snd] in Hlog |- *. now rewrite Hlog.
Qed.

End IocHuntMore.

(* ===================================================================== *)
(** * What the methods return and send *)
(* ===================================================================== *)

Section Methods.

Local Open Scope string_scope.
Local Open Scope list_scope.

Lemma try_except_returns (E : World) A (m : M E A) (h : exn -> M E A) :
  (forall e w, exists v w', h e w = (Ok v, w')) ->
  forall w, exists v w', try_except m h w = (Ok v, w').
Proof.
  intros Hh w. unfold try_except. destruct (m w) as [[a|e] w1]; eauto.
Qed.

Lemma error_handler_returns (E : World) :
  forall e (w : state E), exists v w',
    (fun e => ret (error_dict (str_exn E e))) e w = (Ok v, w').
Proof. intros e w. unfold ret. eauto. Qed.

Lemma hunt_anomalies_report_eq (E : World) (c : es_client) (time_range : pystr) (w : state E) :
  let o1 := es_search E (lit "*") (unusual_login_body time_range) w in
  let o2 := es_search E (lit "*") (privilege_escalation_body time_range) (snd o1) in
  let o3 := es_search E (lit "*") (data_exfiltration_body time_range) (snd o2) in
  let o4 := es_search E (lit "*") (lateral_movement_body time_range) (snd o3) in
  hunt_anomalies E (Some c) time_range w =
    (Ok (PDict [ item (lit "unusual_logins") (reported E (fst o1));
                 item (lit "privilege_escalation") (reported E (fst o2));
                 item (lit "data_exfiltration") (reported E (fst o3));
                 item (lit "lateral_movement") (reported E (fst o4)) ]),
     snd o4).
Proof.
  cbv zeta.
  unfold hunt_anomalies, _hunt_unusual_login_times, _hunt_privilege_escalation,
    _hunt_data_exfiltration, _hunt_lateral_movement, sub_hunt, try_except, bind, search, ret.
  destruct (es_search E (lit "*") (unusual_login_body time_range) w) as [[r1|e1] w1];
    cbn [fst snd];
  destruct (es_search E (lit "*") (privilege_escalation_body time_range) w1) as [[r2|e2] w2];
    cbn [fst snd];
  destruct (es_search E (lit "*") (data_exfiltration_body time_range) w2) as [[r3|e3] w3];
    cbn [fst snd];
  destruct (es_search E (lit "*") (lateral_movement_body time_range) w3) as [[r4|e4] w4];
    reflexivity.
Qed.

(** X7. With the search backend connected, [hunt_anomalies] sends its
    four searches one after the other and always returns a dict with the
    four keys [unusual_logins], [privilege_escalation],
    [data_exfiltration] and [lateral_movement], in this order. The value
    under each key is the answer of its own search, or the error value of
    its own fault: a fault of one sub-hunt changes no other entry. *)
Theorem hunt_anomalies_report :
  forall (E : World) (c : es_client) (time_range : pystr) (w : state E),
    let o1 := es_search E (lit "*") (unusual_login_body time_range) w in
    let o2 := es_search E (lit "*") (privilege_escalation_body time_range) (snd o1) in
    let o3 := es_search E (lit "*") (data_exfiltration_body time_range) (snd o2) in
    let o4 := es_search E (lit "*") (lateral_movement_body time_range) (snd o3) in
    hunt_anomalies E (Some c) time_range w =
      (Ok (PDict [ item (lit "unusual_logins") (reported E (fst o1));
                   item (lit "privilege_escalation") (reported E (fst o2));
                   item (lit "data_exfiltration") (reported E (fst o3));
                   item (lit "lateral_movement") (reported E (fst o4)) ]),
       snd o4).
Proof.
  intros E c time_range w. cbv zeta. apply hunt_anomalies_report_eq.
Qed.

(** X8. No method of [ThreatHunter] or of [SOCAnalyzer] lets an exception
    out: whatever the backend or the model endpoint raises or answers,
    connected or not, [search_logs], [get_security_alerts],
    [analyze_with_ai], [hunt_mitre_attack], [hunt_iocs] (on a list of
    strings) and [hunt_anomalies] return a value. *)
Theorem methods_never_raise :
  forall (E : World) (es : option es_client) (w : state E),
    (forall query time_range index_pattern, exists v w',
        search_logs E es query time_range index_pattern w = (Ok v, w')) /\
    (forall severity limit, exists v w',
        get_security_alerts E es severity limit w = (Ok v, w')) /\
    (forall logs_data question, exists v w',
        analyze_with_ai E logs_data question w = (Ok v, w')) /\
    (forall technique_id time_range, exists v w',
        hunt_mitre_attack E es technique_id time_range w = (Ok v, w')) /\
    (forall iocs time_range, exists v w',
        hunt_iocs E es iocs time_range w = (Ok v, w')) /\
    (forall time_range, exists v w',
        hunt_anomalies E es time_range w = (Ok v, w')).
Proof.
  intros E es w.
  split; [|split; [|split; [|split; [|split]]]].
  - intros. unfold search_logs. destruct es; [|unfold ret; eauto].
    apply try_except_returns, error_handler_returns.
  - intros. unfold get_security_alerts. destruct es; [|unfold ret; eauto].
    apply try_except_returns, error_handler_returns.
  - intros. unfold analyze_with_ai. apply try_except_returns.
    intros e w0. unfold ret. eauto.
  - intros. unfold hunt_mitre_attack. destruct es; [|unfold ret; eauto].
    destruct (dict_get attack_patterns technique_id); [|unfold ret; eauto].
    apply try_except_returns, error_handler_returns.
  - intros. unfold hunt_iocs. destruct es as [c|]; [|unfold ret; eauto].
    destruct (hunt_iocs_loop_total E (Some c) time_range iocs [] w) as (report & w' & Hrun).
    unfold bind, ret. rewrite Hrun. eauto.
  - intros. destruct es as [c|]; [|unfold hunt_anomalies, ret; eauto].
    pose proof (hunt_anomalies_report_eq E c time_range w) as Hreport.
    cbv zeta in Hreport. rewrite Hreport. eauto.
Qed.

End Methods.

Section Requests.

Local Open Scope string_scope.
Local Open Scope list_scope.

(** X9. With the search backend connected, [hunt_mitre_attack] sends for a
    technique of the catalog exactly one request, to the index pattern
    [*]: the technique body (size 100, host and user aggregations) around
    the query of the catalog entry, taken as it is. Its window starts one
    hour before the clock reading for the token [1h], seven days before
    for [7d], and twenty-four hours before for every other token. *)
Theorem hunt_mitre_attack_request :
  forall (E : World) (c : es_client) (technique_id time_range : pystr) (w : state E)
         (technique : pyval),
    dict_get attack_patterns technique_id = Some technique ->
    exists query,
      subscript technique (lit "query") = Ok query /\
      requests_sent (hunt_mitre_attack (recording E) (Some c) technique_id time_range) w =
        [ (lit "*", mitre_search_body query (hunt_start_time (fst (utcnow E w)) time_range)) ] /\
      forall now : datetime,
        time_lower_bound (mitre_search_body query (hunt_start_time now time_range)) =
          Some (PStr (isoformat
            (if pystr_eqb time_range (lit "1h") then now - hours 1
             else if pystr_eqb time_range (lit "7d") then now - days 7
             else now - hours 24)%Z)).
Proof.
  intros E c technique_id time_range w technique Hentry.
  destruct (catalog_entry_has_query _ Hentry) as (query & Hquery).
  exists query. split; [exact Hquery|]. split.
  - unfold requests_sent, hunt_mitre_attack. rewrite Hentry.
    unfold try_except, bind, now_, lift, search, ret. rewrite Hquery.
    cbn [utcnow es_search recording fst snd].
    destruct (utcnow E w) as [now w1]. cbn [fst snd].
    destruct (es_search E _ _ w1) as [[result|e] w2]; cbn [fst snd]; [|reflexivity].
    destruct (obind _ _) as [hits|e]; [|reflexivity].
    destruct (_create_timeline hits); reflexivity.
  - intros now. rewrite mitre_body_bound. unfold hunt_start_time.
    destruct (pystr_eqb time_range (lit "1h")); [reflexivity|].
    destruct (pystr_eqb time_range (lit "24h")) eqn:H24; [|reflexivity].
    apply pystr_eqb_eq_true in H24 as ->. reflexivity.
Qed.

Lemma hunt_mitre_attack_request_witness :
  requests_sent (hunt_mitre_attack (recording sample_world) (Some Elasticsearch)
                   (lit "T1110") (lit "last week")) 0 =
    [ (lit "*",
       mitre_search_body (PStr (lit "event.category:authentication AND event.outcome:failure"))
         (1704103200000000 - hours 24)%Z) ].
Proof.
  destruct (@hunt_mitre_attack_request sample_world Elasticsearch (lit "T1110")
              (lit "last week") 0%nat _ eq_refl) as (query & Hquery & Hsent & _).
  injection Hquery as <-. exact Hsent.
Defined.

(** X10. With the search backend connected, [search_logs] sends exactly
    one request, to the index pattern it was given: the log-search body
    (size 50) around the caller's query. Its window starts twenty-four
    hours before the clock reading for the token [24h], seven days before
    for [7d], and one hour before for every other token; the method
    returns the answer of the backend as it is, or the error value of its
    fault. *)
Theorem search_logs_request :
  forall (E : World) (c : es_client) (query : pyval) (time_range index_pattern : pystr)
         (w : state E),
    let body := search_logs_body query (search_start_time (fst (utcnow E w)) time_range) in
    requests_sent (search_logs (recording E) (Some c) query time_range index_pattern) w =
      [ (index_pattern, body) ] /\
    search_logs E (Some c) query time_range index_pattern w =
      (Ok (reported E (fst (es_search E index_pattern body (snd (utcnow E w))))),
       snd (es_search E index_pattern body (snd (utcnow E w)))) /\
    time_lower_bound body =
      Some (PStr (isoformat
        (if pystr_eqb time_range (lit "24h") then fst (utcnow E w) - hours 24
         else if pystr_eqb time_range (lit "7d") then fst (utcnow E w) - days 7
         else fst (utcnow E w) - hours 1)%Z)).
Proof.
  intros E c query time_range index_pattern w. cbv zeta. split; [|split].
  - unfold requests_sent, search_logs, try_except, bind, now_, search, ret.
    cbn [utcnow es_search recording fst snd].
    destruct (utcnow E w) as [now w1]. cbn [fst snd].
    destruct (es_search E _ _ w1) as [[result|e] w2]; reflexivity.
  - unfold search_logs, try_except, bind, now_, search, ret.
    destruct (utcnow E w) as [now w1]. cbn [fst snd].
    destruct (es_search E _ _ w1) as [[result|e] w2]; reflexivity.
  - rewrite search_logs_body_bound. unfold search_start_time.
    destruct (pystr_eqb time_range (lit "1h")) eqn:H1.
    + apply pystr_eqb_eq_true in H1 as ->. reflexivity.
    + destruct (pystr_eqb time_range (lit "24h")); [reflexivity|].
      now destruct (pystr_eqb time_range (lit "7d")).
Qed.

(** X11. With the search backend connected, [get_security_alerts] sends
    exactly one request, to the index pattern [wazuh-alerts-*], and
    returns the answer of the backend or the error value of its fault. The
    severity it is given never restricts the search: it appears in the
    optional clauses only; the mandatory clauses are the security category
    and the window [now-24h], whatever the arguments, and the size of the
    body is the limit as given. *)
Theorem get_security_alerts_request :
  forall (E : World) (c : es_client) (severity limit : pyval) (w : state E),
    let body := security_alerts_body severity limit in
    requests_sent (get_security_alerts (recording E) (Some c) severity limit) w =
      [ (lit "wazuh-alerts-*", body) ] /\
    get_security_alerts E (Some c) severity limit w =
      (Ok (reported E (fst (es_search E (lit "wazuh-alerts-*") body w))),
       snd (es_search E (lit "wazuh-alerts-*") body w)) /\
    must_clauses body =
      [ PDict [ item (lit "term") (PDict [ item (lit "event.category") (PStr (lit "security")) ]) ];
        PDict [ item (lit "range")
                  (PDict [ item (lit "@timestamp")
                             (PDict [ item (lit "gte") (PStr (lit "now-24h")) ]) ]) ] ] /\
    subscript body (lit "size") = Ok limit.
Proof.
  intros E c severity limit w. cbv zeta. split; [|split; [|split; reflexivity]].
  - unfold requests_sent, get_security_alerts, try_except, bind, search, ret.
    cbn [es_search recording fst snd].
    destruct (es_search E _ _ w) as [[result|e] w2]; reflexivity.
  - unfold get_security_alerts, try_except, bind, search, ret.
    destruct (es_search E _ _ w) as [[result|e] w2]; reflexivity.
Qed.

End Requests.

(* ===================================================================== *)
(** * The analysis by the model *)
(* ===================================================================== *)

Section Analysis.

Local Open Scope string_scope.
Local Open Scope list_scope.

Lemma log_lines_tracing (E : World) hits :
  forall log_context, log_lines (tracing E) log_context hits = log_lines E log_context hits.
Proof.
  induction hits as [|hit rest IH]; intros log_context; [reflexivity|].
  cbn [log_lines]. change (log_line (tracing E) hit) with (log_line E hit).
  destruct (log_line E hit) as [line|e]; [|reflexivity]. cbn [obind]. apply IH.
Qed.

Lemma log_context_tracing (E : World) logs_data :
  log_context (tracing E) logs_data = log_context E logs_data.
Proof.
  unfold log_context.
  destruct (py_in (lit "hits") logs_data) as [[|]|e]; try reflexivity. cbn [obind].
  destruct (subscript logs_data (lit "hits")) as [inner|e]; [|reflexivity]. cbn [obind].
  destruct (py_in (lit "hits") inner) as [[|]|e]; try reflexivity. cbn [obind].
  destruct (subscript inner (lit "hits")) as [hits|e]; [|reflexivity]. cbn [obind].
  destruct (slice_to 10 hits) as [first10|e]; [|reflexivity]. cbn [obind].
  destruct (py_iter first10) as [l|e]; [|reflexivity]. cbn [obind].
  apply log_lines_tracing.
Qed.

Lemma prompt_tracing (E : World) logs_data question :
  prompt (tracing E) logs_data question = prompt E logs_data question.
Proof. unfold prompt. rewrite log_context_tracing. reflexivity. Qed.

(** X12. [analyze_with_ai] answers in every case. When the prompt cannot
    be built (a search result or a hit of the wrong shape) it returns
    [AI analysis error: ...] and the model endpoint is not called. When the
    prompt is built, the endpoint is called exactly once, at
    [OLLAMA_URL/api/generate], with the model [llama3], the prompt and
    [stream] false; the answer is the [response] field of the reply when
    the status is 200 ([No response from AI model] when the field is
    missing), [AI model error: <status>] for any other status, and
    [AI analysis error: ...] when the call or the decoding of the reply
    faults. *)
Theorem analyze_with_ai_cases :
  forall (E : World) (logs_data question : pyval) (w : state E),
    (forall e, prompt E logs_data question = Raise e ->
        analyze_with_ai E logs_data question w = (Ok (analysis_error E e), w) /\
        posts_sent (analyze_with_ai (tracing E) logs_data question) w = []) /\
    (forall p, prompt E logs_data question = Ok p ->
        analyze_with_ai E logs_data question w =
          (Ok (analysis_of E (fst (http_post E (model_url E) (model_payload p) w))),
           snd (http_post E (model_url E) (model_payload p) w)) /\
        posts_sent (analyze_with_ai (tracing E) logs_data question) w =
          [ (model_url E, model_payload p) ]).
Proof.
  intros E logs_data question w. split.
  - intros e He. split.
    + unfold analyze_with_ai, try_except, bind, lift. now rewrite He.
    + unfold posts_sent, analyze_with_ai, try_except, bind, lift.
      rewrite prompt_tracing, He. reflexivity.
  - intros p Hp. split.
    + unfold analyze_with_ai, try_except, bind, lift, ret. rewrite Hp.
      fold (model_url E). fold (model_payload p).
      destruct (http_post E (model_url E) (model_payload p) w) as [[[status json]|e] w1];
        cbn [fst snd analysis_of]; [|reflexivity].
      destruct (status =? 200)%Z; [|reflexivity].
      destruct json as [result|e]; [|reflexivity].
      destruct result; reflexivity.
    + unfold posts_sent, analyze_with_ai, try_except, bind, lift, ret.
      rewrite prompt_tracing, Hp.
      cbn [http_post tracing ollama_url fst snd]. fold (model_url E). fold (model_payload p).
      destruct (http_post E (model_url E) (model_payload p) w) as [[[status json]|e] w1];
        cbn [fst snd app]; [|reflexivity].
      destruct (status =? 200)%Z; [|reflexivity].
      destruct json as [result|e]; [|reflexivity].
      destruct (py_get result _ _); reflexivity.
Qed.

Lemma analyze_with_ai_cases_witness :
  analyze_with_ai sample_world sample_result (PStr (lit "Who logged in?")) 0 =
    (Ok (PStr (lit "Low risk.")), 0) /\
  analyze_with_ai sample_world (PInt 7) (PStr (lit "Who logged in?")) 0 =
    (Ok (PStr (lit "AI analysis error: TypeError")), 0) /\
  posts_sent (analyze_with_ai (tracing sample_world) (PInt 7) (PStr (lit "Who logged in?"))) 0 = [].
Proof.
  destruct (analyze_with_ai_cases sample_world sample_result (PStr (lit "Who logged in?")) 0%nat)
    as [_ Hbuilt].
  destruct (analyze_with_ai_cases sample_world (PInt 7) (PStr (lit "Who logged in?")) 0%nat)
    as [Hfailed _].
  split; [|exact (Hfailed TypeError eq_refl)].
  destruct (Hbuilt _ eq_refl) as [Hanswer _]. exact Hanswer.
Defined.

End Analysis.

Section PromptShape.

Local Open Scope string_scope.
Local Open Scope list_scope.

(** X13. Every prompt that [analyze_with_ai] builds is its fixed head, at
    most 2000 characters of log context, the text
    [  # Limit context length] with the lead-in of the question, the
    question, and the fixed tail: it is never longer than 2398 characters
    plus the question. A search result without a [hits] key, such as an
    error value, or with no hit, gives the prompt with an empty log
    context. *)
Theorem prompt_shape :
  forall (E : World) (logs_data question : pyval),
    (forall p, prompt E logs_data question = Ok p ->
        exists context,
          p = prompt_head ++ context ++ prompt_middle ++ format_value E question ++ prompt_tail /\
          List.length context <= 2000 /\
          List.length p <= 2398 + List.length (format_value E question)) /\
    (forall d,
        logs_data = PDict d ->
        dict_get d (lit "hits") = None \/
        (exists inner, dict_get d (lit "hits") = Some (PDict inner) /\
                       (dict_get inner (lit "hits") = None \/
                        dict_get inner (lit "hits") = Some (PList []))) ->
        prompt E logs_data question =
          Ok (prompt_head ++ prompt_middle ++ format_value E question ++ prompt_tail)).
Proof.
  intros E logs_data question. split.
  - intros p Hp. unfold prompt in Hp.
    destruct (log_context E logs_data) as [context|e]; [|discriminate].
    cbn [obind] in Hp.
    assert (Heq : p = prompt_head ++ firstn 2000 context ++ prompt_middle ++
                      format_value E question ++ prompt_tail) by congruence.
    clear Hp. subst p.
    exists (firstn 2000 context).
    assert (Hlen : List.length (firstn 2000 context) <= 2000) by apply firstn_le_length.
    split; [reflexivity|]. split; [exact Hlen|].
    rewrite !length_app.
    change (List.length prompt_head) with 124.
    change (List.length prompt_middle) with 41.
    change (List.length prompt_tail) with 233. lia.
  - intros d -> Hhits. unfold prompt, log_context, py_in, dict_has. cbn [subscript].
    destruct Hhits as [Hnone | (inner & Hsome & [Hnone | Hempty])].
    + rewrite Hnone. reflexivity.
    + rewrite Hsome. cbn [obind]. rewrite Hnone. reflexivity.
    + rewrite Hsome. cbn [obind]. rewrite Hempty. cbn [obind subscript]. rewrite Hempty.
      reflexivity.
Qed.

Lemma prompt_shape_witness :
  prompt sample_world (error_dict (lit "ConnectionTimeout")) (PStr (lit "Any brute force?")) =
    Ok (prompt_head ++ prompt_middle ++ lit "Any brute force?" ++ prompt_tail) /\
  (exists context,
      prompt sample_world fifteen_hits (PStr (lit "Any brute force?")) =
        Ok (prompt_head ++ context ++ prompt_middle ++ lit "Any brute force?" ++ prompt_tail) /\
      List.length context <= 2000).
Proof.
  destruct (prompt_shape sample_world (error_dict (lit "ConnectionTimeout"))
              (PStr (lit "Any brute force?"))) as [_ Hempty].
  destruct (prompt_shape sample_world fifteen_hits (PStr (lit "Any brute force?")))
    as [Hbuilt _].
  split.
  - apply (Hempty _ eq_refl). left. reflexivity.
  - destruct (prompt sample_world fifteen_hits (PStr (lit "Any brute force?"))) as [p|e] eqn:Hp;
      [|vm_compute in Hp; discriminate].
    destruct (Hbuilt p eq_refl) as (context & -> & Hlen & _).
    exists context. split; [reflexivity | exact Hlen].
Defined.

End PromptShape.

(* ===================================================================== *)
(** * More on timelines *)
(* ===================================================================== *)

Section TimelineMore.

Local Open Scope string_scope.
Local Open Scope list_scope.

Lemma timeline_loop_app pre rest :
  forall timeline,
    timeline_loop timeline (pre ++ rest) =
    obind (timeline_loop timeline pre) (fun timeline' => timeline_loop timeline' rest).
Proof.
  induction pre as [|hit pre IH]; intros timeline; [reflexivity|].
  cbn [app timeline_loop]. destruct (timeline_step timeline hit) as [timeline1|e]; [|reflexivity].
  cbn [obind]. apply IH.
Qed.

(** A timestamp that is not a string stops the loop. *)
Lemma timeline_step_non_string timeline hit source ts :
  subscript hit (lit "_source") = Ok (PDict source) ->
  dict_get source (lit "@timestamp") = Some ts ->
  is_str ts = false ->
  timeline_step timeline hit = Raise TypeError.
Proof.
  intros Hsrc Hts Hstr. unfold timeline_step. rewrite Hsrc. cbn [obind py_get]. rewrite Hts.
  destruct ts; try discriminate; reflexivity.
Qed.

Lemma timeline_total_set (d : dict) k v :
  timeline_total (dict_set d k (PInt v)) =
  (timeline_total d - match dict_get d k with Some (PInt n) => n | _ => 0 end + v)%Z.
Proof.
  induction d as [|[k0 v0] d IH]; cbn [dict_set dict_get timeline_total].
  - lia.
  - destruct (pystr_eqb k0 k); cbn [timeline_total].
    + destruct v0; lia.
    + destruct v0; rewrite IH; lia.
Qed.

(** One turn of the loop adds one to the total when the hit is counted,
    nothing otherwise. *)
Lemma timeline_step_total timeline hit done :
  stamped_hit hit ->
  counts timeline (fun key => hits_keyed key done) ->
  exists timeline',
    timeline_step timeline hit = Ok timeline' /\
    timeline_total timeline' =
      (timeline_total timeline + if is_counted hit then 1 else 0)%Z.
Proof.
  intros (source & Hsrc & Hts) Hcounts.
  unfold timeline_step, is_counted, date_key_of. rewrite Hsrc. cbn [obind py_get].
  destruct Hts as [Hnone | (ts & Hsome)].
  - rewrite Hnone. cbn. exists timeline. split; [reflexivity | lia].
  - rewrite Hsome. cbn [differs_from_str].
    destruct (pystr_eqb ts (lit "Unknown")); cbn [negb].
    { exists timeline. split; [reflexivity | lia]. }
    cbn [slice_to obind]. set (k := firstn 10 ts).
    pose proof (Hcounts k) as Hk. cbn beta in Hk.
    unfold dict_has. rewrite Hk.
    destruct (Z.eqb_spec (hits_keyed k done) 0) as [Hzero|Hnonzero].
    + cbn [subscript]. rewrite dict_get_set_same. cbn [obind py_add].
      eexists. split; [reflexivity|].
      rewrite !timeline_total_set, dict_get_set_same, Hk.
      destruct (Z.eqb_spec (hits_keyed k done) 0); [lia | contradiction].
    + cbn [subscript]. rewrite Hk.
      destruct (Z.eqb_spec (hits_keyed k done) 0) as [|_]; [contradiction|].
      cbn [obind py_add]. eexists. split; [reflexivity|].
      rewrite timeline_total_set, Hk.
      destruct (Z.eqb_spec (hits_keyed k done) 0); [contradiction | lia].
Qed.

Lemma timeline_loop_total hits :
  forall timeline done,
    Forall stamped_hit hits ->
    counts timeline (fun key => hits_keyed key done) ->
    NoDup (keys timeline) ->
    exists timeline',
      timeline_loop timeline hits = Ok timeline' /\
      timeline_total timeline' =
        (timeline_total timeline + Z.of_nat (List.length (filter is_counted hits)))%Z.
Proof.
  induction hits as [|hit rest IH]; intros timeline done Hstamped Hcounts Hnodup.
  - exists timeline. split; [reflexivity | cbn; lia].
  - inversion Hstamped as [|? ? Hhit Hrest]; subst.
    destruct (@timeline_step_counts timeline hit done Hhit Hcounts Hnodup)
      as (timeline1 & Hstep & Hcounts1 & Hnodup1).
    destruct (@timeline_step_total timeline hit done Hhit Hcounts) as (timeline2 & Hstep2 & Htotal).
    rewrite Hstep in Hstep2. injection Hstep2 as <-.
    destruct (IH timeline1 (done ++ [hit]) Hrest Hcounts1 Hnodup1) as (timeline' & Hloop & Htotal').
    exists timeline'. cbn [timeline_loop]. rewrite Hstep. cbn [obind]. split; [exact Hloop|].
    rewrite Htotal', Htotal. cbn [filter]. destruct (is_counted hit); cbn [List.length]; lia.
Qed.

End TimelineMore.

Section TimelineMoreProperties.

Local Open Scope string_scope.
Local Open Scope list_scope.

(** X14. In the timeline built from hits whose timestamps are strings (or
    missing), the counts add up to the number of hits that have a
    timestamp other than the placeholder [Unknown]: every such hit is
    counted once, under one day, and the other hits are left out without
    error. *)
Theorem create_timeline_total :
  forall hits : list pyval,
    Forall stamped_hit hits ->
    exists timeline,
      _create_timeline (PList hits) = Ok (PDict timeline) /\
      timeline_total timeline = Z.of_nat (List.length (filter is_counted hits)).
Proof.
  intros hits Hstamped.
  destruct (@timeline_loop_total hits [] [] Hstamped) as (timeline & Hloop & Htotal).
  - intros key. reflexivity.
  - constructor.
  - exists timeline. unfold _create_timeline. cbn [py_iter obind]. rewrite Hloop.
    cbn [obind]. split; [reflexivity | exact Htotal].
Qed.

Lemma create_timeline_total_witness :
  exists timeline,
    _create_timeline
      (PList [ hit_at (lit "2024-03-09T23:59:59Z"); hit_at (lit "Unknown");
               PDict [ item (lit "_source") (PDict []) ]; hit_at (lit "2024-03-10T00:00:00Z");
               hit_at (lit "yesterday") ]) = Ok (PDict timeline) /\
    timeline_total timeline = 3%Z.
Proof.
  apply (@create_timeline_total
           [ hit_at (lit "2024-03-09T23:59:59Z"); hit_at (lit "Unknown");
             PDict [ item (lit "_source") (PDict []) ]; hit_at (lit "2024-03-10T00:00:00Z");
             hit_at (lit "yesterday") ]).
  repeat constructor;
    (eexists; split; [reflexivity|];
     first [ left; reflexivity | right; eexists; reflexivity ]).
Defined.

(** X15. A hit whose timestamp is not a string (a number of milliseconds,
    [null], a list) makes [_create_timeline] raise [TypeError], wherever it
    stands among well-formed hits; [hunt_mitre_attack] then answers with an
    error value and no report, although its search succeeded. *)
Theorem create_timeline_non_string_timestamp :
  (forall (pre post : list pyval) (hit : pyval) (source : dict) (ts : pyval),
      Forall stamped_hit pre ->
      subscript hit (lit "_source") = Ok (PDict source) ->
      dict_get source (lit "@timestamp") = Some ts ->
      is_str ts = false ->
      _create_timeline (PList (pre ++ hit :: post)) = Raise TypeError) /\
  (forall (E : World) (c : es_client) (technique_id time_range : pystr) (w w' : state E)
          (technique query result hits : pyval) (e : exn),
      dict_get attack_patterns technique_id = Some technique ->
      subscript technique (lit "query") = Ok query ->
      es_search E (lit "*")
        (mitre_search_body query (hunt_start_time (fst (utcnow E w)) time_range))
        (snd (utcnow E w)) = (Ok result, w') ->
      hits_of result = Ok hits ->
      _create_timeline hits = Raise e ->
      hunt_mitre_attack E (Some c) technique_id time_range w =
        (Ok (error_dict (str_exn E e)), w')).
Proof.
  split.
  - intros pre post hit source ts Hpre Hsrc Hts Hstr.
    unfold _create_timeline. cbn [py_iter obind]. rewrite timeline_loop_app.
    destruct (@timeline_loop_counts pre [] [] Hpre) as (timeline & Hloop & _ & _).
    + intros key. reflexivity.
    + constructor.
    + rewrite Hloop. cbn [obind timeline_loop].
      now rewrite (@timeline_step_non_string timeline hit source ts Hsrc Hts Hstr).
  - intros E c technique_id time_range w w' technique query result hits e
           Hentry Hquery Hsearch Hhits Htimeline.
    unfold hunt_mitre_attack. rewrite Hentry.
    unfold try_except, bind, now_, lift, search, ret.
    destruct (utcnow E w) as [now w1]. cbn [fst snd] in Hsearch.
    rewrite Hquery, Hsearch. fold (hits_of result). now rewrite Hhits, Htimeline.
Qed.

Lemma create_timeline_non_string_timestamp_witness :
  _create_timeline
    (PList ([ hit_at (lit "2024-03-09T23:59:59Z") ] ++
            PDict [ item (lit "_source")
                      (PDict [ item (lit "@timestamp") (PInt 1709942400000) ]) ] ::
            [ hit_at (lit "2024-03-10T00:00:00Z") ])) = Raise TypeError.
Proof.
  destruct create_timeline_non_string_timestamp as [Hraise _].
  eapply Hraise; try reflexivity.
  repeat constructor. eexists; split; [reflexivity|]. right. eexists; reflexivity.
Defined.

End TimelineMoreProperties.

(* ===================================================================== *)
(** * [hunt_iocs] on any JSON value *)
(* ===================================================================== *)

Section IocHuntAny.

Variable E : World.
Variable es : option es_client.

Local Open Scope string_scope.
Local Open Scope list_scope.

Lemma hunt_iocs_loop_any_strings time_range iocs :
  forall results w,
    hunt_iocs_loop_any E es time_range (map PStr iocs) results w =
    hunt_iocs_loop E es (token_text time_range) iocs results w.
Proof.
  induction iocs as [|ioc rest IH]; intros results w; [reflexivity|].
  cbn [map hunt_iocs_loop_any hunt_iocs_loop].
  destruct (truthy_str _); [|apply IH].
  unfold bind. destruct (try_except _ _ w) as [[results'|e] w']; [apply IH | reflexivity].
Qed.

Lemma hunt_iocs_loop_any_app time_range pre rest :
  forall results w,
    hunt_iocs_loop_any E es time_range (pre ++ rest) results w =
    match hunt_iocs_loop_any E es time_range pre results w with
    | (Ok results', w') => hunt_iocs_loop_any E es time_range rest results' w'
    | (Raise e, w') => (Raise e, w')
    end.
Proof.
  induction pre as [|ioc pre IH]; intros results w; [reflexivity|].
  cbn [app hunt_iocs_loop_any].
  destruct ioc; try reflexivity.
  destruct (truthy_str _); [|apply IH].
  unfold bind. destruct (try_except _ _ w) as [[results'|e] w']; [apply IH | reflexivity].
Qed.

Lemma hunt_iocs_loop_any_non_string time_range bad post results w :
  is_str bad = false ->
  hunt_iocs_loop_any E es time_range (bad :: post) results w = (Raise TypeError, w).
Proof. destruct bad; try discriminate; reflexivity. Qed.

End IocHuntAny.

Section IocHuntAnyProperties.

Local Open Scope string_scope.
Local Open Scope list_scope.

(** X16. [hunt_iocs] as the route calls it, on any JSON value. On a list
    of strings with a string for token it is the hunt described above. An
    indicator that is not a string is not isolated like a search fault:
    with the backend connected, [TypeError] leaves the method when the loop
    reaches it, after the indicators before it have been searched, and no
    report is returned. A string given in place of the list is hunted
    character by character. A body without [iocs] gives the empty
    report. *)
Theorem hunt_iocs_any_cases :
  forall (E : World) (c : es_client) (w : state E),
    (forall es iocs time_range,
        hunt_iocs_any E es (PList (map PStr iocs)) (PStr time_range) w =
        hunt_iocs E es iocs time_range w) /\
    (forall pre bad post time_range,
        is_str bad = false ->
        exists before w1,
          hunt_iocs_loop E (Some c) (token_text time_range) pre [] w = (Ok before, w1) /\
          hunt_iocs_any E (Some c) (PList (map PStr pre ++ bad :: post)) time_range w =
            (Raise TypeError, w1)) /\
    (forall text time_range,
        hunt_iocs_any E (Some c) (PStr text) (PStr time_range) w =
        hunt_iocs E (Some c) (map (fun ch => [ch]) text) time_range w) /\
    (forall d,
        dict_get d (lit "iocs") = None ->
        hunt_iocs_route E (Some c) (PDict d) w = (Ok (PDict []), w)).
Proof.
  intros E c w. split; [|split; [|split]].
  - intros es iocs time_range. unfold hunt_iocs_any, hunt_iocs. destruct es; [|reflexivity].
    unfold bind, lift. cbn [py_iter]. now rewrite hunt_iocs_loop_any_strings.
  - intros pre bad post time_range Hbad.
    destruct (hunt_iocs_loop_total E (Some c) (token_text time_range) pre [] w)
      as (before & w1 & Hpre).
    exists before, w1. split; [exact Hpre|].
    unfold hunt_iocs_any, bind, lift. cbn [py_iter].
    rewrite hunt_iocs_loop_any_app, hunt_iocs_loop_any_strings, Hpre.
    now rewrite hunt_iocs_loop_any_non_string.
  - intros text time_range. unfold hunt_iocs_any, hunt_iocs, bind, lift. cbn [py_iter].
    rewrite <- (hunt_iocs_loop_any_strings E (Some c) (PStr time_range)).
    now rewrite map_map.
  - intros d Hnone. unfold hunt_iocs_route, bind, lift. cbn [py_get]. rewrite Hnone.
    reflexivity.
Qed.

Lemma hunt_iocs_any_cases_witness :
  hunt_iocs_any sample_world (Some Elasticsearch)
    (PList (map PStr [lit "1.2.3.4"] ++ PInt 42 :: [PStr (lit "evil.example.com")]))
    (PStr (lit "1h")) 0 = (Raise TypeError, 1) /\
  hunt_iocs_route sample_world (Some Elasticsearch)
    (PDict [ item (lit "time_range") (PStr (lit "7d")) ]) 0 = (Ok (PDict []), 0).
Proof.
  destruct (hunt_iocs_any_cases sample_world Elasticsearch 0%nat) as (_ & Hbad & _ & Hroute).
  split.
  - destruct (Hbad [lit "1.2.3.4"] (PInt 42) [PStr (lit "evil.example.com")] (PStr (lit "1h")) eq_refl)
      as (before & w1 & Hpre & Hraise).
    vm_compute in Hpre. injection Hpre as _ <-. exact Hraise.
  - apply Hroute. reflexivity.
Defined.

End IocHuntAnyProperties.

(* ===================================================================== *)
(** * The socket handlers *)
(* ===================================================================== *)

Section Handlers.

Variable E : World.

Local Open Scope string_scope.
Local Open Scope list_scope.
Local Open Scope py_scope.

Lemma hbind_run_ok A B (m : M E A) (f : A -> Handler E B) w a w' :
  m w = (Ok a, w') -> hbind (run m) f w = f a w'.
Proof.
  unfold hbind, run. intros ->. destruct (f a w') as [[events o] w'']. reflexivity.
Qed.

Lemma hbind_run_raise A B (m : M E A) (f : A -> Handler E B) w e w' :
  m w = (Raise e, w') -> hbind (run m) f w = (([], Raise e), w').
Proof. unfold hbind, run. now intros ->. Qed.

Lemma hbind_emit B name payload (f : unit -> Handler E B) w :
  hbind (emit name payload) f w =
  (((name, payload) :: fst (fst (f tt w)), snd (fst (f tt w))), snd (f tt w)).
Proof. unfold hbind, emit. destruct (f tt w) as [[events o] w']. reflexivity. Qed.

(** Without a backend that answers, [search_logs] returns an error
    value. *)
Lemma search_logs_unavailable es query time_range index_pattern w :
  es = None \/ backend_down E ->
  exists msg w',
    search_logs E es query time_range index_pattern w = (Ok (error_dict msg), w').
Proof.
  intros Hdown. unfold search_logs. destruct es as [c|].
  - destruct Hdown as [Hnone | Hdown]; [discriminate|].
    unfold try_except, bind, now_, search, ret.
    destruct (utcnow E w) as [now w1].
    destruct (Hdown index_pattern
                (search_logs_body query (search_start_time now time_range)) w1) as (e & He).
    destruct (es_search E _ _ w1) as [[result|e'] w2]; cbn [fst] in He; [discriminate|].
    eauto.
  - unfold ret. eauto.
Qed.

(** An error value counts as no match. *)
Lemma error_value_total msg : total_or_zero (error_dict msg) = Ok (PInt 0).
Proof. reflexivity. Qed.

Lemma error_value_matches msg : first_matches (error_dict msg) = Ok (PList []).
Proof. reflexivity. Qed.

Lemma threat_hunt_loop_unavailable es indicators :
  es = None \/ backend_down E ->
  Forall (fun indicator => exists query, indicator_query E indicator = Ok query) indicators ->
  forall hunt_results w, exists w',
    threat_hunt_loop E es indicators hunt_results w =
      (Ok (hunt_results ++ map no_match indicators), w').
Proof.
  intros Hdown Hall. induction Hall as [|indicator rest (query & Hquery) _ IH];
    intros hunt_results w.
  - exists w. cbn. now rewrite app_nil_r.
  - destruct (@search_logs_unavailable es query (lit "24h") (lit "*") w Hdown)
      as (msg & w1 & Hlogs).
    destruct (IH (hunt_results ++ [no_match indicator]) w1) as (w' & Hrest).
    exists w'. cbn [threat_hunt_loop map]. unfold bind, lift.
    rewrite Hquery, Hlogs, error_value_total, error_value_matches.
    fold (no_match indicator). rewrite Hrest, <- app_assoc. reflexivity.
Qed.

(** X17. [handle_threat_hunt] without a backend that answers (the client
    was never built, or every search faults): when each indicator yields a
    query, the handler does not fail. It emits the status and then one
    [hunt_results] event that lists every indicator, in order, with zero
    matches and no logs: the failure of the backend is reported as the
    absence of matches. *)
Theorem handle_threat_hunt_unavailable :
  forall (es : option es_client) (data : pyval) (indicators : list pyval) (w : state E),
    es = None \/ backend_down E ->
    py_get data "indicators" (PList []) = Ok (PList indicators) ->
    Forall (fun indicator => exists query, indicator_query E indicator = Ok query) indicators ->
    exists w',
      handle_threat_hunt E es data w =
        (([ ("status" : pystr, status "Starting threat hunt...");
            ("hunt_results" : pystr, PDict [ "results" --> PList (map no_match indicators) ]) ],
          Ok tt), w').
Proof.
  intros es data indicators w Hdown Hdata Hall.
  destruct (@threat_hunt_loop_unavailable es indicators Hdown Hall [] w) as (w' & Hloop).
  exists w'. unfold handle_threat_hunt, hbind, run, emit, lift.
  rewrite Hdata. cbn [py_iter]. rewrite Hloop. reflexivity.
Qed.

Lemma indicator_query_missing_value indicator kind :
  dict_get indicator "type" = Some (PStr kind) ->
  kind = lit "ip" \/ kind = lit "domain" \/ kind = lit "hash" ->
  dict_get indicator "value" = None ->
  indicator_query E (PDict indicator) = Raise (KeyError "value").
Proof.
  intros Htype Hkind Hvalue. unfold indicator_query. cbn [py_get obind]. rewrite Htype.
  cbn [eq_str subscript]. rewrite Hvalue.
  destruct Hkind as [-> | [-> | ->]]; reflexivity.
Qed.

Lemma threat_hunt_loop_missing_value es before indicator rest kind :
  dict_get indicator "type" = Some (PStr kind) ->
  kind = lit "ip" \/ kind = lit "domain" \/ kind = lit "hash" ->
  dict_get indicator "value" = None ->
  forall hunt_results w, exists e w',
    threat_hunt_loop E es (before ++ PDict indicator :: rest) hunt_results w = (Raise e, w').
Proof.
  intros Htype Hkind Hvalue. induction before as [|earlier before IH]; intros hunt_results w.
  - exists (KeyError "value"), w. cbn [app threat_hunt_loop]. unfold bind, lift.
    now rewrite (indicator_query_missing_value _ Htype Hkind Hvalue).
  - cbn [app threat_hunt_loop]. unfold bind, lift.
    destruct (indicator_query E earlier) as [query|e]; [|eauto].
    destruct (search_logs E es query "24h" "*" w) as [[logs|e] w1]; [|eauto].
    destruct (total_or_zero logs) as [matches|e]; [|eauto].
    destruct (first_matches logs) as [sample|e]; [|eauto].
    apply IH.
Qed.

(** X18. [handle_threat_hunt] and an indicator of type [ip], [domain] or
    [hash] that has no [value]: wherever it stands in the list, the handler
    fails after the status event and no [hunt_results] event is emitted, so
    the results of the indicators before it are lost. When it is the first
    indicator, the failure is the [KeyError] of [value] and nothing was
    searched. *)
Theorem handle_threat_hunt_missing_value :
  forall (es : option es_client) (data : pyval) (before rest : list pyval)
         (indicator : dict) (kind : pystr) (w : state E),
    py_get data "indicators" (PList []) = Ok (PList (before ++ PDict indicator :: rest)) ->
    dict_get indicator "type" = Some (PStr kind) ->
    kind = lit "ip" \/ kind = lit "domain" \/ kind = lit "hash" ->
    dict_get indicator "value" = None ->
    (exists e w',
        handle_threat_hunt E es data w =
          (([ ("status" : pystr, status "Starting threat hunt...") ], Raise e), w')) /\
    (before = [] ->
        handle_threat_hunt E es data w =
          (([ ("status" : pystr, status "Starting threat hunt...") ],
            Raise (KeyError "value")), w)).
Proof.
  intros es data before rest indicator kind w Hdata Htype Hkind Hvalue. split.
  - destruct (@threat_hunt_loop_missing_value es before indicator rest kind Htype Hkind Hvalue [] w)
      as (e & w' & Hloop).
    exists e, w'. unfold handle_threat_hunt, hbind, run, emit, lift.
    rewrite Hdata. cbn [py_iter]. rewrite Hloop. reflexivity.
  - intros ->. unfold handle_threat_hunt, hbind, run, emit, lift.
    rewrite Hdata. cbn [py_iter app threat_hunt_loop]. unfold bind, lift.
    now rewrite (indicator_query_missing_value _ Htype Hkind Hvalue).
Qed.

Lemma format_alert_of hit source :
  alert_hit hit source -> format_alert hit = Ok (alert_of source).
Proof.
  intros (Hsource & Hrule & Hagent). unfold format_alert, alert_of, subfield, field.
  rewrite Hsource. cbn [obind py_get].
  destruct Hrule as [-> | (rule & ->)], Hagent as [-> | (agent & ->)]; reflexivity.
Qed.

Lemma format_alerts_of hits sources :
  Forall2 alert_hit hits sources ->
  forall formatted, format_alerts formatted hits = Ok (formatted ++ map alert_of sources).
Proof.
  induction 1 as [|hit source hits sources Hhit _ IH]; intros formatted.
  - cbn. now rewrite app_nil_r.
  - cbn [format_alerts map]. rewrite (format_alert_of Hhit). cbn [obind].
    rewrite IH, <- app_assoc. reflexivity.
Qed.

(** X19. [handle_get_alerts] on an answer of the backend: the search is
    made with the [severity] and the [limit] of the payload ([medium] and
    20 when absent); when the answer has no [error] key and lists hits, the
    handler emits the status and then one [alerts] event with one alert
    for each hit, in the order of the hits, and the total of the answer.
    An alert shows the timestamp, the description and the level of the
    rule, the name of the agent, the location and the full log of the
    document, with the defaults [None], [Unknown rule], 0, [Unknown],
    [Unknown] and [No description] for what the document lacks. *)
Theorem handle_get_alerts_formats :
  forall (c : es_client) (data answer inner : dict) (hits : list pyval)
         (sources : list dict) (total : pyval) (w w' : state E),
    es_search E "wazuh-alerts-*"
      (security_alerts_body (field data "severity" "medium") (field data "limit" 20%Z)) w =
      (Ok (PDict answer), w') ->
    dict_get answer "error" = None ->
    dict_get answer "hits" = Some (PDict inner) ->
    dict_get inner "hits" = Some (PList hits) ->
    Forall2 alert_hit hits sources ->
    total_or_zero (PDict answer) = Ok total ->
    handle_get_alerts E (Some c) (PDict data) w =
      (([ ("status" : pystr, status "Retrieving security alerts...");
          ("alerts" : pystr, PDict [ "alerts" --> PList (map alert_of sources);
                                     "total" --> total ]) ],
        Ok tt), w').
Proof.
  intros c data answer inner hits sources total w w' Hsearch Herror Hhits Hinner Hall Htotal.
  unfold handle_get_alerts, hbind, run, emit, lift, get_security_alerts, try_except, bind,
    search, ret.
  cbn [py_get]. fold (field data "severity" "medium"). fold (field data "limit" 20%Z).
  rewrite Hsearch. unfold formatted_alerts.
  cbn [py_in subscript obind]. unfold dict_has. rewrite Herror, Hhits.
  cbn [py_in subscript obind]. unfold dict_has. rewrite Hinner. cbn [py_iter obind].
  rewrite (format_alerts_of Hall), Htotal. reflexivity.
Qed.

(** X20. [handle_get_alerts] without an answer of the backend: the handler
    does not fail. It emits the status and then one [response] event that
    carries the error: [Elasticsearch not connected] when the client was
    never built, the text of the exception when the search faults. No
    [alerts] event is emitted. *)
Theorem handle_get_alerts_unavailable :
  forall (data : dict) (w : state E),
    handle_get_alerts E None (PDict data) w =
      (([ ("status" : pystr, status "Retrieving security alerts...");
          ("response" : pystr, error_dict "Elasticsearch not connected") ],
        Ok tt), w) /\
    (forall (c : es_client) (e : exn) (w' : state E),
        es_search E "wazuh-alerts-*"
          (security_alerts_body (field data "severity" "medium") (field data "limit" 20%Z)) w =
          (Raise e, w') ->
        handle_get_alerts E (Some c) (PDict data) w =
          (([ ("status" : pystr, status "Retrieving security alerts...");
              ("response" : pystr, error_dict (str_exn E e)) ],
            Ok tt), w')).
Proof.
  intros data w. split.
  - reflexivity.
  - intros c e w' Hsearch.
    unfold handle_get_alerts, hbind, run, emit, lift, get_security_alerts, try_except, bind,
      search, ret.
    cbn [py_get]. fold (field data "severity" "medium"). fold (field data "limit" 20%Z).
    rewrite Hsearch. reflexivity.
Qed.

(** X21. [handle_log_analysis] without an answer of the backend: the
    handler does not fail. It emits the status [Searching logs...] and then
    one [response] event that carries the error ([Elasticsearch not
    connected] when the client was never built, the text of the exception
    when the search faults), and the model endpoint is never called. The
    search is made on every index with the [query] and the [time_range] of
    the payload ([*] and [1h] when absent). *)
Theorem handle_log_analysis_unavailable :
  forall (data : dict) (w : state E),
    (handle_log_analysis E None (PDict data) w =
       (([ ("status" : pystr, status "Searching logs...");
           ("response" : pystr, error_dict "Elasticsearch not connected") ],
         Ok tt), w) /\
     handler_posts (handle_log_analysis (tracing E) None (PDict data)) w = []) /\
    (forall (c : es_client) (now : datetime) (e : exn) (w1 w2 : state E),
        utcnow E w = (now, w1) ->
        es_search E "*"
          (search_logs_body (field data "query" "*")
             (search_start_time now (token_text (field data "time_range" "1h")))) w1 =
          (Raise e, w2) ->
        handle_log_analysis E (Some c) (PDict data) w =
          (([ ("status" : pystr, status "Searching logs...");
              ("response" : pystr, error_dict (str_exn E e)) ],
            Ok tt), w2) /\
        handler_posts (handle_log_analysis (tracing E) (Some c) (PDict data)) w = []).
Proof.
  intros data w. split; [split; reflexivity|].
  intros c now e w1 w2 Hnow Hsearch. split.
  - unfold handle_log_analysis, hbind, run, emit, lift, search_logs_any, search_logs,
      try_except, bind, now_, search, ret.
    cbn [py_get]. fold (field data "query" "*"). fold (field data "time_range" "1h").
    fold (token_text (field data "time_range" "1h")).
    rewrite Hnow, Hsearch. reflexivity.
  - unfold handler_posts, handle_log_analysis, hbind, run, emit, lift, search_logs_any,
      search_logs, try_except, bind, now_, search, ret.
    cbn [py_get utcnow es_search tracing fst snd].
    fold (field data "query" "*"). fold (field data "time_range" "1h").
    fold (token_text (field data "time_range" "1h")).
    rewrite Hnow. cbn [fst snd]. rewrite Hsearch. reflexivity.
Qed.

(** X22. [handle_log_analysis] on an answer of the backend that has no
    [error] key: the handler emits [Searching logs...], then [Analyzing
    with AI...], then one [response] event with the analysis, the total of
    the answer, and the [query] and [time_range] of the payload as they
    were given. The model endpoint is called by [analyze_with_ai] only.
    When the total of the answer cannot be read ([hits] or [total] is not
    an object), the handler fails after the model was asked, and no
    [response] event is emitted. *)
Theorem handle_log_analysis_answers :
  forall (c : es_client) (data : dict) (now : datetime) (logs analysis : pyval)
         (w w1 w2 w3 : state E),
    utcnow E w = (now, w1) ->
    es_search E "*"
      (search_logs_body (field data "query" "*")
         (search_start_time now (token_text (field data "time_range" "1h")))) w1 =
      (Ok logs, w2) ->
    py_in "error" logs = Ok false ->
    analyze_with_ai E logs (field data "question" "") w2 = (Ok analysis, w3) ->
    (forall found, total_or_zero logs = Ok found ->
        handle_log_analysis E (Some c) (PDict data) w =
          (([ ("status" : pystr, status "Searching logs...");
              ("status" : pystr, status "Analyzing with AI...");
              ("response" : pystr,
               PDict [ "analysis" --> analysis;
                       "logs_found" --> found;
                       "query" --> field data "query" "*";
                       "time_range" --> field data "time_range" "1h" ]) ],
            Ok tt), w3)) /\
    (forall e, total_or_zero logs = Raise e ->
        handle_log_analysis E (Some c) (PDict data) w =
          (([ ("status" : pystr, status "Searching logs...");
              ("status" : pystr, status "Analyzing with AI...") ],
            Raise e), w3)) /\
    handler_posts (handle_log_analysis (tracing E) (Some c) (PDict data)) w =
      posts_sent (analyze_with_ai (tracing E) logs (field data "question" "")) w2.
Proof.
  intros c data now logs analysis w w1 w2 w3 Hnow Hsearch Herror Hanalysis.
  assert (Hhead : forall found_or_error,
    total_or_zero logs = found_or_error ->
    handle_log_analysis E (Some c) (PDict data) w =
      (match found_or_error with
       | Ok found =>
           ([ ("status" : pystr, status "Searching logs...");
              ("status" : pystr, status "Analyzing with AI...");
              ("response" : pystr,
               PDict [ "analysis" --> analysis;
                       "logs_found" --> found;
                       "query" --> field data "query" "*";
                       "time_range" --> field data "time_range" "1h" ]) ],
            Ok tt)
       | Raise e =>
           ([ ("status" : pystr, status "Searching logs...");
              ("status" : pystr, status "Analyzing with AI...") ],
            Raise e)
       end, w3)).
  { intros found_or_error Htotal.
    unfold handle_log_analysis, hbind, run, emit, lift, search_logs_any, search_logs.
    unfold try_except at 1. unfold bind at 1 2. unfold now_, search, ret.
    cbn [py_get]. fold (field data "query" "*"). fold (field data "time_range" "1h").
    fold (field data "question" ""). fold (token_text (field data "time_range" "1h")).
    rewrite Hnow, Hsearch, Herror, Hanalysis, Htotal.
    destruct found_or_error; reflexivity. }
  split; [|split].
  - intros found Htotal. exact (Hhead _ Htotal).
  - intros e Htotal. exact (Hhead _ Htotal).
  - unfold handler_posts, posts_sent, handle_log_analysis, hbind, run, emit, lift,
      search_logs_any, search_logs.
    unfold try_except at 1. unfold bind at 1 2. unfold now_, search, ret.
    cbn [py_get utcnow es_search tracing fst snd].
    fold (field data "query" "*"). fold (field data "time_range" "1h").
    fold (field data "question" ""). fold (token_text (field data "time_range" "1h")).
    rewrite Hnow. cbn [fst snd]. rewrite Hsearch. cbn [fst snd]. rewrite Herror.
    destruct (analyze_with_ai (tracing E) logs (field data "question" "") (w2, []))
      as [[answer|e] [w3' posts]]; [|reflexivity].
    destruct (total_or_zero logs); reflexivity.
Qed.

End Handlers.

Section HandlerExamples.

Local Open Scope string_scope.
Local Open Scope list_scope.
Local Open Scope py_scope.

Lemma handle_threat_hunt_unavailable_witness :
  exists w',
    handle_threat_hunt offline_world (Some Elasticsearch)
      (PDict [ "indicators" --> PList [ PDict [ "type" --> "ip"; "value" --> "10.0.0.5" ];
                                         PDict [ "value" --> "mimikatz" ] ] ]) 0 =
      (([ ("status" : pystr, status "Starting threat hunt...");
          ("hunt_results" : pystr,
           PDict [ "results" -->
                   PList [ no_match (PDict [ "type" --> "ip"; "value" --> "10.0.0.5" ]);
                           no_match (PDict [ "value" --> "mimikatz" ]) ] ]) ],
        Ok tt), w').
Proof.
  apply (@handle_threat_hunt_unavailable offline_world (Some Elasticsearch)
           (PDict [ "indicators" --> PList [ PDict [ "type" --> "ip"; "value" --> "10.0.0.5" ];
                                              PDict [ "value" --> "mimikatz" ] ] ])
           [ PDict [ "type" --> "ip"; "value" --> "10.0.0.5" ];
             PDict [ "value" --> "mimikatz" ] ] 0%nat).
  - right. intros index body w. exists (Fault "Connection refused"). reflexivity.
  - reflexivity.
  - repeat constructor; eexists; reflexivity.
Defined.

Lemma handle_threat_hunt_missing_value_witness :
  handle_threat_hunt sample_world (Some Elasticsearch)
    (PDict [ "indicators" --> PList [ PDict [ "type" --> "hash" ] ] ]) 0 =
    (([ ("status" : pystr, status "Starting threat hunt...") ], Raise (KeyError "value")), 0%nat).
Proof.
  destruct (@handle_threat_hunt_missing_value sample_world (Some Elasticsearch)
              (PDict [ "indicators" --> PList [ PDict [ "type" --> "hash" ] ] ])
              [] [] [ "type" --> "hash" ] "hash" 0%nat)
    as [_ Hfirst].
  - reflexivity.
  - reflexivity.
  - right. right. reflexivity.
  - reflexivity.
  - apply Hfirst. reflexivity.
Defined.

Lemma handle_get_alerts_formats_witness :
  handle_get_alerts sample_world (Some Elasticsearch) (PDict [ "limit" --> 5%Z ]) 0 =
    (([ ("status" : pystr, status "Retrieving security alerts...");
        ("alerts" : pystr,
         PDict [ "alerts" -->
                 PList [ PDict [ "timestamp" --> "2024-01-01T09:58:12Z";
                                 "rule" --> "Unknown rule";
                                 "level" --> 0%Z;
                                 "agent" --> "Unknown";
                                 "location" --> "Unknown";
                                 "description" --> "No description" ] ];
                 "total" --> 1%Z ]) ],
      Ok tt), 1%nat).
Proof.
  apply (@handle_get_alerts_formats sample_world Elasticsearch [ "limit" --> 5%Z ]
           [ "took" --> 3%Z;
             "hits" --> PDict [
               "total" --> PDict [ "value" --> 1%Z; "relation" --> "eq" ];
               "hits" --> PList [
                 PDict [ "_index" --> "logs-2024.01.01";
                         "_source" --> PDict [ "@timestamp" --> "2024-01-01T09:58:12Z";
                                               "message" --> "Accepted password for root" ] ]
               ]
             ] ]
           [ "total" --> PDict [ "value" --> 1%Z; "relation" --> "eq" ];
             "hits" --> PList [
               PDict [ "_index" --> "logs-2024.01.01";
                       "_source" --> PDict [ "@timestamp" --> "2024-01-01T09:58:12Z";
                                             "message" --> "Accepted password for root" ] ]
             ] ]
           [ PDict [ "_index" --> "logs-2024.01.01";
                     "_source" --> PDict [ "@timestamp" --> "2024-01-01T09:58:12Z";
                                           "message" --> "Accepted password for root" ] ] ]
           [ [ "@timestamp" --> "2024-01-01T09:58:12Z";
               "message" --> "Accepted password for root" ] ]
           (PInt 1) 0%nat 1%nat).
  - reflexivity.
  - reflexivity.
  - reflexivity.
  - reflexivity.
  - constructor; [|constructor]. split; [reflexivity|]. split; left; reflexivity.
  - reflexivity.
Defined.

Lemma handle_log_analysis_answers_witness :
  handle_log_analysis sample_world (Some Elasticsearch)
    (PDict [ "question" --> "Who logged in?"; "time_range" --> "24h" ]) 0 =
    (([ ("status" : pystr, status "Searching logs...");
        ("status" : pystr, status "Analyzing with AI...");
        ("response" : pystr,
         PDict [ "analysis" --> "Low risk.";
                 "logs_found" --> 1%Z;
                 "query" --> "*";
                 "time_range" --> "24h" ]) ],
      Ok tt), 1%nat).
Proof.
  destruct (@handle_log_analysis_answers sample_world Elasticsearch
              [ "question" --> "Who logged in?"; "time_range" --> "24h" ]
              1704103200000000%Z sample_result (PStr "Low risk.") 0%nat 0%nat 1%nat 1%nat)
    as [Hanswer _].
  - reflexivity.
  - reflexivity.
  - reflexivity.
  - reflexivity.
  - apply (Hanswer (PInt 1)). reflexivity.
Defined.

End HandlerExamples.
